(** * Address allocation and route injection of baker-street-integrations

    A shallow embedding of the IPAM service
    ([route-injector-integration/baker_street_ipam_service.py]), of the two
    route-injection services ([enhanced_route_injection_service.py],
    [route_injection_service.py]) and of the commit-job polling loop of the
    PAN-OS scripts ([upload_pan_os_config.py], [generate_mgmt_cert.py]),
    with the properties of the specification stated over it. *)

From Stdlib Require Import ZArith String Ascii List Bool Lia DecimalString.
From Stdlib Require DecimalFacts DecimalZ.
From stdpp Require Import base option list gmap strings.

Local Open Scope string_scope.
Local Open Scope Z_scope.

(** ** Python strings *)

Module Py.

(** [str.split(sep)] for a one-character separator: never the empty list. *)
Fixpoint split (sep : ascii) (s : string) : list string :=
  match s with
  | EmptyString => [EmptyString]
  | String c rest =>
      if Ascii.eqb c sep then EmptyString :: split sep rest
      else match split sep rest with
           | [] => [String c EmptyString]
           | piece :: pieces => String c piece :: pieces
           end
  end.

(** [sep.join(parts)]. *)
Fixpoint join (sep : string) (parts : list string) : string :=
  match parts with
  | [] => EmptyString
  | [p] => p
  | p :: rest => p +:+ sep +:+ join sep rest
  end.

(** [s.replace(a, b)] where [a] and [b] are single characters. *)
Fixpoint replace (a b : ascii) (s : string) : string :=
  match s with
  | EmptyString => EmptyString
  | String c rest => String (if Ascii.eqb c a then b else c) (replace a b rest)
  end.

(** [s.startswith(p)]. *)
Definition startswith (s p : string) : bool := String.prefix p s.

(** [c in s] for a character. *)
Fixpoint contains (c : ascii) (s : string) : bool :=
  match s with
  | EmptyString => false
  | String d rest => Ascii.eqb c d || contains c rest
  end.

(** Truthiness of a string: [if s:]. *)
Definition truthy (s : string) : bool :=
  match s with EmptyString => false | _ => true end.

Definition is_digit (c : ascii) : bool :=
  let n := N_of_ascii c in (48 <=? n)%N && (n <=? 57)%N.

(** [s.isascii() and s.isdigit()]: non-empty, only the digits 0 to 9. *)
Fixpoint all_digits (s : string) : bool :=
  match s with
  | EmptyString => true
  | String c rest => is_digit c && all_digits rest
  end.

Definition isdigit (s : string) : bool := truthy s && all_digits s.

(** [int(s, 10)] on a string of decimal digits. *)
Fixpoint int_acc (acc : Z) (s : string) : Z :=
  match s with
  | EmptyString => acc
  | String c rest => int_acc (10 * acc + (Z.of_N (N_of_ascii c) - 48)) rest
  end.

Definition int (s : string) : Z := int_acc 0 s.

(** [str(n)] for an integer. *)
Definition str (n : Z) : string := NilZero.string_of_int (Z.to_int n).

End Py.

(** ** The [ipaddress] module, IPv4 part

    Addresses are the 32-bit integers [ipaddress] keeps in [_ip].  IPv6 is
    outside this development: a string that is no IPv4 literal is read as
    unparsable. *)

Module ipaddress.

Definition ALL_ONES : Z := Z.ones 32.

(** [IPv4Address._parse_octet]: decimal digits only, at most three of them,
    no leading zero (CPython 3.9.5 and later), at most 255. *)
Definition parse_octet (octet_str : string) : option Z :=
  if negb (Py.truthy octet_str) then None
  else if negb (Py.all_digits octet_str) then None
  else if (3 <? String.length octet_str)%nat then None
  else if negb (String.eqb octet_str "0") && Py.startswith octet_str "0" then None
  else let octet_int := Py.int octet_str in
       if 255 <? octet_int then None else Some octet_int.

(** [int.from_bytes(octets, 'big')]. *)
Definition from_bytes (octets : list Z) : Z :=
  fold_left (fun acc b => acc * 256 + b) octets 0.

(** [IPv4Address._ip_int_from_string]. *)
Definition ip_int_from_string (ip_str : string) : option Z :=
  if negb (Py.truthy ip_str) then None
  else
    let octets := Py.split "." ip_str in
    if negb (length octets =? 4)%nat then None
    else from_bytes <$> mapM parse_octet octets.

(** [ipaddress.ip_address(address)] on a string; [None] is [ValueError]. *)
Definition ip_address (address : string) : option Z :=
  if Py.contains "/" address then None else ip_int_from_string address.

(** [str(IPv4Address(n))]: the dotted quad. *)
Definition to_str (n : Z) : string :=
  Py.join "." (map Py.str [Z.shiftr n 24 mod 256; Z.shiftr n 16 mod 256;
                           Z.shiftr n 8 mod 256; n mod 256]).

(** An [IPv4Network]. *)
Record IPv4Network := {
  network_address : Z;
  prefixlen : Z
}.

(** [_ip_int_from_prefix]: the netmask of a prefix length. *)
Definition ip_int_from_prefix (p : Z) : Z :=
  Z.lxor ALL_ONES (Z.shiftr ALL_ONES p).

Definition netmask (net : IPv4Network) : Z := ip_int_from_prefix (prefixlen net).
Definition hostmask (net : IPv4Network) : Z := Z.lxor (netmask net) ALL_ONES.
Definition broadcast_address (net : IPv4Network) : Z :=
  Z.lor (network_address net) (hostmask net).

(** [_prefix_from_prefix_string]. *)
Definition prefix_from_prefix_string (s : string) : option Z :=
  if negb (Py.isdigit s) then None
  else let p := Py.int s in if p <=? 32 then Some p else None.

(** [_prefix_from_ip_int]: the prefix length of a mask of ones followed by
    zeroes. *)
Definition prefix_from_ip_int (ip_int : Z) : option Z :=
  find (fun p => ip_int =? ip_int_from_prefix p) (map Z.of_nat (seq 0 33)).

(** [_prefix_from_ip_string]: a dotted netmask, else a dotted hostmask. *)
Definition prefix_from_ip_string (s : string) : option Z :=
  match ip_int_from_string s with
  | None => None
  | Some ip_int =>
      match prefix_from_ip_int ip_int with
      | Some p => Some p
      | None => prefix_from_ip_int (Z.lxor ip_int ALL_ONES)
      end
  end.

(** [_make_netmask] on the string after the slash. *)
Definition make_netmask (arg : string) : option Z :=
  match prefix_from_prefix_string arg with
  | Some p => Some p
  | None => prefix_from_ip_string arg
  end.

(** [ipaddress.ip_network(address, strict)] on a string; [None] is
    [ValueError].  With [strict] host bits must be zero, without it they are
    masked away. *)
Definition ip_network (strict : bool) (address : string) : option IPv4Network :=
  match Py.split "/" address with
  | [a] =>
      (fun ip => {| network_address := ip; prefixlen := 32 |}) <$> ip_int_from_string a
  | [a; m] =>
      match ip_int_from_string a, make_netmask m with
      | Some ip, Some p =>
          let mask := ip_int_from_prefix p in
          if Z.land ip mask =? ip
          then Some {| network_address := ip; prefixlen := p |}
          else if strict then None
          else Some {| network_address := Z.land ip mask; prefixlen := p |}
      | _, _ => None
      end
  | _ => None
  end.

(** [ip in network]. *)
Definition contains (net : IPv4Network) (ip : Z) : bool :=
  Z.land ip (netmask net) =? network_address net.

(** [range(a, b)]. *)
Definition range (a b : Z) : list Z :=
  map (fun i => a + Z.of_nat i) (seq 0 (Z.to_nat (b - a))).

(** [network.hosts()]: every address strictly between the network and the
    broadcast address; both addresses of a /31; the one address of a /32. *)
Definition hosts (net : IPv4Network) : list Z :=
  if prefixlen net =? 31 then range (network_address net) (broadcast_address net + 1)
  else if prefixlen net =? 32 then [network_address net]
  else range (network_address net + 1) (broadcast_address net).

End ipaddress.

(** ** The world the services act on

    One record for everything the three services read and write: the
    PostgreSQL tables and the Redis of the IPAM service, the records held
    by the DNS API, the static routes of the master router (candidate and
    running configuration, and the commit requests it accepted) and the
    Redis of the route-injection service.  Both Redis instances are finite
    maps that always answer.  Every entry is written with [setex] and a
    time to live, and Redis drops it when that time is over.  The IPAM
    service writes its cache and never reads it.  The route-injection
    services read theirs: the expiry of route entries is an event of the
    world between two calls, [expire] below, and no step of a service. *)

Module Subnet.
Record t := {
  id : Z;
  name : string;
  network_cidr : string;
  zone : string;
  gateway : option string
}.
End Subnet.

Module Device.
Record t := {
  id : Z;
  hostname : string
}.
End Device.

(** A row of [ip_addresses]; times are seconds since the epoch. *)
Module IPAddress.
Record t := {
  id : Z;
  ip_address : string;
  subnet_id : Z;
  device_id : option Z;
  status : string;
  allocated_at : option Z;
  expires_at : option Z;
  notes : option string
}.
End IPAddress.

(** A record held by the DNS API. *)
Record DNSRecord := {
  dns_zone : string;
  dns_fqdn : string;
  dns_ip_address : string;
  dns_ttl : Z
}.

(** The [route_info] dictionary cached under [route:<route_name>]; only
    the enhanced service records a [router]. *)
Record RouteInfo := {
  ri_route_name : string;
  ri_fqdn : string;
  ri_ip_address : string;
  ri_zone : string;
  ri_created_at : Z;
  ri_status : string;
  ri_router : option string
}.

Record World := {
  subnets : list Subnet.t;
  devices : list Device.t;
  ip_addresses : list IPAddress.t;
  ipam_cache : gmap string IPAddress.t;
  dns_records : list DNSRecord;
  candidate_routes : gmap string string;
  running_routes : gmap string string;
  commit_jobs : list (gmap string string);
  route_cache : gmap string RouteInfo
}.

Definition set_ip_addresses (rows : list IPAddress.t) (w : World) : World :=
  {| subnets := subnets w; devices := devices w; ip_addresses := rows;
     ipam_cache := ipam_cache w; dns_records := dns_records w;
     candidate_routes := candidate_routes w; running_routes := running_routes w;
     commit_jobs := commit_jobs w; route_cache := route_cache w |}.

Definition set_ipam_cache (c : gmap string IPAddress.t) (w : World) : World :=
  {| subnets := subnets w; devices := devices w; ip_addresses := ip_addresses w;
     ipam_cache := c; dns_records := dns_records w;
     candidate_routes := candidate_routes w; running_routes := running_routes w;
     commit_jobs := commit_jobs w; route_cache := route_cache w |}.

Definition set_dns_records (d : list DNSRecord) (w : World) : World :=
  {| subnets := subnets w; devices := devices w; ip_addresses := ip_addresses w;
     ipam_cache := ipam_cache w; dns_records := d;
     candidate_routes := candidate_routes w; running_routes := running_routes w;
     commit_jobs := commit_jobs w; route_cache := route_cache w |}.

Definition set_candidate_routes (r : gmap string string) (w : World) : World :=
  {| subnets := subnets w; devices := devices w; ip_addresses := ip_addresses w;
     ipam_cache := ipam_cache w; dns_records := dns_records w;
     candidate_routes := r; running_routes := running_routes w;
     commit_jobs := commit_jobs w; route_cache := route_cache w |}.

Definition set_commit_jobs (jobs : list (gmap string string)) (w : World) : World :=
  {| subnets := subnets w; devices := devices w; ip_addresses := ip_addresses w;
     ipam_cache := ipam_cache w; dns_records := dns_records w;
     candidate_routes := candidate_routes w; running_routes := running_routes w;
     commit_jobs := jobs; route_cache := route_cache w |}.

Definition set_route_cache (c : gmap string RouteInfo) (w : World) : World :=
  {| subnets := subnets w; devices := devices w; ip_addresses := ip_addresses w;
     ipam_cache := ipam_cache w; dns_records := dns_records w;
     candidate_routes := candidate_routes w; running_routes := running_routes w;
     commit_jobs := commit_jobs w; route_cache := c |}.

(** Redis drops the entries of the route cache whose time to live is
    over: [keys] are the keys it has dropped since the call before. *)
Definition expire (keys : list string) (w : World) : World :=
  set_route_cache (foldr delete (route_cache w) keys) w.

(** How the systems behind the HTTP calls answer during one request: the
    DNS API to the IPAM service's [create_record], the DNS API to the
    route-injection service's [add_dns_record] (with the error text it
    reports), and the router to a route [set], a route [delete] and a
    [commit] request.  The router answers a [commit] request with status
    [success] when it has enqueued the commit job. *)
Record Answers := {
  ipam_dns_ok : bool;
  dns_add_ok : bool;
  dns_add_error : string;
  route_set_ok : bool;
  route_delete_ok : bool;
  commit_ok : bool
}.

(** *** The master router

    [create_static_route], [delete_static_route] and
    [commit_configuration] answer [True] or [False]; a call that fails
    leaves the router as it was, a [set] or [delete] that succeeds changes
    the candidate configuration.  [commit_configuration] answers [True]
    as soon as the router has answered the commit request with status
    [success]: the job is enqueued, and the function neither reads its
    identifier nor polls it.  [commit_jobs] keeps, for each commit request
    the router accepted, the candidate configuration at the time of the
    request; the running configuration is the router's to change, when
    and if a job finishes, and no function of the services writes it. *)

Definition create_static_route (ans : Answers) (route_name destination : string)
    (w : World) : bool * World :=
  if route_set_ok ans
  then (true, set_candidate_routes (<[route_name := destination]> (candidate_routes w)) w)
  else (false, w).

Definition delete_static_route (ans : Answers) (route_name : string)
    (w : World) : bool * World :=
  if route_delete_ok ans
  then (true, set_candidate_routes (delete route_name (candidate_routes w)) w)
  else (false, w).

Definition commit_configuration (ans : Answers) (w : World) : bool * World :=
  if commit_ok ans
  then (true, set_commit_jobs (commit_jobs w ++ [candidate_routes w])%list w)
  else (false, w).

(** ** The enhanced route-injection service
    ([enhanced_route_injection_service.py]) *)

Module RouteInjectionService.

(** The keys of [config.yaml] the service reads, with the defaults the
    code gives to [get]. *)
Record Config := {
  cyber_range_networks : list string;
  auto_commit : bool;
  naming_prefix : string;
  include_zone : bool;
  include_timestamp : bool;
  separator : string
}.

(** [ConfigManager._get_default_config]. *)
Definition default_config : Config := {|
  cyber_range_networks := ["10.0.0.0/8"; "172.20.0.0/16"; "192.168.0.0/16"];
  auto_commit := true;
  naming_prefix := "dns";
  include_zone := true;
  include_timestamp := false;
  separator := "_"
|}.

(** The result dictionaries of the two workflows. *)
Record InjectResult := {
  success : bool;
  message : string;
  route_injected : bool;
  route_name : option string
}.

Record RemoveResult := {
  rm_success : bool;
  rm_message : string;
  route_removed : bool;
  rm_route_name : option string
}.

(** The loop of [is_cyber_range_ip]; [None] is the [ValueError] of a
    network string that does not parse. *)
Fixpoint in_networks (ip : Z) (networks : list string) : option bool :=
  match networks with
  | [] => Some false
  | network_str :: rest =>
      match ipaddress.ip_network false network_str with
      | None => None
      | Some network =>
          if ipaddress.contains network ip then Some true else in_networks ip rest
      end
  end.

(** [is_cyber_range_ip]: any exception gives [False]. *)
Definition is_cyber_range_ip (cfg : Config) (ip_address : string) : bool :=
  match ipaddress.ip_address ip_address with
  | None => false
  | Some ip => default false (in_networks ip (cyber_range_networks cfg))
  end.

(** [generate_route_name]; [now] is [time.time()]. *)
Definition generate_route_name (cfg : Config) (now : Z)
    (fqdn ip_address zone : string) : string :=
  let parts := [naming_prefix cfg] in
  let parts := if include_zone cfg && Py.truthy zone
               then (parts ++ [Py.replace "." "_" zone])%list else parts in
  let fqdn_clean := Py.replace "-" "_" (Py.replace "." "_" fqdn) in
  let parts := (parts ++ [fqdn_clean])%list in
  let ip_clean := Py.replace "." "_" ip_address in
  let parts := (parts ++ [ip_clean])%list in
  let parts := if include_timestamp cfg then (parts ++ [Py.str now])%list else parts in
  Py.join (separator cfg) parts.

(** [DNSAPIManager.add_dns_record]. *)
Definition add_dns_record (ans : Answers) (zone fqdn ip_address : string) (ttl : Z)
    (w : World) : bool * World :=
  if dns_add_ok ans
  then (true, set_dns_records
                ({| dns_zone := zone; dns_fqdn := fqdn;
                    dns_ip_address := ip_address; dns_ttl := ttl |} :: dns_records w) w)
  else (false, w).

Definition cache_key (route_name : string) : string := "route:" +:+ route_name.

(** [inject_route_for_dns_record]. *)
Definition inject_route_for_dns_record (cfg : Config) (ans : Answers) (now : Z)
    (zone fqdn ip_address : string) (ttl : Z) (w : World) : InjectResult * World :=
  if negb (is_cyber_range_ip cfg ip_address) then
    ({| success := true;
        message := "DNS record processed, no route injection needed";
        route_injected := false; route_name := None |}, w)
  else
    let '(dns_success, w) := add_dns_record ans zone fqdn ip_address ttl w in
    if negb dns_success then
      ({| success := false;
          message := "DNS record addition failed: " +:+ dns_add_error ans;
          route_injected := false; route_name := None |}, w)
    else
      let name := generate_route_name cfg now fqdn ip_address zone in
      let '(route_created, w) := create_static_route ans name ip_address w in
      if route_created then
        let w := if auto_commit cfg then snd (commit_configuration ans w) else w in
        let route_info := {| ri_route_name := name; ri_fqdn := fqdn;
                             ri_ip_address := ip_address; ri_zone := zone;
                             ri_created_at := now; ri_status := "active";
                             ri_router := Some "primary" |} in
        let w := set_route_cache (<[cache_key name := route_info]> (route_cache w)) w in
        ({| success := true;
            message := "DNS record added and route injected: " +:+ fqdn;
            route_injected := true; route_name := Some name |}, w)
      else
        ({| success := false; message := "Route injection failed";
            route_injected := false; route_name := None |}, w).

(** [remove_route_for_dns_record]. *)
Definition remove_route_for_dns_record (cfg : Config) (ans : Answers) (now : Z)
    (zone fqdn ip_address : string) (w : World) : RemoveResult * World :=
  let name := generate_route_name cfg now fqdn ip_address zone in
  match route_cache w !! cache_key name with
  | None =>
      ({| rm_success := true; rm_message := "Route not found in cache";
          route_removed := false; rm_route_name := None |}, w)
  | Some _ =>
      let '(route_deleted, w) := delete_static_route ans name w in
      if route_deleted then
        let w := if auto_commit cfg then snd (commit_configuration ans w) else w in
        let w := set_route_cache (delete (cache_key name) (route_cache w)) w in
        ({| rm_success := true; rm_message := "Route removed for " +:+ fqdn;
            route_removed := true; rm_route_name := Some name |}, w)
      else
        ({| rm_success := false; rm_message := "Route removal failed";
            route_removed := false; rm_route_name := None |}, w)
  end.

End RouteInjectionService.

(** ** The webhook handler of the first route-injection service
    ([route_injection_service.py]) *)

Module DNSWebhookHandler.

Import RouteInjectionService.

(** [_is_cyber_range_ip]: a test on the prefix of the string. *)
Definition _is_cyber_range_ip (ip_address : string) : bool :=
  Py.startswith ip_address "10." || Py.startswith ip_address "172."
  || Py.startswith ip_address "192.168.".

(** The route name both handlers build. *)
Definition route_name_of (fqdn ip_address : string) : string :=
  "dns_" +:+ Py.replace "." "_" fqdn +:+ "_" +:+ Py.replace "." "_" ip_address.

(** [handle_dns_record_created]. *)
Definition handle_dns_record_created (ans : Answers) (now : Z)
    (zone fqdn ip_address : string) (w : World) : InjectResult * World :=
  if negb (_is_cyber_range_ip ip_address) then
    ({| success := true;
        message := "DNS record created, no route injection needed";
        route_injected := false; route_name := None |}, w)
  else
    let name := route_name_of fqdn ip_address in
    let '(created, w) := create_static_route ans name ip_address w in
    if created then
      let '(commit_success, w) := commit_configuration ans w in
      if commit_success then
        let route_info := {| ri_route_name := name; ri_fqdn := fqdn;
                             ri_ip_address := ip_address; ri_zone := zone;
                             ri_created_at := now; ri_status := "active";
                             ri_router := None |} in
        let w := set_route_cache (<[cache_key name := route_info]> (route_cache w)) w in
        ({| success := true;
            message := "DNS record created and route injected for " +:+ fqdn;
            route_injected := true; route_name := Some name |}, w)
      else
        ({| success := false; message := "Route created but commit failed";
            route_injected := false; route_name := None |}, w)
    else
      ({| success := false; message := "Route injection failed";
          route_injected := false; route_name := None |}, w).

(** [handle_dns_record_deleted]. *)
Definition handle_dns_record_deleted (ans : Answers)
    (zone fqdn ip_address : string) (w : World) : RemoveResult * World :=
  let name := route_name_of fqdn ip_address in
  match route_cache w !! cache_key name with
  | None =>
      ({| rm_success := true; rm_message := "Route not found in cache";
          route_removed := false; rm_route_name := None |}, w)
  | Some _ =>
      let '(deleted, w) := delete_static_route ans name w in
      if deleted then
        let '(commit_success, w) := commit_configuration ans w in
        if commit_success then
          let w := set_route_cache (delete (cache_key name) (route_cache w)) w in
          ({| rm_success := true;
              rm_message := "DNS record deleted and route removed for " +:+ fqdn;
              route_removed := true; rm_route_name := Some name |}, w)
        else
          ({| rm_success := false; rm_message := "Route deleted but commit failed";
              route_removed := false; rm_route_name := None |}, w)
      else
        ({| rm_success := false; rm_message := "Route removal failed";
            route_removed := false; rm_route_name := None |}, w)
  end.

End DNSWebhookHandler.

(** ** The IPAM service ([baker_street_ipam_service.py]) *)

(** The constraint an insert into [ip_addresses] can break: [unique=True]
    on [ip_address], or the foreign key from [device_id] to [devices.id]. *)
Inductive Violation :=
| UniqueViolation
| ForeignKeyViolation.

(** The parameters of the INSERT into [ip_addresses]: [str] of an
    [IntegrityError] shows the statement and these values.  The columns
    [created_at] and [updated_at] take [datetime.utcnow] as their default
    when the row is written. *)
Record InsertParameters := {
  ins_ip_address : string;
  ins_subnet_id : Z;
  ins_device_id : option Z;
  ins_status : string;
  ins_allocated_at : option Z;
  ins_expires_at : option Z;
  ins_notes : option string;
  ins_created_at : Z;
  ins_updated_at : Z
}.

(** The exceptions the service raises or meets: FastAPI's [HTTPException],
    [ValueError] of [ipaddress], the [IntegrityError] of an insert that
    breaks a constraint of [ip_addresses], and the [ParseError] of
    [ET.fromstring].  A detail is a literal of the source or [str(e)] of a
    caught exception. *)
Inductive Exception :=
| HTTPException (status_code : Z) (detail : Detail)
| ValueError
| IntegrityError (violation : Violation) (parameters : InsertParameters)
| ParseError
with Detail :=
| Msg (text : string)
| StrOf (e : Exception).

Inductive result (A : Type) :=
| Return (a : A)
| Raise (e : Exception).
Arguments Return {A} a.
Arguments Raise {A} e.

Module IPAMService.

(** [IPAddress.status.in_(['allocated', 'reserved'])]. *)
Definition in_allocated_reserved (st : string) : bool :=
  String.eqb st "allocated" || String.eqb st "reserved".

(** [s in allocated_set]. *)
Definition mem (s : string) (l : list string) : bool :=
  existsb (String.eqb s) l.

(** The identifier PostgreSQL gives the next row of a table in which no
    insert was refused: it comes from a sequence, which a refused insert
    advances as well. *)
Definition next_id (rows : list IPAddress.t) : Z :=
  1 + fold_right Z.max 0 (map IPAddress.id rows).

(** The values of the INSERT of [row], written at [now]. *)
Definition parameters_of (now : Z) (row : IPAddress.t) : InsertParameters := {|
  ins_ip_address := IPAddress.ip_address row;
  ins_subnet_id := IPAddress.subnet_id row;
  ins_device_id := IPAddress.device_id row;
  ins_status := IPAddress.status row;
  ins_allocated_at := IPAddress.allocated_at row;
  ins_expires_at := IPAddress.expires_at row;
  ins_notes := IPAddress.notes row;
  ins_created_at := now;
  ins_updated_at := now
|}.

(** The foreign key of [ip_addresses.device_id]: no device, or the
    identifier of a row of [devices]. *)
Definition device_exists (devices : list Device.t) (device_id : option Z) : bool :=
  match device_id with
  | None => true
  | Some d => existsb (fun dev => Device.id dev =? d) devices
  end.

(** [session.add(ip_record); session.commit()].  The column [ip_address]
    is declared [unique=True], so a second row with the same address is
    refused; [device_id] is declared [ForeignKey("devices.id")], so a row
    that names a device the table [devices] lacks is refused, the unique
    index being checked when the row is written and the foreign key after
    it.  Either refusal is an [IntegrityError].  The foreign key of
    [subnet_id] holds of the subnet the caller has just read. *)
Definition insert (devices : list Device.t) (now : Z) (row : IPAddress.t)
    (rows : list IPAddress.t) : result (list IPAddress.t) :=
  if existsb (fun r => String.eqb (IPAddress.ip_address r) (IPAddress.ip_address row)) rows
  then Raise (IntegrityError UniqueViolation (parameters_of now row))
  else if negb (device_exists devices (IPAddress.device_id row))
  then Raise (IntegrityError ForeignKeyViolation (parameters_of now row))
  else Return (rows ++ [row])%list.

(** [if preferred_ip:]: [None] and the empty string are no preference. *)
Definition preference (preferred_ip : option string) : option string :=
  match preferred_ip with
  | Some s => if Py.truthy s then Some s else None
  | None => None
  end.

(** The validity check of the preferred address: [ip not in network] is
    raised as 400 from inside the [try]; [ValueError] becomes the other
    400. *)
Definition check_preferred (network : ipaddress.IPv4Network) (preferred : string)
    : result unit :=
  match ipaddress.ip_address preferred with
  | None => Raise (HTTPException 400 (Msg "Invalid preferred IP format"))
  | Some ip =>
      if negb (ipaddress.contains network ip)
      then Raise (HTTPException 400 (Msg "Preferred IP not in subnet"))
      else Return tt
  end.

(** [allocated_set]: the addresses of the rows of this subnet that are
    allocated or reserved. *)
Definition allocated_set (rows : list IPAddress.t) (subnet_id : Z) : list string :=
  map IPAddress.ip_address
      (List.filter (fun r => (IPAddress.subnet_id r =? subnet_id)
                             && in_allocated_reserved (IPAddress.status r))
                   rows).

(** The [for ... else] over [network.hosts()]: the first host whose
    string is not in [allocated_set], else 507. *)
Definition first_available (network : ipaddress.IPv4Network) (allocated : list string)
    : result string :=
  match find (fun ip => negb (mem (ipaddress.to_str ip) allocated))
             (ipaddress.hosts network) with
  | Some ip => Return (ipaddress.to_str ip)
  | None => Raise (HTTPException 507 (Msg "No available IPs in subnet"))
  end.

(** "Find available IP": the preferred address unless a row holds it as
    allocated or reserved (409), else the scan. *)
Definition find_available (rows : list IPAddress.t) (subnet_id : Z)
    (network : ipaddress.IPv4Network) (preferred_ip : option string) : result string :=
  match preference preferred_ip with
  | Some preferred =>
      match find (fun r => String.eqb (IPAddress.ip_address r) preferred
                           && in_allocated_reserved (IPAddress.status r)) rows with
      | Some _ => Raise (HTTPException 409 (Msg "Preferred IP already allocated"))
      | None => Return preferred
      end
  | None => first_available network (allocated_set rows subnet_id)
  end.

(** [_is_cyber_range_ip]. *)
Definition _is_cyber_range_ip (ip_address : string) : bool :=
  let cyber_range_networks :=
    ["10.0.0.0/8"; "172.20.0.0/16"; "172.21.0.0/16"; "192.168.0.0/16"] in
  match ipaddress.ip_address ip_address with
  | None => false
  | Some ip => default false (RouteInjectionService.in_networks ip cyber_range_networks)
  end.

(** [_create_dns_record] with [DNSAPIClient.create_record]: a failure is
    logged and swallowed. *)
Definition _create_dns_record (ans : Answers) (hostname ip_address zone : string)
    (w : World) : World :=
  if ipam_dns_ok ans
  then set_dns_records
         ({| dns_zone := zone; dns_fqdn := hostname +:+ "." +:+ zone;
             dns_ip_address := ip_address; dns_ttl := 300 |} :: dns_records w) w
  else w.

(** [if device_id:]. *)
Definition device_given (device_id : option Z) : option Z :=
  match device_id with
  | Some d => if d =? 0 then None else Some d
  | None => None
  end.

(** The name [RouteInjectionClient] gives an address without a device. *)
Definition ip_fqdn (ip_address : string) : string :=
  "ip-" +:+ Py.replace "." "-" ip_address +:+ ".bakerstreetlabs.local".

(** The [fqdn] of the request of [RouteInjectionClient.inject_route]. *)
Definition injection_fqdn (ip_address : string) (device_id : option Z) : string :=
  match device_given device_id with
  | Some d => "device-" +:+ Py.str d +:+ ".bakerstreetlabs.local"
  | None => ip_fqdn ip_address
  end.

(** [_trigger_route_injection] with [RouteInjectionClient.inject_route]:
    a POST to [/api/v1/dns-record] of the route-injection service, which
    runs [inject_route_for_dns_record]; a failing answer raises in the
    client and is swallowed by the caller. *)
Definition _trigger_route_injection (cfg : RouteInjectionService.Config)
    (ans : Answers) (now : Z) (ip_address : string) (device_id : option Z)
    (w : World) : World :=
  snd (RouteInjectionService.inject_route_for_dns_record
         cfg ans now "bakerstreetlabs.local" (injection_fqdn ip_address device_id)
         ip_address 60 w).

(** [_remove_route_injection] with [RouteInjectionClient.remove_route]. *)
Definition _remove_route_injection (cfg : RouteInjectionService.Config)
    (ans : Answers) (now : Z) (ip_address : string) (w : World) : World :=
  snd (RouteInjectionService.remove_route_for_dns_record
         cfg ans now "bakerstreetlabs.local" (ip_fqdn ip_address) ip_address w).

(** [_cache_ip_allocation]. *)
Definition _cache_ip_allocation (ip_record : IPAddress.t) (w : World) : World :=
  set_ipam_cache (<["ipam:ip:" +:+ IPAddress.ip_address ip_record := ip_record]>
                    (ipam_cache w)) w.

(** The first half of the [try] of [allocate_ip], up to
    [session.commit()]: the subnet, the record and the table with the
    record in it.  [now] is [datetime.utcnow()]. *)
Definition reserve (now : Z) (w : World) (subnet_id : Z) (device_id : option Z)
    (preferred_ip notes : option string) (expires_at : option Z)
    : result (Subnet.t * IPAddress.t * list IPAddress.t) :=
  match find (fun s => Subnet.id s =? subnet_id) (subnets w) with
  | None => Raise (HTTPException 404 (Msg "Subnet not found"))
  | Some subnet =>
      match ipaddress.ip_network true (Subnet.network_cidr subnet) with
      | None => Raise ValueError
      | Some network =>
          match match preference preferred_ip with
                | Some preferred => check_preferred network preferred
                | None => Return tt
                end with
          | Raise e => Raise e
          | Return _ =>
              match find_available (ip_addresses w) subnet_id network preferred_ip with
              | Raise e => Raise e
              | Return ip_to_allocate =>
                  let ip_record := {|
                    IPAddress.id := next_id (ip_addresses w);
                    IPAddress.ip_address := ip_to_allocate;
                    IPAddress.subnet_id := subnet_id;
                    IPAddress.device_id := device_id;
                    IPAddress.status := "allocated";
                    IPAddress.allocated_at := Some now;
                    IPAddress.expires_at := expires_at;
                    IPAddress.notes := notes |} in
                  match insert (devices w) now ip_record (ip_addresses w) with
                  | Raise e => Raise e
                  | Return rows => Return (subnet, ip_record, rows)
                  end
              end
          end
      end
  end.

(** The second half, after the commit: the DNS record when a device is
    given and found, the route injection when the address is in a cyber
    range network, the cache entry.  None of the three can fail the
    call. *)
Definition publish (cfg : RouteInjectionService.Config) (ans : Answers) (now : Z)
    (subnet : Subnet.t) (ip_record : IPAddress.t) (w : World) : World :=
  let ip_to_allocate := IPAddress.ip_address ip_record in
  let device_id := IPAddress.device_id ip_record in
  let w :=
    match device_given device_id with
    | Some d =>
        match find (fun dev => Device.id dev =? d) (devices w) with
        | Some device =>
            _create_dns_record ans (Device.hostname device)
              ip_to_allocate (Subnet.zone subnet) w
        | None => w
        end
    | None => w
    end in
  let w := if _is_cyber_range_ip ip_to_allocate
           then _trigger_route_injection cfg ans now ip_to_allocate device_id w
           else w in
  _cache_ip_allocation ip_record w.

(** The body of the [try] of [allocate_ip]. *)
Definition allocate_ip_body (cfg : RouteInjectionService.Config) (ans : Answers)
    (now : Z) (w : World) (subnet_id : Z) (device_id : option Z)
    (preferred_ip notes : option string) (expires_at : option Z)
    : result (IPAddress.t * World) :=
  match reserve now w subnet_id device_id preferred_ip notes expires_at with
  | Raise e => Raise e
  | Return (subnet, ip_record, rows) =>
      Return (ip_record, publish cfg ans now subnet ip_record (set_ip_addresses rows w))
  end.

(** [except Exception as e: session.rollback(); raise
    HTTPException(status_code=500, detail=str(e))]: whatever the body
    raised, an [HTTPException] of the body included, leaves as a 500. *)
Definition handler {A : Type} (w : World) (r : result (A * World)) : result A * World :=
  match r with
  | Return (a, w') => (Return a, w')
  | Raise e => (Raise (HTTPException 500 (StrOf e)), w)
  end.

(** [IPAMService.allocate_ip]. *)
Definition allocate_ip (cfg : RouteInjectionService.Config) (ans : Answers)
    (now : Z) (w : World) (subnet_id : Z) (device_id : option Z)
    (preferred_ip notes : option string) (expires_at : option Z)
    : result IPAddress.t * World :=
  handler w (allocate_ip_body cfg ans now w subnet_id device_id preferred_ip notes expires_at).

(** The assignments of [release_ip] to the row it found. *)
Definition released (r : IPAddress.t) : IPAddress.t := {|
  IPAddress.id := IPAddress.id r;
  IPAddress.ip_address := IPAddress.ip_address r;
  IPAddress.subnet_id := IPAddress.subnet_id r;
  IPAddress.device_id := None;
  IPAddress.status := "available";
  IPAddress.allocated_at := None;
  IPAddress.expires_at := None;
  IPAddress.notes := IPAddress.notes r |}.

(** The filter of [release_ip]: this address, status [allocated]. *)
Definition is_allocated_row (ip_address : string) (r : IPAddress.t) : bool :=
  String.eqb (IPAddress.ip_address r) ip_address && String.eqb (IPAddress.status r) "allocated".

(** The update of the first row the filter matches. *)
Fixpoint release_row (ip_address : string) (rows : list IPAddress.t)
    : option (IPAddress.t * list IPAddress.t) :=
  match rows with
  | [] => None
  | r :: rest =>
      if is_allocated_row ip_address r
      then Some (released r, released r :: rest)
      else match release_row ip_address rest with
           | Some (r', rest') => Some (r', r :: rest')
           | None => None
           end
  end.

(** The body of the [try] of [release_ip].  [_remove_dns_record] only logs
    the request. *)
Definition release_ip_body (cfg : RouteInjectionService.Config) (ans : Answers)
    (now : Z) (w : World) (ip_address : string) : result (string * World) :=
  match release_row ip_address (ip_addresses w) with
  | None => Raise (HTTPException 404 (Msg "IP address not found or not allocated"))
  | Some (ip_record, rows) =>
      let w := set_ip_addresses rows w in
      let w := if _is_cyber_range_ip ip_address
               then _remove_route_injection cfg ans now ip_address w else w in
      let w := _cache_ip_allocation ip_record w in
      Return ("IP address " +:+ ip_address +:+ " released successfully", w)
  end.

(** [IPAMService.release_ip]. *)
Definition release_ip (cfg : RouteInjectionService.Config) (ans : Answers)
    (now : Z) (w : World) (ip_address : string) : result string * World :=
  handler w (release_ip_body cfg ans now w ip_address).

(** The [available_ips] of the endpoint [get_available_ips], before the
    cut to one hundred. *)
Definition get_available_ips (w : World) (subnet_id : Z) : option (list string) :=
  match find (fun s => Subnet.id s =? subnet_id) (subnets w) with
  | None => None
  | Some subnet =>
      match ipaddress.ip_network true (Subnet.network_cidr subnet) with
      | None => None
      | Some network =>
          Some (List.filter (fun s => negb (mem s (allocated_set (ip_addresses w) subnet_id)))
                            (map ipaddress.to_str (ipaddress.hosts network)))
      end
  end.

End IPAMService.

(** ** The commit-job polling loop ([upload_pan_os_config.py],
    [generate_mgmt_cert.py]) *)

Module CommitJob.

(** An element of [xml.etree.ElementTree]: tag, attributes, the text
    before its first child, children. *)
#[warnings="-register-all"]
Inductive Element :=
| Elem (tag : string) (attrib : gmap string string) (text : option string)
       (children : list Element).

Definition tag_of (e : Element) : string := let 'Elem t _ _ _ := e in t.
Definition text_of (e : Element) : option string := let 'Elem _ _ x _ := e in x.
Definition children_of (e : Element) : list Element := let 'Elem _ _ _ c := e in c.

(** [root.get(name)]. *)
Definition get (e : Element) (name : string) : option string :=
  let 'Elem _ a _ _ := e in a !! name.

(** [Element.iter()]: the element, then its descendants, in document
    order. *)
Fixpoint iter (e : Element) : list Element :=
  match e with
  | Elem _ _ _ children => e :: flat_map iter children
  end.

(** [root.find('.//' + tag)]: the first descendant of [root] with that
    tag, in document order; the root itself is no candidate. *)
Definition find_descendant (tag : string) (root : Element) : option Element :=
  List.find (fun e => String.eqb (tag_of e) tag) (flat_map iter (children_of root)).

(** The answer to the commit request: [requests.get] or
    [raise_for_status] raised, or the text of the response, which
    [ET.fromstring] parses or not. *)
Inductive CommitReply :=
| CommitRequestError
| CommitResponse (body : option Element).

(** The answer to one [show jobs id] request, likewise. *)
Inductive PollReply :=
| PollRequestError
| PollResponse (body : option Element).

(** A poll after which the loop goes to [time.sleep(2)] and round again:
    the answer parses, holds a [status] element, and the text of the
    first one is not [FIN]. *)
Definition in_progress (r : PollReply) : bool :=
  match r with
  | PollResponse (Some status_root) =>
      match find_descendant "status" status_root with
      | Some job_status_elem => negb (bool_decide (text_of job_status_elem = Some "FIN"))
      | None => false
      end
  | _ => false
  end.

(** What [commit_config] does on a poll that ends the loop: [ParseError]
    leaves the function, only [RequestException] being caught; else it
    returns [True] when the first [status] element reads [FIN] and the
    first [result] element reads [OK], and [False] otherwise. *)
Definition verdict (r : PollReply) : result bool :=
  match r with
  | PollRequestError => Return false
  | PollResponse None => Raise ParseError
  | PollResponse (Some status_root) =>
      match find_descendant "status" status_root with
      | None => Return false
      | Some job_status_elem =>
          Return (bool_decide (text_of job_status_elem = Some "FIN")
                  && match find_descendant "result" status_root with
                     | Some result_elem => bool_decide (text_of result_elem = Some "OK")
                     | None => false
                     end)
      end
  end.

(** The [while True] loop, run for at most [fuel] polls: [replies i] is
    the answer to the poll number [i], [slept] the seconds spent in
    [time.sleep] so far.  [None]: the loop is still polling. *)
Fixpoint poll_job (fuel : nat) (replies : nat -> PollReply) (i : nat) (slept : Z)
    : option (result bool * Z) :=
  match fuel with
  | O => None
  | S fuel' =>
      match replies i with
      | PollRequestError => Some (Return false, slept)
      | PollResponse None => Some (Raise ParseError, slept)
      | PollResponse (Some status_root) =>
          match find_descendant "status" status_root with
          | None => Some (Return false, slept)
          | Some job_status_elem =>
              if bool_decide (text_of job_status_elem = Some "FIN")
              then Some (Return match find_descendant "result" status_root with
                                | Some result_elem =>
                                    bool_decide (text_of result_elem = Some "OK")
                                | None => false
                                end, slept)
              else poll_job fuel' replies (S i) (slept + 2)
          end
      end
  end.

(** [commit_config], with what it returns or raises and the seconds it
    slept. *)
Definition commit_config (fuel : nat) (commit : CommitReply) (replies : nat -> PollReply)
    : option (result bool * Z) :=
  match commit with
  | CommitRequestError => Some (Return false, 0)
  | CommitResponse None => Some (Raise ParseError, 0)
  | CommitResponse (Some root) =>
      if negb (bool_decide (get root "status" = Some "success")) then Some (Return false, 0)
      else match find_descendant "job" root with
           | Some job_id_elem => poll_job fuel replies 0 0
           | None => Some (Return true, 0)
           end
  end.

(** An element with no attribute and no child. *)
Definition leaf (tag text : string) : Element := Elem tag ∅ (Some text) [].

End CommitJob.

(** ** The endpoints of the IPAM service, called in a row

    [POST /api/v1/ipam/ips/allocate] and [POST /api/v1/ipam/ips/release]
    hand their arguments to [allocate_ip] and [release_ip].  A call comes
    with the answers of the downstream systems during it and with the time
    at which it is served. *)

Module IPAMApi.

Inductive Request :=
| Allocate (subnet_id : Z) (device_id : option Z) (preferred_ip notes : option string)
    (expires_at : option Z)
| Release (ip_address : string).

Inductive Response :=
| Allocated (ip_record : IPAddress.t)
| Released (message : string)
| Failed (e : Exception).

Definition serve (cfg : RouteInjectionService.Config)
    (call : Answers * Z * Request) (w : World) : Response * World :=
  let '(ans, now, request) := call in
  match request with
  | Allocate subnet_id device_id preferred_ip notes expires_at =>
      match IPAMService.allocate_ip cfg ans now w subnet_id device_id preferred_ip
              notes expires_at with
      | (Return r, w') => (Allocated r, w')
      | (Raise e, w') => (Failed e, w')
      end
  | Release ip_address =>
      match IPAMService.release_ip cfg ans now w ip_address with
      | (Return m, w') => (Released m, w')
      | (Raise e, w') => (Failed e, w')
      end
  end.

Fixpoint serve_all (cfg : RouteInjectionService.Config)
    (calls : list (Answers * Z * Request)) (w : World) : list Response * World :=
  match calls with
  | [] => ([], w)
  | call :: rest =>
      let '(response, w') := serve cfg call w in
      let '(responses, w'') := serve_all cfg rest w' in
      (response :: responses, w'')
  end.

(** The addresses the successful allocations of a run returned. *)
Fixpoint allocated_addresses (responses : list Response) : list string :=
  match responses with
  | [] => []
  | Allocated r :: rest => IPAddress.ip_address r :: allocated_addresses rest
  | _ :: rest => allocated_addresses rest
  end.

(** The column [ip_address] of the table. *)
Definition addresses (w : World) : list string :=
  map IPAddress.ip_address (ip_addresses w).

(** What the table says of who holds which address: address, subnet and
    status of each row. *)
Definition holdings (w : World) : list (string * Z * string) :=
  map (fun r => (IPAddress.ip_address r, IPAddress.subnet_id r, IPAddress.status r))
      (ip_addresses w).

(** The entries of the Redis cache are rows of the table, each under the
    key [_cache_ip_allocation] gives its address. *)
Definition cache_coherent (w : World) : Prop :=
  forall key ip_record,
    ipam_cache w !! key = Some ip_record ->
    key = "ipam:ip:" +:+ IPAddress.ip_address ip_record
    /\ In ip_record (ip_addresses w).

End IPAMApi.

(** ** The endpoint [DELETE /api/v1/routes/<route_name>] of the first
    route-injection service ([route_injection_service.py]) *)

Module RouteInjectionApi.

(** The JSON body of an answer: [{"error": ...}], or [{"success": True,
    "message": ...}]. *)
Inductive Body :=
| Error (error : string)
| Success (message : string).

(** [delete_route], with the status code of the answer. *)
Definition delete_route (ans : Answers) (route_name : string) (w : World)
    : (Z * Body) * World :=
  match route_cache w !! RouteInjectionService.cache_key route_name with
  | None => ((404, Error "Route not found"), w)
  | Some _ =>
      let '(success, w) := delete_static_route ans route_name w in
      if success then
        let '(commit_success, w) := commit_configuration ans w in
        if commit_success then
          let w := set_route_cache
                     (delete (RouteInjectionService.cache_key route_name) (route_cache w))
                     w in
          ((200, Success ("Route " +:+ route_name +:+ " deleted successfully")), w)
        else ((500, Error "Route deleted but commit failed"), w)
      else ((500, Error "Route deletion failed"), w)
  end.

End RouteInjectionApi.

(** ** The router client of the enhanced service
    ([MasterRouterManager], [enhanced_route_injection_service.py])

    Below the answers [True] and [False] of the router operations lie the
    requests the manager sends.  A router entry of the configuration is
    taken to hold all the keys the manager reads. *)

Module MasterRouterManager.

Record RouterConfig := {
  ip_address : string;
  api_port : Z;
  username : string;
  password : string;
  timeout : Z;
  virtual_router : string;
  interface : string;
  next_hop : string;
  metric : Z
}.

(** The requests, by their parameters [type] and [action]. *)
Inductive Request :=
| Keygen (url user pass : string)
| ConfigSet (url xpath element key : string)
| ConfigDelete (url xpath key : string)
| Commit (url key cmd : string).

(** What the manager reads of a parsed answer: [root.findtext('.//key')]
    and [root.get('status')]. *)
Record Xml := {
  xml_key : option string;
  xml_status : option string
}.

(** The outcome of [requests.get]: it raised, or it returned a response
    with its status code and its text, which [ET.fromstring] parses or
    not. *)
Inductive Reply :=
| RequestFailed
| Answer (status_code : Z) (body : option Xml).

(** The manager: the dictionary [api_keys] and, for the record, the
    requests sent so far. *)
Record Manager := {
  api_keys : gmap string string;
  sent : list Request
}.

(** The router answers a request knowing the requests before it. *)
Definition Device := list Request -> Request -> Reply.

Definition send (device : Device) (request : Request) (m : Manager) : Reply * Manager :=
  (device (sent m) request,
   {| api_keys := api_keys m; sent := (sent m ++ [request])%list |}).

Definition url (router : RouterConfig) : string :=
  "https://" +:+ ip_address router +:+ ":" +:+ Py.str (api_port router) +:+ "/api/".

Definition xpath (router : RouterConfig) (route_name : string) : string :=
  "/config/devices/entry[@name='localhost.localdomain']/network/virtual-router/entry[@name='"
  +:+ virtual_router router
  +:+ "']/routing-table/ip/static-route/entry[@name='" +:+ route_name +:+ "']".

(** [_create_route_xml]. *)
Definition _create_route_xml (router : RouterConfig) (destination : string) : string :=
  "<nexthop>
  <ip-address>" +:+ next_hop router +:+ "</ip-address>
</nexthop>
<bfd>
  <profile>None</profile>
</bfd>
<interface>" +:+ interface router +:+ "</interface>
<metric>" +:+ Py.str (metric router) +:+ "</metric>
<destination>" +:+ destination +:+ "</destination>
<route-table>
  <unicast/>
</route-table>".

(** [get_api_key]: the cached key, else a [keygen] request whose key is
    cached when the answer is a 200 that parses and holds a non-empty
    key. *)
Definition get_api_key (device : Device) (router : RouterConfig) (m : Manager)
    : option string * Manager :=
  match api_keys m !! ip_address router with
  | Some api_key => (Some api_key, m)
  | None =>
      let '(reply, m) := send device (Keygen (url router) (username router)
                                        (password router)) m in
      match reply with
      | Answer status_code (Some root) =>
          if status_code =? 200 then
            match xml_key root with
            | Some api_key =>
                if Py.truthy api_key
                then (Some api_key,
                      {| api_keys := <[ip_address router := api_key]> (api_keys m);
                         sent := sent m |})
                else (None, m)
            | None => (None, m)
            end
          else (None, m)
      | _ => (None, m)
      end
  end.

(** The reading of the answer to a [config] or [commit] request. *)
Definition succeeded (reply : Reply) : bool :=
  match reply with
  | Answer status_code (Some root) =>
      (status_code =? 200) && bool_decide (xml_status root = Some "success")
  | _ => false
  end.

(** The part the three operations share: the key, then one request. *)
Definition with_api_key (device : Device) (router : RouterConfig)
    (request : string -> Request) (m : Manager) : bool * Manager :=
  let '(api_key, m) := get_api_key device router m in
  match api_key with
  | Some api_key =>
      if negb (Py.truthy api_key) then (false, m)
      else let '(reply, m) := send device (request api_key) m in (succeeded reply, m)
  | None => (false, m)
  end.

Definition create_static_route (device : Device) (route_name destination : string)
    (router : RouterConfig) (m : Manager) : bool * Manager :=
  with_api_key device router
    (ConfigSet (url router) (xpath router route_name) (_create_route_xml router destination))
    m.

Definition delete_static_route (device : Device) (route_name : string)
    (router : RouterConfig) (m : Manager) : bool * Manager :=
  with_api_key device router (ConfigDelete (url router) (xpath router route_name)) m.

Definition commit_configuration (device : Device) (router : RouterConfig) (m : Manager)
    : bool * Manager :=
  with_api_key device router (fun api_key => Commit (url router) api_key "<commit></commit>") m.

(** The calls the service makes, one after the other. *)
Inductive Operation :=
| Create (route_name destination : string)
| Delete (route_name : string)
| CommitConfiguration.

(** The request of an operation, given the key. *)
Definition request_of (router : RouterConfig) (op : Operation) (api_key : string) : Request :=
  match op with
  | Create route_name destination =>
      ConfigSet (url router) (xpath router route_name)
        (_create_route_xml router destination) api_key
  | Delete route_name => ConfigDelete (url router) (xpath router route_name) api_key
  | CommitConfiguration => Commit (url router) api_key "<commit></commit>"
  end.

Definition run (device : Device) (router : RouterConfig) (op : Operation) (m : Manager)
    : bool * Manager :=
  match op with
  | Create route_name destination =>
      create_static_route device route_name destination router m
  | Delete route_name => delete_static_route device route_name router m
  | CommitConfiguration => commit_configuration device router m
  end.

Fixpoint run_all (device : Device) (router : RouterConfig) (ops : list Operation)
    (m : Manager) : list bool * Manager :=
  match ops with
  | [] => ([], m)
  | op :: rest =>
      let '(result, m) := run device router op m in
      let '(results, m) := run_all device router rest m in
      (result :: results, m)
  end.

(** The key a request carries, if it is no [keygen] request. *)
Definition key_of (request : Request) : option string :=
  match request with
  | Keygen _ _ _ => None
  | ConfigSet _ _ _ key => Some key
  | ConfigDelete _ _ key => Some key
  | Commit _ key _ => Some key
  end.

(** The router issued [api_key] in the course of [log]: the log holds a
    [keygen] request that the router answered with a 200 whose text holds
    that key. *)
Definition issued (device : Device) (log : list Request) (api_key : string) : Prop :=
  exists j url user pass root,
    log !! j = Some (Keygen url user pass)
    /\ device (take j log) (Keygen url user pass) = Answer 200 (Some root)
    /\ xml_key root = Some api_key.

End MasterRouterManager.

(** ** The configuration lookup ([ConfigManager.get],
    [enhanced_route_injection_service.py]; [IPAMConfig.get] and
    [CyberRangeIPAMConfig.get] are the same function) *)

Module ConfigManager.

(** What [yaml.safe_load] returns.  A float keeps its text; of a mapping
    the string keys are kept, [get] looking up strings only. *)
#[warnings="-register-all"]
Inductive Value :=
| VNone
| VBool (b : bool)
| VInt (n : Z)
| VFloat (text : string)
| VStr (s : string)
| VList (l : list Value)
| VDict (d : gmap string Value).

(** The loop of [get] over [keys]. *)
Fixpoint walk (value : Value) (keys : list string) (default : Value) : Value :=
  match keys with
  | [] => value
  | k :: rest =>
      match value with
      | VDict d =>
          match d !! k with
          | Some v => walk v rest default
          | None => default
          end
      | _ => default
      end
  end.

(** [get(key, default)] on the configuration [config]. *)
Definition get (config : Value) (key : string) (default : Value) : Value :=
  walk config (Py.split "." key) default.

End ConfigManager.

(** ** Fixtures

    The subnet and the device of [test_ipam_integration.py], a world that
    holds them and nothing else, and some ways the downstream systems can
    answer. *)

Definition test_subnet : Subnet.t := {|
  Subnet.id := 1;
  Subnet.name := "Test Workstation Subnet";
  Subnet.network_cidr := "10.100.1.0/24";
  Subnet.zone := "test";
  Subnet.gateway := Some "10.100.1.1"
|}.

(** The network of the test subnet, as [ipaddress.ip_network] reads it. *)
Definition test_network : ipaddress.IPv4Network := {|
  ipaddress.network_address := 174326016;
  ipaddress.prefixlen := 24
|}.

Definition test_device : Device.t := {|
  Device.id := 1;
  Device.hostname := "test-workstation-01"
|}.

Definition fresh_world : World := {|
  subnets := [test_subnet];
  devices := [test_device];
  ip_addresses := [];
  ipam_cache := ∅;
  dns_records := [];
  candidate_routes := ∅;
  running_routes := ∅;
  commit_jobs := [];
  route_cache := ∅
|}.

Definition all_ok : Answers := {|
  ipam_dns_ok := true;
  dns_add_ok := true;
  dns_add_error := "";
  route_set_ok := true;
  route_delete_ok := true;
  commit_ok := true
|}.

(** The router refuses the route. *)
Definition route_fails : Answers := {|
  ipam_dns_ok := true;
  dns_add_ok := true;
  dns_add_error := "";
  route_set_ok := false;
  route_delete_ok := true;
  commit_ok := true
|}.

(** The router takes the route and refuses the commit request. *)
Definition commit_fails : Answers := {|
  ipam_dns_ok := true;
  dns_add_ok := true;
  dns_add_error := "";
  route_set_ok := true;
  route_delete_ok := true;
  commit_ok := false
|}.

(** A configuration of the enhanced service whose route names carry the
    timestamp. *)
Definition stamped_config : RouteInjectionService.Config := {|
  RouteInjectionService.cyber_range_networks :=
    RouteInjectionService.cyber_range_networks RouteInjectionService.default_config;
  RouteInjectionService.auto_commit := true;
  RouteInjectionService.naming_prefix := "dns";
  RouteInjectionService.include_zone := true;
  RouteInjectionService.include_timestamp := true;
  RouteInjectionService.separator := "_"
|}.

(** The primary router of the default configuration. *)
Definition primary_router : MasterRouterManager.RouterConfig := {|
  MasterRouterManager.ip_address := "192.168.255.254";
  MasterRouterManager.api_port := 443;
  MasterRouterManager.username := "admin";
  MasterRouterManager.password := "Paloalto1!";
  MasterRouterManager.timeout := 30;
  MasterRouterManager.virtual_router := "default";
  MasterRouterManager.interface := "ethernet1/1";
  MasterRouterManager.next_hop := "172.21.55.20";
  MasterRouterManager.metric := 10
|}.

(** A router that answers every request with 403. *)
Definition router_rejects : MasterRouterManager.Device :=
  fun _ _ => MasterRouterManager.Answer 403 None.

(** A router that issues the key "k1" and takes every change. *)
Definition router_accepts : MasterRouterManager.Device :=
  fun _ request =>
    match request with
    | MasterRouterManager.Keygen _ _ _ =>
        MasterRouterManager.Answer 200
          (Some {| MasterRouterManager.xml_key := Some "k1";
                   MasterRouterManager.xml_status := Some "success" |})
    | _ =>
        MasterRouterManager.Answer 200
          (Some {| MasterRouterManager.xml_key := None;
                   MasterRouterManager.xml_status := Some "success" |})
    end.

(** The default configuration with a second network that does not parse,
    and the same cut before that entry. *)
Definition networks_with_typo : RouteInjectionService.Config := {|
  RouteInjectionService.cyber_range_networks :=
    ["10.0.0.0/8"; "172.20.0.0/33"; "192.168.0.0/16"];
  RouteInjectionService.auto_commit := true;
  RouteInjectionService.naming_prefix := "dns";
  RouteInjectionService.include_zone := true;
  RouteInjectionService.include_timestamp := false;
  RouteInjectionService.separator := "_"
|}.

Definition networks_before_typo : RouteInjectionService.Config := {|
  RouteInjectionService.cyber_range_networks := ["10.0.0.0/8"];
  RouteInjectionService.auto_commit := true;
  RouteInjectionService.naming_prefix := "dns";
  RouteInjectionService.include_zone := true;
  RouteInjectionService.include_timestamp := false;
  RouteInjectionService.separator := "_"
|}.

(** The answer of PAN-OS to [show jobs id]: the job inside the [result]
    element of the response. *)
Definition job_answer (job_status job_result : string) : CommitJob.Element :=
  CommitJob.Elem "response" {["status" := "success"]} None
    [CommitJob.Elem "result" ∅ None
       [CommitJob.Elem "job" ∅ None
          [CommitJob.leaf "id" "42"; CommitJob.leaf "status" job_status;
           CommitJob.leaf "result" job_result; CommitJob.leaf "progress" "100"]]].

(** The answer of PAN-OS to the commit request. *)
Definition commit_answer : CommitJob.Element :=
  CommitJob.Elem "response" {["status" := "success"; "code" := "19"]} None
    [CommitJob.Elem "result" ∅ None
       [CommitJob.Elem "msg" ∅ None
          [CommitJob.leaf "line" "Commit job enqueued with jobid 42"];
        CommitJob.leaf "job" "42"]].

(** A commit job that stays active. *)
Definition job_never_finishes (i : nat) : CommitJob.PollReply :=
  CommitJob.PollResponse (Some (job_answer "ACT" "PEND")).

(** A job that is pending, then active, then finished with [OK], each
    time in the answer of PAN-OS. *)
Definition job_finishes_third (i : nat) : CommitJob.PollReply :=
  match i with
  | O => CommitJob.PollResponse (Some (job_answer "PEND" "PEND"))
  | S O => CommitJob.PollResponse (Some (job_answer "ACT" "PEND"))
  | _ => CommitJob.PollResponse (Some (job_answer "FIN" "OK"))
  end.

(** The same job, in answers that hold the [status] and [result] elements
    and no wrapper around them. *)
Definition flat_job_finishes_third (i : nat) : CommitJob.PollReply :=
  CommitJob.PollResponse
    (Some (CommitJob.Elem "response" ∅ None
             match i with
             | O => [CommitJob.leaf "status" "PEND"]
             | S O => [CommitJob.leaf "status" "ACT"]
             | _ => [CommitJob.leaf "status" "FIN"; CommitJob.leaf "result" "OK"]
             end)).

(** The world after the allocation of [test_ipam_integration.py]: the
    test device gets an address of the test subnet, with a note and an
    expiry. *)
Definition allocated_world : World :=
  snd (IPAMService.allocate_ip RouteInjectionService.default_config all_ok 1000
         fresh_world 1 (Some 1) None (Some "Test IP allocation") (Some 4600)).

(** A subnet with two hosts, and a world where both are allocated. *)
Definition small_subnet : Subnet.t := {|
  Subnet.id := 2;
  Subnet.name := "Point to point";
  Subnet.network_cidr := "10.100.2.0/30";
  Subnet.zone := "test";
  Subnet.gateway := None
|}.

Definition small_world : World := {|
  subnets := [test_subnet; small_subnet];
  devices := [test_device];
  ip_addresses := [];
  ipam_cache := ∅;
  dns_records := [];
  candidate_routes := ∅;
  running_routes := ∅;
  commit_jobs := [];
  route_cache := ∅
|}.

Definition exhausted_world : World :=
  let w := snd (IPAMService.allocate_ip RouteInjectionService.default_config all_ok 1000
                  small_world 2 None None None None) in
  snd (IPAMService.allocate_ip RouteInjectionService.default_config all_ok 1001
         w 2 None None None None).

(** * Properties *)

(** ** Python strings and the [ipaddress] module on examples *)

Example split_example : Py.split "." "10.100.1.0" = ["10"; "100"; "1"; "0"].
Proof. reflexivity. Qed.

Example ip_address_example : ipaddress.ip_address "10.100.1.2" = Some 174326018.
Proof. reflexivity. Qed.

Example to_str_example : ipaddress.to_str 174326018 = "10.100.1.2".
Proof. reflexivity. Qed.

Example ip_address_leading_zero : ipaddress.ip_address "010.1.2.3" = None.
Proof. reflexivity. Qed.

Example ip_network_example :
  ipaddress.ip_network true "10.100.1.0/24"
  = Some {| ipaddress.network_address := 174326016; ipaddress.prefixlen := 24 |}.
Proof. reflexivity. Qed.

Example ip_network_host_bits : ipaddress.ip_network true "10.100.1.5/24" = None.
Proof. reflexivity. Qed.

Example ip_network_dotted_mask :
  ipaddress.ip_network true "10.0.0.0/255.0.0.0" = ipaddress.ip_network true "10.0.0.0/8".
Proof. reflexivity. Qed.

Example hosts_example :
  ipaddress.to_str <$> ipaddress.hosts {| ipaddress.network_address := 174326016;
                                          ipaddress.prefixlen := 30 |}
  = ["10.100.1.1"; "10.100.1.2"].
Proof. reflexivity. Qed.

Example generate_route_name_example :
  RouteInjectionService.generate_route_name RouteInjectionService.default_config 0
    "malware.bakerstreetlabs.local" "192.168.1.100" "bakerstreetlabs.local"
  = "dns_bakerstreetlabs_local_malware_bakerstreetlabs_local_192_168_1_100".
Proof. reflexivity. Qed.

(** ** What the router calls leave alone *)

Section Frames.

Import RouteInjectionService.

Lemma create_static_route_cache ans name dest w :
  route_cache (snd (create_static_route ans name dest w)) = route_cache w.
Proof. unfold create_static_route. destruct (route_set_ok ans); reflexivity. Qed.

Lemma commit_configuration_cache ans w :
  route_cache (snd (commit_configuration ans w)) = route_cache w.
Proof. unfold commit_configuration. destruct (commit_ok ans); reflexivity. Qed.

Lemma inject_route_ip_addresses cfg ans now zone fqdn ip ttl w :
  ip_addresses (snd (inject_route_for_dns_record cfg ans now zone fqdn ip ttl w))
  = ip_addresses w.
Proof.
  unfold inject_route_for_dns_record, add_dns_record, create_static_route,
    commit_configuration.
  destruct (is_cyber_range_ip cfg ip), (dns_add_ok ans), (route_set_ok ans),
    (auto_commit cfg), (commit_ok ans); reflexivity.
Qed.

Lemma remove_route_ip_addresses cfg ans now zone fqdn ip w :
  ip_addresses (snd (remove_route_for_dns_record cfg ans now zone fqdn ip w))
  = ip_addresses w.
Proof.
  unfold remove_route_for_dns_record, delete_static_route, commit_configuration.
  destruct (route_cache w !! _); [|reflexivity].
  destruct (route_delete_ok ans), (auto_commit cfg), (commit_ok ans); reflexivity.
Qed.

End Frames.

(** ** Release without an association *)

Section ReleaseWithoutAssociation.

Import RouteInjectionService.

(** The enhanced service: no cache entry under the generated name, so the
    answer is the success "Route not found in cache" and the world is the
    one it was. *)
Lemma remove_route_not_cached cfg ans now zone fqdn ip w :
  route_cache w !! cache_key (generate_route_name cfg now fqdn ip zone) = None ->
  remove_route_for_dns_record cfg ans now zone fqdn ip w
  = ({| rm_success := true; rm_message := "Route not found in cache";
        route_removed := false; rm_route_name := None |}, w).
Proof. intros Habsent. unfold remove_route_for_dns_record. now rewrite Habsent. Qed.

(** The webhook handler, likewise. *)
Lemma handle_deleted_not_cached ans zone fqdn ip w :
  route_cache w !! cache_key (DNSWebhookHandler.route_name_of fqdn ip) = None ->
  DNSWebhookHandler.handle_dns_record_deleted ans zone fqdn ip w
  = ({| rm_success := true; rm_message := "Route not found in cache";
        route_removed := false; rm_route_name := None |}, w).
Proof.
  intros Habsent. unfold DNSWebhookHandler.handle_dns_record_deleted.
  now rewrite Habsent.
Qed.

(** Without the time stamp the generated name does not depend on the
    time. *)
Lemma generate_route_name_timeless cfg now now' fqdn ip zone :
  include_timestamp cfg = false ->
  generate_route_name cfg now fqdn ip zone = generate_route_name cfg now' fqdn ip zone.
Proof. intros H. unfold generate_route_name. now rewrite H. Qed.

(** After a removal that answered success the cache holds no entry under
    the name. *)
Lemma remove_route_success_clears cfg ans now zone fqdn ip w :
  rm_success (fst (remove_route_for_dns_record cfg ans now zone fqdn ip w)) = true ->
  route_cache (snd (remove_route_for_dns_record cfg ans now zone fqdn ip w))
    !! cache_key (generate_route_name cfg now fqdn ip zone) = None.
Proof.
  unfold remove_route_for_dns_record, delete_static_route, commit_configuration.
  destruct (route_cache w !! _) eqn:Hcached; [|intros _; exact Hcached].
  destruct (route_delete_ok ans); [|discriminate].
  intros _. destruct (auto_commit cfg), (commit_ok ans); apply lookup_delete_eq.
Qed.

Lemma handle_deleted_success_clears ans zone fqdn ip w :
  rm_success (fst (DNSWebhookHandler.handle_dns_record_deleted ans zone fqdn ip w)) = true ->
  route_cache (snd (DNSWebhookHandler.handle_dns_record_deleted ans zone fqdn ip w))
    !! cache_key (DNSWebhookHandler.route_name_of fqdn ip) = None.
Proof.
  unfold DNSWebhookHandler.handle_dns_record_deleted, delete_static_route,
    commit_configuration.
  destruct (route_cache w !! _) eqn:Hcached; [|intros _; exact Hcached].
  destruct (route_delete_ok ans); [|discriminate].
  destruct (commit_ok ans); [|discriminate].
  intros _. apply lookup_delete_eq.
Qed.

(** C9.  In both route-injection services: when the cache holds no entry
    under the generated route name, the removal answers success, removes
    nothing and leaves the world unchanged, whatever the router would
    answer; asked a second time in a row it answers success again.  And
    after any removal that answered success, the next removal of the same
    record answers success and changes nothing (for the enhanced service:
    when the route name carries no time stamp). *)
Theorem release_without_association_is_success_noop
    (cfg : Config) (ans ans' : Answers) (now now' : Z) (zone fqdn ip : string) (w : World) :
  (route_cache w !! cache_key (generate_route_name cfg now fqdn ip zone) = None ->
   route_cache w !! cache_key (generate_route_name cfg now' fqdn ip zone) = None ->
   let first := remove_route_for_dns_record cfg ans now zone fqdn ip w in
   let second := remove_route_for_dns_record cfg ans' now' zone fqdn ip (snd first) in
   rm_success (fst first) = true /\ route_removed (fst first) = false /\ snd first = w
   /\ rm_success (fst second) = true /\ route_removed (fst second) = false
   /\ snd second = w)
  /\
  (route_cache w !! cache_key (DNSWebhookHandler.route_name_of fqdn ip) = None ->
   let first := DNSWebhookHandler.handle_dns_record_deleted ans zone fqdn ip w in
   let second := DNSWebhookHandler.handle_dns_record_deleted ans' zone fqdn ip (snd first) in
   rm_success (fst first) = true /\ route_removed (fst first) = false /\ snd first = w
   /\ rm_success (fst second) = true /\ route_removed (fst second) = false
   /\ snd second = w)
  /\
  (include_timestamp cfg = false ->
   let first := remove_route_for_dns_record cfg ans now zone fqdn ip w in
   let second := remove_route_for_dns_record cfg ans' now' zone fqdn ip (snd first) in
   rm_success (fst first) = true ->
   rm_success (fst second) = true /\ route_removed (fst second) = false
   /\ snd second = snd first)
  /\
  (let first := DNSWebhookHandler.handle_dns_record_deleted ans zone fqdn ip w in
   let second := DNSWebhookHandler.handle_dns_record_deleted ans' zone fqdn ip (snd first) in
   rm_success (fst first) = true ->
   rm_success (fst second) = true /\ route_removed (fst second) = false
   /\ snd second = snd first).
Proof.
  split; [|split; [|split]].
  - intros Hnow Hnow'. cbv zeta.
    rewrite (remove_route_not_cached cfg ans now zone fqdn ip w Hnow). cbn [fst snd].
    rewrite (remove_route_not_cached cfg ans' now' zone fqdn ip w Hnow').
    repeat split.
  - intros Habsent. cbv zeta.
    rewrite (handle_deleted_not_cached ans zone fqdn ip w Habsent). cbn [fst snd].
    rewrite (handle_deleted_not_cached ans' zone fqdn ip w Habsent).
    repeat split.
  - intros Hstamp. cbv zeta. intros Hfirst.
    apply remove_route_success_clears in Hfirst.
    rewrite (generate_route_name_timeless cfg now now' fqdn ip zone Hstamp) in Hfirst.
    rewrite (remove_route_not_cached cfg ans' now' zone fqdn ip _ Hfirst).
    repeat split.
  - cbv zeta. intros Hfirst.
    apply handle_deleted_success_clears in Hfirst.
    rewrite (handle_deleted_not_cached ans' zone fqdn ip _ Hfirst).
    repeat split.
Qed.

(** In the world of the tests nothing is cached: removing the route of
    10.100.1.2 twice answers success twice, also with a router that would
    fail every call. *)
Lemma release_without_association_witness :
  let first := remove_route_for_dns_record default_config route_fails 0
                 "bakerstreetlabs.local" "ip-10-100-1-2.bakerstreetlabs.local"
                 "10.100.1.2" fresh_world in
  let second := remove_route_for_dns_record default_config commit_fails 1
                  "bakerstreetlabs.local" "ip-10-100-1-2.bakerstreetlabs.local"
                  "10.100.1.2" (snd first) in
  rm_success (fst first) = true /\ route_removed (fst first) = false
  /\ snd first = fresh_world
  /\ rm_success (fst second) = true /\ route_removed (fst second) = false
  /\ snd second = fresh_world.
Proof.
  apply (proj1 (release_without_association_is_success_noop default_config
                  route_fails commit_fails 0 1 "bakerstreetlabs.local"
                  "ip-10-100-1-2.bakerstreetlabs.local" "10.100.1.2" fresh_world));
    reflexivity.
Defined.

End ReleaseWithoutAssociation.

(** ** The cached route entry and the commit *)

Section CommitAndAssociation.

Import RouteInjectionService.

(** The webhook handler writes the cache only after the router took the
    route and answered the commit request with status [success]. *)
Lemma handle_created_cache ans now zone fqdn ip w :
  route_cache (snd (DNSWebhookHandler.handle_dns_record_created ans now zone fqdn ip w))
  = route_cache w
  \/ (route_set_ok ans = true /\ commit_ok ans = true).
Proof.
  unfold DNSWebhookHandler.handle_dns_record_created, create_static_route,
    commit_configuration.
  destruct (DNSWebhookHandler._is_cyber_range_ip ip), (route_set_ok ans),
    (commit_ok ans); cbn; auto.
Qed.

(** Route created, commit request refused: the handler reports the failure
    and the cache is as it was. *)
Lemma handle_created_commit_failed ans now zone fqdn ip w :
  DNSWebhookHandler._is_cyber_range_ip ip = true ->
  route_set_ok ans = true -> commit_ok ans = false ->
  let '(r, w') := DNSWebhookHandler.handle_dns_record_created ans now zone fqdn ip w in
  success r = false /\ route_injected r = false
  /\ message r = "Route created but commit failed"
  /\ route_cache w' = route_cache w
  /\ commit_jobs w' = commit_jobs w.
Proof.
  intros Hin Hset Hcommit.
  unfold DNSWebhookHandler.handle_dns_record_created, create_static_route,
    commit_configuration.
  rewrite Hin, Hset, Hcommit. cbn. auto.
Qed.

(** Route created, commit request accepted: the handler caches the entry
    and reports success; what the router holds is one more commit job,
    requested with the route in the candidate configuration. *)
Lemma handle_created_enqueued ans now zone fqdn ip w :
  DNSWebhookHandler._is_cyber_range_ip ip = true ->
  route_set_ok ans = true -> commit_ok ans = true ->
  let name := DNSWebhookHandler.route_name_of fqdn ip in
  let '(r, w') := DNSWebhookHandler.handle_dns_record_created ans now zone fqdn ip w in
  success r = true /\ route_injected r = true
  /\ is_Some (route_cache w' !! cache_key name)
  /\ commit_jobs w' = (commit_jobs w ++ [<[name := ip]> (candidate_routes w)])%list.
Proof.
  intros Hin Hset Hcommit.
  unfold DNSWebhookHandler.handle_dns_record_created, create_static_route,
    commit_configuration.
  rewrite Hin, Hset, Hcommit. cbn.
  repeat split.
  rewrite lookup_insert_eq. eauto.
Qed.

(** The enhanced service writes the cache only after the route was
    created. *)
Lemma inject_route_cache cfg ans now zone fqdn ip ttl w :
  route_cache (snd (inject_route_for_dns_record cfg ans now zone fqdn ip ttl w))
  = route_cache w
  \/ (is_cyber_range_ip cfg ip = true /\ dns_add_ok ans = true /\ route_set_ok ans = true).
Proof.
  unfold inject_route_for_dns_record, add_dns_record, create_static_route,
    commit_configuration.
  destruct (is_cyber_range_ip cfg ip), (dns_add_ok ans), (route_set_ok ans),
    (auto_commit cfg), (commit_ok ans); cbn; auto.
Qed.

(** With [auto_commit] off the enhanced service requests no commit: once
    the route is created it caches the entry and reports success, and the
    router has been asked for no commit job. *)
Lemma inject_route_without_commit cfg ans now zone fqdn ip ttl w :
  auto_commit cfg = false ->
  is_cyber_range_ip cfg ip = true -> dns_add_ok ans = true -> route_set_ok ans = true ->
  let name := generate_route_name cfg now fqdn ip zone in
  let '(r, w') := inject_route_for_dns_record cfg ans now zone fqdn ip ttl w in
  success r = true /\ route_injected r = true /\ route_name r = Some name
  /\ is_Some (route_cache w' !! cache_key name)
  /\ candidate_routes w' !! name = Some ip
  /\ commit_jobs w' = commit_jobs w.
Proof.
  intros Hauto Hin Hdns Hset.
  unfold inject_route_for_dns_record, add_dns_record, create_static_route.
  rewrite Hin, Hdns, Hset, Hauto. cbn.
  repeat split.
  - rewrite lookup_insert_eq. eauto.
  - apply lookup_insert_eq.
Qed.

(** With [auto_commit] on the enhanced service caches the entry and
    reports success whatever the router answers to the commit request; an
    accepted request leaves one more commit job, requested with the route
    in the candidate configuration, and a refused one leaves none. *)
Lemma inject_route_with_commit cfg ans now zone fqdn ip ttl w :
  auto_commit cfg = true ->
  is_cyber_range_ip cfg ip = true -> dns_add_ok ans = true -> route_set_ok ans = true ->
  let name := generate_route_name cfg now fqdn ip zone in
  let '(r, w') := inject_route_for_dns_record cfg ans now zone fqdn ip ttl w in
  success r = true /\ route_injected r = true
  /\ is_Some (route_cache w' !! cache_key name)
  /\ commit_jobs w'
     = if commit_ok ans
       then (commit_jobs w ++ [<[name := ip]> (candidate_routes w)])%list
       else commit_jobs w.
Proof.
  intros Hauto Hin Hdns Hset.
  unfold inject_route_for_dns_record, add_dns_record, create_static_route,
    commit_configuration.
  rewrite Hin, Hdns, Hset, Hauto. cbn.
  destruct (commit_ok ans); cbn; repeat split; rewrite lookup_insert_eq; eauto.
Qed.

(** C6, the claim as stated fails: with [auto_commit: false] in the
    configuration the enhanced service creates the route, requests no
    commit, caches the entry and reports success; the router was asked for
    no commit job, and its running configuration holds no route. *)
Lemma enhanced_service_caches_uncommitted_route :
  let cfg := {| cyber_range_networks := cyber_range_networks default_config;
                auto_commit := false;
                naming_prefix := "dns"; include_zone := true;
                include_timestamp := false; separator := "_" |} in
  let '(r, w') := inject_route_for_dns_record cfg all_ok 0 "bakerstreetlabs.local"
                    "malware.bakerstreetlabs.local" "192.168.1.100" 60 fresh_world in
  success r = true /\ route_injected r = true
  /\ is_Some (route_cache w' !!
       "route:dns_bakerstreetlabs_local_malware_bakerstreetlabs_local_192_168_1_100")
  /\ commit_jobs w' = []
  /\ running_routes w' = ∅.
Proof. vm_compute. repeat split. eauto. Qed.

(** C6, amended.  The webhook handler caches the route entry only after
    the router took the route and answered the commit request that follows
    with status [success]; a route whose commit request was refused is
    reported as a failure, with no entry.  An accepted commit request means
    that the router has enqueued a commit job, here one requested with the
    route in the candidate configuration: the handler caches the entry
    and reports success on that answer, and nothing it does reads the
    job.  The enhanced service caches the entry only after the route
    creation succeeded; with [auto_commit] off it caches it and reports
    success having requested no commit, and with [auto_commit] on it
    caches it and reports success whether the router accepts the commit
    request, which enqueues a job requested with the route in the
    candidate configuration, or refuses it. *)
Theorem association_and_commit
    (cfg : Config) (ans : Answers) (now : Z) (zone fqdn ip : string) (ttl : Z) (w : World) :
  let handled := DNSWebhookHandler.handle_dns_record_created ans now zone fqdn ip w in
  let injected := inject_route_for_dns_record cfg ans now zone fqdn ip ttl w in
  let handled_name := DNSWebhookHandler.route_name_of fqdn ip in
  let name := generate_route_name cfg now fqdn ip zone in
  (route_cache (snd handled) = route_cache w
   \/ (route_set_ok ans = true /\ commit_ok ans = true))
  /\ (DNSWebhookHandler._is_cyber_range_ip ip = true ->
      route_set_ok ans = true -> commit_ok ans = false ->
      success (fst handled) = false /\ route_cache (snd handled) = route_cache w
      /\ commit_jobs (snd handled) = commit_jobs w)
  /\ (DNSWebhookHandler._is_cyber_range_ip ip = true ->
      route_set_ok ans = true -> commit_ok ans = true ->
      success (fst handled) = true
      /\ is_Some (route_cache (snd handled) !! cache_key handled_name)
      /\ commit_jobs (snd handled)
         = (commit_jobs w ++ [<[handled_name := ip]> (candidate_routes w)])%list)
  /\ (route_cache (snd injected) = route_cache w
      \/ (is_cyber_range_ip cfg ip = true /\ dns_add_ok ans = true
          /\ route_set_ok ans = true))
  /\ (is_cyber_range_ip cfg ip = true -> dns_add_ok ans = true ->
      route_set_ok ans = true -> auto_commit cfg = false ->
      success (fst injected) = true
      /\ is_Some (route_cache (snd injected) !! cache_key name)
      /\ commit_jobs (snd injected) = commit_jobs w)
  /\ (is_cyber_range_ip cfg ip = true -> dns_add_ok ans = true ->
      route_set_ok ans = true -> auto_commit cfg = true ->
      success (fst injected) = true
      /\ is_Some (route_cache (snd injected) !! cache_key name)
      /\ commit_jobs (snd injected)
         = if commit_ok ans
           then (commit_jobs w ++ [<[name := ip]> (candidate_routes w)])%list
           else commit_jobs w).
Proof.
  cbv zeta. split; [apply handle_created_cache|].
  split.
  { intros Hin Hset Hcommit.
    pose proof (handle_created_commit_failed ans now zone fqdn ip w Hin Hset Hcommit) as H.
    destruct (DNSWebhookHandler.handle_dns_record_created ans now zone fqdn ip w) as [r w'].
    cbn [fst snd]. tauto. }
  split.
  { intros Hin Hset Hcommit.
    pose proof (handle_created_enqueued ans now zone fqdn ip w Hin Hset Hcommit) as H.
    cbv zeta in H.
    destruct (DNSWebhookHandler.handle_dns_record_created ans now zone fqdn ip w) as [r w'].
    cbn [fst snd]. tauto. }
  split; [apply inject_route_cache|].
  split.
  - intros Hin Hdns Hset Hauto.
    pose proof (inject_route_without_commit cfg ans now zone fqdn ip ttl w
                  Hauto Hin Hdns Hset) as H.
    cbv zeta in H.
    destruct (inject_route_for_dns_record cfg ans now zone fqdn ip ttl w) as [r w'].
    cbn [fst snd]. tauto.
  - intros Hin Hdns Hset Hauto.
    pose proof (inject_route_with_commit cfg ans now zone fqdn ip ttl w
                  Hauto Hin Hdns Hset) as H.
    cbv zeta in H.
    destruct (inject_route_for_dns_record cfg ans now zone fqdn ip ttl w) as [r w'].
    cbn [fst snd]. tauto.
Qed.

(** The handler on the address of the enhanced service's test, with a
    router that takes the route and refuses the commit request: a
    failure, nothing cached, no job enqueued. *)
Lemma association_and_commit_witness :
  let handled := DNSWebhookHandler.handle_dns_record_created commit_fails 0
                   "bakerstreetlabs.local" "malware.bakerstreetlabs.local"
                   "192.168.1.100" fresh_world in
  success (fst handled) = false /\ route_cache (snd handled) = route_cache fresh_world
  /\ commit_jobs (snd handled) = commit_jobs fresh_world.
Proof.
  apply (proj1 (proj2 (association_and_commit default_config commit_fails 0
                         "bakerstreetlabs.local" "malware.bakerstreetlabs.local"
                         "192.168.1.100" 60 fresh_world)));
    reflexivity.
Defined.

End CommitAndAssociation.

(** ** Allocation and the stages after it *)

Section AllocationAndDownstream.

Import RouteInjectionService IPAMService.

(** What a successful first half of [allocate_ip] built. *)
Lemma reserve_Return now w subnet_id device_id preferred_ip notes expires_at
    subnet ip_record rows :
  reserve now w subnet_id device_id preferred_ip notes expires_at
  = Return (subnet, ip_record, rows) ->
  IPAddress.status ip_record = "allocated"
  /\ IPAddress.subnet_id ip_record = subnet_id
  /\ IPAddress.device_id ip_record = device_id
  /\ IPAddress.notes ip_record = notes
  /\ IPAddress.expires_at ip_record = expires_at
  /\ IPAddress.allocated_at ip_record = Some now
  /\ rows = (ip_addresses w ++ [ip_record])%list
  /\ find (fun s => Subnet.id s =? subnet_id) (subnets w) = Some subnet.
Proof.
  unfold reserve, insert.
  destruct (find _ (subnets w)) as [s|]; [|discriminate].
  destruct (ipaddress.ip_network true _) as [network|]; [|discriminate].
  destruct (match preference preferred_ip with
            | Some preferred => check_preferred network preferred
            | None => Return ()
            end); [|discriminate].
  destruct (find_available _ _ _ _) as [ip|]; [|discriminate].
  destruct (existsb _ _); [discriminate|].
  destruct (negb _); [discriminate|].
  intros [= <- <- <-]. cbn. repeat split.
Qed.

Lemma publish_ip_addresses cfg ans now subnet ip_record w :
  ip_addresses (publish cfg ans now subnet ip_record w) = ip_addresses w.
Proof.
  unfold publish, _cache_ip_allocation, _trigger_route_injection, _create_dns_record.
  cbn [ip_addresses set_ipam_cache].
  destruct (_is_cyber_range_ip _); [rewrite inject_route_ip_addresses|];
    destruct (device_given _); try reflexivity;
    destruct (find _ _); try reflexivity;
    destruct (ipam_dns_ok ans); reflexivity.
Qed.

(** The report of [allocate_ip] is decided before the stages that follow
    the commit: it is the same whatever the DNS API and the router
    answer. *)
Lemma allocate_ip_report cfg ans ans' now w subnet_id device_id preferred_ip notes
    expires_at :
  fst (allocate_ip cfg ans now w subnet_id device_id preferred_ip notes expires_at)
  = fst (allocate_ip cfg ans' now w subnet_id device_id preferred_ip notes expires_at).
Proof.
  unfold allocate_ip, allocate_ip_body, handler.
  destruct (reserve _ _ _ _ _ _ _) as [[[subnet ip_record] rows]|e]; reflexivity.
Qed.

(** The route-injection service, DNS record added and route refused: the
    answer is the failure "Route injection failed"; the DNS record stays
    and nothing else changes. *)
Lemma inject_route_refused cfg ans now zone fqdn ip ttl w :
  is_cyber_range_ip cfg ip = true -> dns_add_ok ans = true -> route_set_ok ans = false ->
  inject_route_for_dns_record cfg ans now zone fqdn ip ttl w
  = ({| success := false; message := "Route injection failed";
        route_injected := false; route_name := None |},
     set_dns_records ({| dns_zone := zone; dns_fqdn := fqdn; dns_ip_address := ip;
                         dns_ttl := ttl |} :: dns_records w) w).
Proof.
  intros Hin Hdns Hset.
  unfold inject_route_for_dns_record, add_dns_record, create_static_route.
  now rewrite Hin, Hdns, Hset.
Qed.

Lemma inject_route_dns_kept cfg ans now zone fqdn ip ttl w d :
  In d (dns_records w) ->
  In d (dns_records (snd (inject_route_for_dns_record cfg ans now zone fqdn ip ttl w))).
Proof.
  intros Hd.
  unfold inject_route_for_dns_record, add_dns_record, create_static_route,
    commit_configuration.
  destruct (is_cyber_range_ip cfg ip), (dns_add_ok ans), (route_set_ok ans),
    (auto_commit cfg), (commit_ok ans); cbn; auto.
Qed.

Lemma create_dns_record_kept ans hostname ip zone w d :
  In d (dns_records w) -> In d (dns_records (_create_dns_record ans hostname ip zone w)).
Proof.
  intros Hd. unfold _create_dns_record. destruct (ipam_dns_ok ans); cbn; auto.
Qed.

Lemma publish_dns_kept cfg ans now subnet ip_record w d :
  In d (dns_records w) -> In d (dns_records (publish cfg ans now subnet ip_record w)).
Proof.
  intros Hd. unfold publish, _cache_ip_allocation, _trigger_route_injection.
  cbn [dns_records set_ipam_cache].
  assert (Hdev : In d (dns_records
            match device_given (IPAddress.device_id ip_record) with
            | Some d0 =>
                match find (fun dev => Device.id dev =? d0) (devices w) with
                | Some device =>
                    _create_dns_record ans (Device.hostname device)
                      (IPAddress.ip_address ip_record) (Subnet.zone subnet) w
                | None => w
                end
            | None => w
            end)).
  { destruct (device_given _); [|exact Hd].
    destruct (find _ _); [|exact Hd]. now apply create_dns_record_kept. }
  destruct (_is_cyber_range_ip _); [|exact Hdev].
  now apply inject_route_dns_kept.
Qed.

Lemma inject_route_refused_cache cfg ans now zone fqdn ip ttl w :
  route_set_ok ans = false ->
  route_cache (snd (inject_route_for_dns_record cfg ans now zone fqdn ip ttl w))
  = route_cache w.
Proof.
  intros Hset.
  destruct (inject_route_cache cfg ans now zone fqdn ip ttl w) as [H|(_ & _ & H)];
    [exact H|congruence].
Qed.

Lemma create_dns_record_route_cache ans hostname ip zone w :
  route_cache (_create_dns_record ans hostname ip zone w) = route_cache w.
Proof. unfold _create_dns_record. destruct (ipam_dns_ok ans); reflexivity. Qed.

Lemma publish_route_refused cfg ans now subnet ip_record w :
  route_set_ok ans = false ->
  route_cache (publish cfg ans now subnet ip_record w) = route_cache w
  /\ (dns_add_ok ans = true ->
      _is_cyber_range_ip (IPAddress.ip_address ip_record) = true ->
      is_cyber_range_ip cfg (IPAddress.ip_address ip_record) = true ->
      In {| dns_zone := "bakerstreetlabs.local";
            dns_fqdn := injection_fqdn (IPAddress.ip_address ip_record)
                                       (IPAddress.device_id ip_record);
            dns_ip_address := IPAddress.ip_address ip_record; dns_ttl := 60 |}
         (dns_records (publish cfg ans now subnet ip_record w))).
Proof.
  intros Hset. unfold publish, _cache_ip_allocation, _trigger_route_injection.
  cbn [dns_records route_cache set_ipam_cache].
  split.
  - destruct (_is_cyber_range_ip _); [rewrite inject_route_refused_cache by exact Hset|];
      (destruct (device_given _); [|reflexivity]);
      (destruct (find _ _); [|reflexivity]);
      apply create_dns_record_route_cache.
  - intros Hdns Hipam Hsvc. rewrite Hipam.
    rewrite (inject_route_refused cfg ans now _ _ _ _ _ Hsvc Hdns Hset).
    cbn. now left.
Qed.

Lemma publish_ipam_dns_record cfg ans now subnet ip_record w d device :
  ipam_dns_ok ans = true ->
  device_given (IPAddress.device_id ip_record) = Some d ->
  find (fun dev => Device.id dev =? d) (devices w) = Some device ->
  In {| dns_zone := Subnet.zone subnet;
        dns_fqdn := Device.hostname device +:+ "." +:+ Subnet.zone subnet;
        dns_ip_address := IPAddress.ip_address ip_record; dns_ttl := 300 |}
     (dns_records (publish cfg ans now subnet ip_record w)).
Proof.
  intros Hok Hgiven Hdevice.
  unfold publish, _cache_ip_allocation, _trigger_route_injection.
  cbn [dns_records set_ipam_cache]. rewrite Hgiven, Hdevice.
  assert (Hin : In {| dns_zone := Subnet.zone subnet;
                      dns_fqdn := Device.hostname device +:+ "." +:+ Subnet.zone subnet;
                      dns_ip_address := IPAddress.ip_address ip_record; dns_ttl := 300 |}
                   (dns_records (_create_dns_record ans (Device.hostname device)
                                   (IPAddress.ip_address ip_record) (Subnet.zone subnet) w))).
  { unfold _create_dns_record. rewrite Hok. cbn. now left. }
  destruct (_is_cyber_range_ip _); [|exact Hin].
  now apply inject_route_dns_kept.
Qed.

(** C5, the claim as stated fails: the test device asks for an address of
    the test subnet, both DNS records are published and the router refuses
    the route.  The call reports the allocation, the row is [allocated],
    both DNS records are still there. *)
Lemma allocation_not_compensated :
  let '(res, w') := allocate_ip default_config route_fails 1000 fresh_world
                      1 (Some 1) None (Some "Test IP allocation") None in
  res = Return {| IPAddress.id := 1; IPAddress.ip_address := "10.100.1.1";
                  IPAddress.subnet_id := 1; IPAddress.device_id := Some 1;
                  IPAddress.status := "allocated"; IPAddress.allocated_at := Some 1000;
                  IPAddress.expires_at := None;
                  IPAddress.notes := Some "Test IP allocation" |}
  /\ map IPAddress.status (ip_addresses w') = ["allocated"]
  /\ dns_records w'
     = [ {| dns_zone := "bakerstreetlabs.local";
            dns_fqdn := "device-1.bakerstreetlabs.local";
            dns_ip_address := "10.100.1.1"; dns_ttl := 60 |};
         {| dns_zone := "test"; dns_fqdn := "test-workstation-01.test";
            dns_ip_address := "10.100.1.1"; dns_ttl := 300 |} ]
  /\ route_cache w' = ∅.
Proof. vm_compute. repeat split. Qed.

(** C5, amended.  When the DNS record is published and the router refuses
    the route, nothing is compensated.  The route-injection service
    answers the failure "Route injection failed" and leaves the DNS record
    in place.  The IPAM service reports what it would report had every
    stage succeeded; when that is an allocation, the record is
    [allocated], it is the one row added to the table, every DNS record
    is kept, the one of the device and the one the route-injection
    service added included, and no route entry is cached. *)
Theorem route_failure_is_not_compensated
    (cfg : Config) (ans : Answers) (now : Z) (w : World) (subnet_id : Z)
    (device_id : option Z) (preferred_ip notes : option string) (expires_at : option Z)
    (Hdns : dns_add_ok ans = true) (Hroute : route_set_ok ans = false) :
  let res := allocate_ip cfg ans now w subnet_id device_id preferred_ip notes expires_at in
  (forall zone fqdn ip ttl w0,
      is_cyber_range_ip cfg ip = true ->
      let injected := inject_route_for_dns_record cfg ans now zone fqdn ip ttl w0 in
      success (fst injected) = false
      /\ message (fst injected) = "Route injection failed"
      /\ dns_records (snd injected)
         = {| dns_zone := zone; dns_fqdn := fqdn; dns_ip_address := ip; dns_ttl := ttl |}
             :: dns_records w0
      /\ ip_addresses (snd injected) = ip_addresses w0)
  /\ fst res
     = fst (allocate_ip cfg all_ok now w subnet_id device_id preferred_ip notes expires_at)
  /\ (forall r, fst res = Return r ->
      IPAddress.status r = "allocated"
      /\ ip_addresses (snd res) = (ip_addresses w ++ [r])%list
      /\ (forall d, In d (dns_records w) -> In d (dns_records (snd res)))
      /\ (forall d device subnet,
            ipam_dns_ok ans = true ->
            device_given device_id = Some d ->
            find (fun dev => Device.id dev =? d) (devices w) = Some device ->
            find (fun s => Subnet.id s =? subnet_id) (subnets w) = Some subnet ->
            In {| dns_zone := Subnet.zone subnet;
                  dns_fqdn := Device.hostname device +:+ "." +:+ Subnet.zone subnet;
                  dns_ip_address := IPAddress.ip_address r; dns_ttl := 300 |}
               (dns_records (snd res)))
      /\ (_is_cyber_range_ip (IPAddress.ip_address r) = true ->
          is_cyber_range_ip cfg (IPAddress.ip_address r) = true ->
          In {| dns_zone := "bakerstreetlabs.local";
                dns_fqdn := injection_fqdn (IPAddress.ip_address r) (IPAddress.device_id r);
                dns_ip_address := IPAddress.ip_address r; dns_ttl := 60 |}
             (dns_records (snd res)))
      /\ route_cache (snd res) = route_cache w).
Proof.
  cbv zeta. split; [|split].
  - intros zone fqdn ip ttl w0 Hin.
    rewrite (inject_route_refused cfg ans now zone fqdn ip ttl w0 Hin Hdns Hroute).
    cbn. auto.
  - apply allocate_ip_report.
  - intros r. unfold allocate_ip, allocate_ip_body, handler.
    destruct (reserve _ _ _ _ _ _ _) as [[[subnet ip_record] rows]|e] eqn:Hres;
      [|discriminate].
    cbn [fst snd]. intros [= ->].
    destruct (reserve_Return _ _ _ _ _ _ _ _ _ _ Hres)
      as (Hstatus & _ & Hdev & _ & _ & _ & Hrows & Hsubnet).
    destruct (publish_route_refused cfg ans now subnet r (set_ip_addresses rows w) Hroute)
      as (Hcache & Hrec).
    split; [exact Hstatus|].
    split; [rewrite publish_ip_addresses; cbn; exact Hrows|].
    split; [intros d Hd; apply publish_dns_kept; exact Hd|].
    split.
    { intros d device subnet' Hok Hgiven Hdevice Hsubnet'.
      rewrite Hsubnet in Hsubnet'. injection Hsubnet' as <-.
      apply (publish_ipam_dns_record cfg ans now subnet r _ d device Hok);
        [rewrite Hdev; exact Hgiven|exact Hdevice]. }
    split; [intros H1 H2; apply Hrec; auto|].
    exact Hcache.
Qed.

(** The request of [allocation_not_compensated]. *)
Lemma route_failure_is_not_compensated_witness :
  fst (allocate_ip default_config route_fails 1000 fresh_world
         1 (Some 1) None (Some "Test IP allocation") None)
  = fst (allocate_ip default_config all_ok 1000 fresh_world
           1 (Some 1) None (Some "Test IP allocation") None).
Proof.
  apply (proj1 (proj2 (route_failure_is_not_compensated default_config route_fails 1000
                         fresh_world 1 (Some 1) None (Some "Test IP allocation") None
                         eq_refl eq_refl))).
Defined.

End AllocationAndDownstream.

(** ** The commit-job polling loop *)

Section CommitPolling.

Import CommitJob.

(** A poll that is not in progress ends the loop with its verdict. *)
Lemma poll_job_stops fuel replies i slept :
  in_progress (replies i) = false ->
  poll_job (S fuel) replies i slept = Some (verdict (replies i), slept).
Proof.
  cbn [poll_job]. unfold in_progress, verdict.
  destruct (replies i) as [|[status_root|]]; try reflexivity.
  destruct (find_descendant "status" status_root) as [job_status_elem|]; try reflexivity.
  destruct (bool_decide (text_of job_status_elem = Some "FIN")); cbn;
    [reflexivity|discriminate].
Qed.

(** A poll in progress costs two seconds of sleep and one more round. *)
Lemma poll_job_continues fuel replies i slept :
  in_progress (replies i) = true ->
  poll_job (S fuel) replies i slept = poll_job fuel replies (S i) (slept + 2).
Proof.
  cbn [poll_job]. unfold in_progress.
  destruct (replies i) as [|[status_root|]]; try discriminate.
  destruct (find_descendant "status" status_root) as [job_status_elem|]; try discriminate.
  destruct (bool_decide (text_of job_status_elem = Some "FIN")); cbn;
    [discriminate|reflexivity].
Qed.

(** While every poll so far was in progress the loop has not returned. *)
Lemma poll_job_pending replies : forall fuel i slept,
  (forall j, (j < fuel)%nat -> in_progress (replies (i + j)%nat) = true) ->
  poll_job fuel replies i slept = None.
Proof.
  induction fuel as [|fuel IH]; intros i slept Hall; [reflexivity|].
  rewrite poll_job_continues.
  - apply IH. intros j Hj. replace (S i + j)%nat with (i + S j)%nat by lia.
    apply Hall. lia.
  - replace i with (i + 0)%nat by lia. apply Hall. lia.
Qed.

(** The loop returns at the first poll that is not in progress, having
    slept two seconds after each poll before it. *)
Lemma poll_job_first_stop replies : forall k fuel i slept,
  (forall j, (j < k)%nat -> in_progress (replies (i + j)%nat) = true) ->
  in_progress (replies (i + k)%nat) = false ->
  (k < fuel)%nat ->
  poll_job fuel replies i slept
  = Some (verdict (replies (i + k)%nat), slept + 2 * Z.of_nat k).
Proof.
  induction k as [|k IH]; intros fuel i slept Hbefore Hstop Hfuel.
  - destruct fuel as [|fuel]; [lia|].
    replace (i + 0)%nat with i in * by lia.
    rewrite poll_job_stops by exact Hstop. f_equal. f_equal. lia.
  - destruct fuel as [|fuel]; [lia|].
    rewrite poll_job_continues.
    + rewrite (IH fuel (S i) (slept + 2)).
      * replace (S i + k)%nat with (i + S k)%nat by lia. f_equal. f_equal. lia.
      * intros j Hj. replace (S i + j)%nat with (i + S j)%nat by lia.
        apply Hbefore. lia.
      * replace (S i + k)%nat with (i + S k)%nat by lia. exact Hstop.
      * lia.
    + replace i with (i + 0)%nat by lia. apply Hbefore. lia.
Qed.

(** After a commit answer with status [success] and a [job] element the
    function is its polling loop. *)
Lemma commit_config_polls fuel root replies :
  get root "status" = Some "success" ->
  is_Some (find_descendant "job" root) ->
  commit_config fuel (CommitResponse (Some root)) replies = poll_job fuel replies 0 0.
Proof.
  intros Hstatus [job_id_elem Hjob]. unfold commit_config.
  rewrite Hjob, bool_decide_eq_true_2 by exact Hstatus. reflexivity.
Qed.

(** [find('.//result')] on an answer whose first child is a [result]
    element: that child, whatever it holds. *)
Lemma find_result_wrapper tag attrib text wrapper_attrib wrapper_text wrapped rest :
  find_descendant "result"
    (Elem tag attrib text (Elem "result" wrapper_attrib wrapper_text wrapped :: rest))
  = Some (Elem "result" wrapper_attrib wrapper_text wrapped).
Proof. reflexivity. Qed.

(** What a poll that ends the loop gives [True] for. *)
Lemma verdict_true r :
  verdict r = Return true
  <-> exists status_root job_status_elem result_elem,
        r = PollResponse (Some status_root)
        /\ find_descendant "status" status_root = Some job_status_elem
        /\ text_of job_status_elem = Some "FIN"
        /\ find_descendant "result" status_root = Some result_elem
        /\ text_of result_elem = Some "OK".
Proof.
  unfold verdict. split.
  - destruct r as [|[status_root|]]; try discriminate.
    destruct (find_descendant "status" status_root) as [job_status_elem|] eqn:Hstatus;
      [|discriminate].
    destruct (find_descendant "result" status_root) as [result_elem|] eqn:Hresult.
    + intros [= H]. apply andb_true_iff in H as [Hfin Hok].
      apply bool_decide_eq_true_1 in Hfin. apply bool_decide_eq_true_1 in Hok.
      exists status_root, job_status_elem, result_elem. auto.
    + intros [= H]. apply andb_true_iff in H as [_ H]. discriminate.
  - intros (status_root & job_status_elem & result_elem & -> & -> & Hfin & -> & Hok).
    rewrite !bool_decide_eq_true_2 by assumption. reflexivity.
Qed.

(** C7, the claim as stated fails: [commit_config] takes no timeout, and
    on a job whose status never becomes [FIN] no number of polls makes it
    return or raise. *)
Lemma commit_config_never_returns :
  ~ exists fuel outcome,
      commit_config fuel (CommitResponse (Some commit_answer)) job_never_finishes
      = Some outcome.
Proof.
  intros (fuel & outcome & Hret).
  rewrite commit_config_polls in Hret.
  - rewrite poll_job_pending in Hret; [discriminate|].
    intros j _. reflexivity.
  - reflexivity.
  - eexists. reflexivity.
Qed.

(** C7, amended.  After a commit request answered with status [success]
    and a [job] element, the loop polls the job and sleeps two seconds
    after every poll whose answer parses and whose first [status] element
    reads other than [FIN].  It has no timeout: as long as every poll is
    such a poll it has neither returned nor raised.  It ends at the first
    poll that is not, after two seconds of sleep for each poll before
    it.  A failed request gives [False]; an answer that does not parse
    raises [ParseError], which nothing catches; an answer with no [status]
    element gives [False]; and [FIN] gives [True] exactly when the first
    [result] element of the answer, in document order, reads [OK].  In an
    answer that wraps the job in a [result] element, as the answer of
    PAN-OS does, the first [result] element is that wrapper: unless its
    own text is [OK] the loop gives [False] for a job that finished with
    result [OK] as for one that failed. *)
Theorem commit_polling_stops_at_first_terminal_poll
    (root : Element) (replies : nat -> PollReply) (k : nat)
    (Hstatus : get root "status" = Some "success")
    (Hjob : is_Some (find_descendant "job" root))
    (Hbefore : forall i, (i < k)%nat -> in_progress (replies i) = true) :
  (forall fuel, (fuel <= k)%nat ->
     commit_config fuel (CommitResponse (Some root)) replies = None)
  /\ (in_progress (replies k) = false ->
      forall fuel, (k < fuel)%nat ->
        commit_config fuel (CommitResponse (Some root)) replies
        = Some (verdict (replies k), 2 * Z.of_nat k))
  /\ (replies k = PollRequestError -> verdict (replies k) = Return false)
  /\ (replies k = PollResponse None -> verdict (replies k) = Raise ParseError)
  /\ (forall status_root, replies k = PollResponse (Some status_root) ->
      find_descendant "status" status_root = None ->
      verdict (replies k) = Return false)
  /\ (verdict (replies k) = Return true
      <-> exists status_root job_status_elem result_elem,
            replies k = PollResponse (Some status_root)
            /\ find_descendant "status" status_root = Some job_status_elem
            /\ text_of job_status_elem = Some "FIN"
            /\ find_descendant "result" status_root = Some result_elem
            /\ text_of result_elem = Some "OK")
  /\ (forall tag attrib text wrapper_attrib wrapper_text wrapped rest,
      replies k = PollResponse (Some
        (Elem tag attrib text (Elem "result" wrapper_attrib wrapper_text wrapped :: rest))) ->
      wrapper_text <> Some "OK" ->
      verdict (replies k) <> Return true).
Proof.
  split; [|split; [|split; [|split; [|split; [|split]]]]].
  - intros fuel Hfuel. rewrite commit_config_polls by assumption.
    apply poll_job_pending. intros j Hj. apply Hbefore. lia.
  - intros Hstop fuel Hfuel. rewrite commit_config_polls by assumption.
    rewrite (poll_job_first_stop replies k fuel 0 0); auto.
  - intros ->. reflexivity.
  - intros ->. reflexivity.
  - intros status_root -> Hnone. unfold verdict. rewrite Hnone. reflexivity.
  - apply verdict_true.
  - intros tag attrib text wrapper_attrib wrapper_text wrapped rest Hreply Hwrapper Htrue.
    apply verdict_true in Htrue
      as (status_root & job_status_elem & result_elem & Hroot & _ & _ & Hresult & Hok).
    rewrite Hreply in Hroot. injection Hroot as <-.
    rewrite find_result_wrapper in Hresult. injection Hresult as <-.
    exact (Hwrapper Hok).
Qed.

(** The job that finishes at the third poll with result [OK], in the
    answers of PAN-OS: the loop sleeps four seconds and returns [False]. *)
Lemma commit_polling_witness :
  commit_config 3%nat (CommitResponse (Some commit_answer)) job_finishes_third
  = Some (Return false, 4).
Proof.
  refine (proj1 (proj2 (commit_polling_stops_at_first_terminal_poll commit_answer
                          job_finishes_third 2%nat _ _ _)) eq_refl 3%nat _).
  - reflexivity.
  - eexists. reflexivity.
  - intros [|[|i]] Hi; [reflexivity|reflexivity|lia].
  - lia.
Defined.

End CommitPolling.

(** ** Release *)

Section Release.

Import RouteInjectionService IPAMService.

Lemma release_row_first ip : forall l1 r l2,
  is_allocated_row ip r = true ->
  (forall x, In x l1 -> is_allocated_row ip x = false) ->
  release_row ip (l1 ++ r :: l2) = Some (released r, (l1 ++ released r :: l2)%list).
Proof.
  induction l1 as [|x l1 IH]; intros r l2 Hr Hl1; cbn.
  - now rewrite Hr.
  - rewrite (Hl1 x) by now left.
    rewrite IH; auto. intros y Hy. apply Hl1. now right.
Qed.

Lemma release_row_none ip : forall rows,
  (forall x, In x rows -> is_allocated_row ip x = false) ->
  release_row ip rows = None.
Proof.
  induction rows as [|x rows IH]; intros Hrows; cbn; [reflexivity|].
  rewrite (Hrows x) by now left.
  rewrite IH; auto. intros y Hy. apply Hrows. now right.
Qed.

Lemma release_ip_released cfg ans now w ip ip_record rows :
  release_row ip (ip_addresses w) = Some (ip_record, rows) ->
  fst (release_ip cfg ans now w ip)
  = Return ("IP address " +:+ ip +:+ " released successfully")
  /\ ip_addresses (snd (release_ip cfg ans now w ip)) = rows.
Proof.
  intros Hrow. unfold release_ip, release_ip_body, handler. rewrite Hrow.
  cbn [fst snd]. split; [reflexivity|].
  unfold _cache_ip_allocation, _remove_route_injection. cbn [ip_addresses set_ipam_cache].
  destruct (_is_cyber_range_ip ip); [rewrite remove_route_ip_addresses|]; reflexivity.
Qed.

(** C8, the claim as stated fails: the address allocated to the test
    device with a note and an expiry is released; the row keeps the
    note. *)
Lemma release_keeps_notes :
  let '(res, w2) := release_ip default_config all_ok 2000 allocated_world "10.100.1.1" in
  res = Return "IP address 10.100.1.1 released successfully"
  /\ ip_addresses w2
     = [ {| IPAddress.id := 1; IPAddress.ip_address := "10.100.1.1";
            IPAddress.subnet_id := 1; IPAddress.device_id := None;
            IPAddress.status := "available"; IPAddress.allocated_at := None;
            IPAddress.expires_at := None;
            IPAddress.notes := Some "Test IP allocation" |} ]
  /\ IPAddress.notes <$> ip_addresses w2 <> [None].
Proof. vm_compute. repeat split. discriminate. Qed.

(** C8, amended.  When the table holds a row of the address with status
    [allocated], release succeeds and rewrites the first such row: device,
    [allocated_at] and [expires_at] are cleared and the status becomes
    [available], while the address, the subnet, the identifier and the
    notes are kept; every other row is as it was.  When no row of the
    address has status [allocated], release fails and the world is as it
    was. *)
Theorem release_ip_effect
    (cfg : Config) (ans : Answers) (now : Z) (w : World) (ip : string) :
  (forall l1 r l2,
      ip_addresses w = (l1 ++ r :: l2)%list ->
      is_allocated_row ip r = true ->
      (forall x, In x l1 -> is_allocated_row ip x = false) ->
      let r' := released r in
      fst (release_ip cfg ans now w ip)
      = Return ("IP address " +:+ ip +:+ " released successfully")
      /\ ip_addresses (snd (release_ip cfg ans now w ip)) = (l1 ++ r' :: l2)%list
      /\ IPAddress.device_id r' = None
      /\ IPAddress.allocated_at r' = None
      /\ IPAddress.expires_at r' = None
      /\ IPAddress.status r' = "available"
      /\ IPAddress.ip_address r' = IPAddress.ip_address r
      /\ IPAddress.subnet_id r' = IPAddress.subnet_id r
      /\ IPAddress.id r' = IPAddress.id r
      /\ IPAddress.notes r' = IPAddress.notes r)
  /\ ((forall x, In x (ip_addresses w) -> is_allocated_row ip x = false) ->
      (exists e, fst (release_ip cfg ans now w ip) = Raise e)
      /\ snd (release_ip cfg ans now w ip) = w).
Proof.
  split.
  - intros l1 r l2 Hrows Hr Hl1. cbv zeta.
    pose proof (release_row_first ip l1 r l2 Hr Hl1) as Hrow. rewrite <- Hrows in Hrow.
    destruct (release_ip_released cfg ans now w ip _ _ Hrow) as [Hres Htable].
    repeat split; assumption.
  - intros Hnone. unfold release_ip, release_ip_body, handler.
    rewrite (release_row_none ip _ Hnone). cbn. split; [eauto|reflexivity].
Qed.

(** The release of the address of the test device: the first part of
    the theorem on the one row of the table. *)
Lemma release_ip_effect_witness :
  fst (release_ip default_config all_ok 2000 allocated_world "10.100.1.1")
  = Return "IP address 10.100.1.1 released successfully"
  /\ IPAddress.notes <$> ip_addresses
        (snd (release_ip default_config all_ok 2000 allocated_world "10.100.1.1"))
     = [Some "Test IP allocation"].
Proof.
  pose proof (proj1 (release_ip_effect default_config all_ok 2000 allocated_world
                       "10.100.1.1")
                [] {| IPAddress.id := 1; IPAddress.ip_address := "10.100.1.1";
                      IPAddress.subnet_id := 1; IPAddress.device_id := Some 1;
                      IPAddress.status := "allocated";
                      IPAddress.allocated_at := Some 1000;
                      IPAddress.expires_at := Some 4600;
                      IPAddress.notes := Some "Test IP allocation" |} []
                eq_refl eq_refl (fun x Hx => match Hx with end)) as H.
  cbv zeta in H. destruct H as (Hres & Htable & _).
  split; [exact Hres|]. rewrite Htable. reflexivity.
Defined.

End Release.

(** ** The first address of the test subnet *)

Section FirstAddress.

Import RouteInjectionService IPAMService.

Lemma first_available_test_subnet :
  first_available {| ipaddress.network_address := 174326016; ipaddress.prefixlen := 24 |} []
  = Return "10.100.1.1".
Proof. vm_compute. reflexivity. Qed.




End FirstAddress.

(** ** The two tests for a cyber range address *)

Section ManagedRange.

Import RouteInjectionService.


Lemma is_digit_cases c :
  Py.is_digit c = true ->
  In c ["0"; "1"; "2"; "3"; "4"; "5"; "6"; "7"; "8"; "9"]%char.
Proof.
  unfold Py.is_digit. intros H.
  apply andb_prop in H as [Hlo Hhi].
  apply N.leb_le in Hlo, Hhi.
  rewrite <- (ascii_N_embedding c).
  assert (Hn : In (N_of_ascii c) [48; 49; 50; 51; 52; 53; 54; 55; 56; 57]%N).
  { cbn. lia. }
  cbn in Hn.
  repeat (destruct Hn as [<-|Hn]; [cbn; auto 12|]). destruct Hn.
Qed.

Ltac octet_case :=
  let H := fresh in
  intros H; vm_compute in H;
  first [ discriminate H
        | injection H as H; subst; split; [reflexivity | lia] ].

Ltac each_digit H tac :=
  cbn in H; repeat (destruct H as [<-|H]; [tac|]); destruct H.

Lemma parse_octet_canonical o v :
  ipaddress.parse_octet o = Some v -> o = Py.str v /\ 0 <= v <= 255.
Proof.
  unfold ipaddress.parse_octet.
  destruct o as [|c1 [|c2 [|c3 [|c4 o]]]].
  - discriminate.
  - cbn [Py.truthy negb Py.all_digits].
    destruct (Py.is_digit c1) eqn:H1; [|discriminate].
    apply is_digit_cases in H1.
    each_digit H1 octet_case.
  - cbn [Py.truthy negb Py.all_digits].
    destruct (Py.is_digit c1) eqn:H1; [|discriminate].
    destruct (Py.is_digit c2) eqn:H2; [|discriminate].
    apply is_digit_cases in H1, H2.
    each_digit H1 ltac:(each_digit H2 octet_case).
  - cbn [Py.truthy negb Py.all_digits].
    destruct (Py.is_digit c1) eqn:H1; [|discriminate].
    destruct (Py.is_digit c2) eqn:H2; [|discriminate].
    destruct (Py.is_digit c3) eqn:H3; [|discriminate].
    apply is_digit_cases in H1, H2, H3.
    each_digit H1 ltac:(each_digit H2 ltac:(each_digit H3 octet_case)).
  - cbn [Py.truthy negb]. destruct (Py.all_digits _); cbn; discriminate.
Qed.

Lemma split_cons2 sep : forall s o o' rest,
  Py.split sep s = o :: o' :: rest ->
  exists s', s = o +:+ String sep s' /\ Py.split sep s' = o' :: rest.
Proof.
  induction s as [|c s IH]; intros o o' rest; cbn.
  - discriminate.
  - destruct (Ascii.eqb c sep) eqn:Hc.
    + apply Ascii.eqb_eq in Hc as ->. intros [= <- Hs]. exists s. split; [reflexivity|exact Hs].
    + destruct (Py.split sep s) as [|piece pieces] eqn:Hs; [discriminate|].
      intros [= <- ->].
      destruct (IH piece o' rest eq_refl) as (s' & -> & Hs').
      exists s'. split; [reflexivity|exact Hs'].
Qed.

Lemma ip_address_octets s ip :
  ipaddress.ip_address s = Some ip ->
  exists o1 o2 o3 o4 v1 v2 v3 v4,
    Py.split "." s = [o1; o2; o3; o4]
    /\ ipaddress.parse_octet o1 = Some v1 /\ ipaddress.parse_octet o2 = Some v2
    /\ ipaddress.parse_octet o3 = Some v3 /\ ipaddress.parse_octet o4 = Some v4
    /\ ip = ((v1 * 256 + v2) * 256 + v3) * 256 + v4.
Proof.
  unfold ipaddress.ip_address, ipaddress.ip_int_from_string.
  destruct (Py.contains "/" s); [discriminate|].
  destruct (Py.truthy s); [|discriminate]. cbn [negb].
  destruct (Py.split "." s) as [|o1 [|o2 [|o3 [|o4 [|o5 l]]]]]; try discriminate.
  cbn.
  destruct (ipaddress.parse_octet o1) as [v1|] eqn:H1; [|discriminate].
  destruct (ipaddress.parse_octet o2) as [v2|] eqn:H2; [|discriminate].
  destruct (ipaddress.parse_octet o3) as [v3|] eqn:H3; [|discriminate].
  destruct (ipaddress.parse_octet o4) as [v4|] eqn:H4; [|discriminate].
  cbn. intros [= <-]. exists o1, o2, o3, o4, v1, v2, v3, v4.
  repeat split; auto.
Qed.

Lemma land_shifted_ones x n k :
  0 <= n -> 0 <= k ->
  Z.land x (Z.shiftl (Z.ones n) k) = ((x / 2 ^ k) mod 2 ^ n) * 2 ^ k.
Proof.
  intros Hn Hk.
  rewrite <- Z.shiftl_mul_pow2, <- Z.land_ones, <- Z.shiftr_div_pow2 by assumption.
  apply Z.bits_inj'. intros i Hi.
  rewrite Z.land_spec.
  destruct (Z.lt_ge_cases i k) as [Hlt|Hge].
  - rewrite !Z.shiftl_spec_low by assumption. apply andb_false_r.
  - rewrite !Z.shiftl_spec by assumption.
    rewrite Z.land_spec, Z.shiftr_spec by lia.
    replace (i - k + k) with i by lia. reflexivity.
Qed.

Lemma startswith_append p s : Py.startswith (p +:+ s) p = true.
Proof.
  unfold Py.startswith. induction p as [|a p IH].
  - now destruct s.
  - change (String.prefix (String a p) (String a p +:+ s))
      with (if ascii_dec a a then String.prefix p (p +:+ s) else false).
    destruct (ascii_dec a a); [exact IH|contradiction].
Qed.


Lemma ipam_networks_parsed :
  ipaddress.ip_network false "10.0.0.0/8"
  = Some {| ipaddress.network_address := 10 * 2 ^ 24; ipaddress.prefixlen := 8 |}
  /\ ipaddress.ip_network false "172.20.0.0/16"
     = Some {| ipaddress.network_address := (172 * 256 + 20) * 2 ^ 16; ipaddress.prefixlen := 16 |}
  /\ ipaddress.ip_network false "172.21.0.0/16"
     = Some {| ipaddress.network_address := (172 * 256 + 21) * 2 ^ 16; ipaddress.prefixlen := 16 |}
  /\ ipaddress.ip_network false "192.168.0.0/16"
     = Some {| ipaddress.network_address := (192 * 256 + 168) * 2 ^ 16; ipaddress.prefixlen := 16 |}.
Proof. repeat split. Qed.

Lemma contains_slash8 a v1 v2 v3 v4 :
  0 <= v1 <= 255 -> 0 <= v2 <= 255 -> 0 <= v3 <= 255 -> 0 <= v4 <= 255 ->
  ipaddress.contains {| ipaddress.network_address := a * 2 ^ 24; ipaddress.prefixlen := 8 |}
    (((v1 * 256 + v2) * 256 + v3) * 256 + v4) = true ->
  v1 = a.
Proof.
  intros B1 B2 B3 B4. unfold ipaddress.contains. cbn [ipaddress.network_address].
  change (ipaddress.netmask _) with (Z.shiftl (Z.ones 8) 24).
  rewrite land_shifted_ones by lia.
  intros H. apply Z.eqb_eq in H.
  change (2 ^ 24) with 16777216 in *. change (2 ^ 8) with 256 in *.
  assert (Hdiv : (((v1 * 256 + v2) * 256 + v3) * 256 + v4) / 16777216 = v1).
  { symmetry. apply (Z.div_unique_pos _ _ _ ((v2 * 256 + v3) * 256 + v4)); lia. }
  rewrite Hdiv, Z.mod_small in H by lia. lia.
Qed.

Lemma contains_slash16 a v1 v2 v3 v4 :
  0 <= v1 <= 255 -> 0 <= v2 <= 255 -> 0 <= v3 <= 255 -> 0 <= v4 <= 255 ->
  ipaddress.contains {| ipaddress.network_address := a * 2 ^ 16; ipaddress.prefixlen := 16 |}
    (((v1 * 256 + v2) * 256 + v3) * 256 + v4) = true ->
  v1 * 256 + v2 = a.
Proof.
  intros B1 B2 B3 B4. unfold ipaddress.contains. cbn [ipaddress.network_address].
  change (ipaddress.netmask _) with (Z.shiftl (Z.ones 16) 16).
  rewrite land_shifted_ones by lia.
  intros H. apply Z.eqb_eq in H.
  change (2 ^ 16) with 65536 in *.
  assert (Hdiv : (((v1 * 256 + v2) * 256 + v3) * 256 + v4) / 65536 = v1 * 256 + v2).
  { symmetry. apply (Z.div_unique_pos _ _ _ (v3 * 256 + v4)); lia. }
  rewrite Hdiv, Z.mod_small in H by lia. lia.
Qed.

(** Whatever the IPAM service takes for a cyber range address starts
    with one of the three prefixes of the webhook handler. *)
Lemma ipam_managed_prefix s :
  IPAMService._is_cyber_range_ip s = true ->
  Py.startswith s "10." = true \/ Py.startswith s "172." = true
  \/ Py.startswith s "192.168." = true.
Proof.
  unfold IPAMService._is_cyber_range_ip.
  destruct (ipaddress.ip_address s) as [ip|] eqn:Hip; [|discriminate].
  destruct (ip_address_octets s ip Hip)
    as (o1 & o2 & o3 & o4 & v1 & v2 & v3 & v4 & Hsplit & H1 & H2 & H3 & H4 & ->).
  destruct (parse_octet_canonical o1 v1 H1) as [-> B1].
  destruct (parse_octet_canonical o2 v2 H2) as [-> B2].
  destruct (parse_octet_canonical o3 v3 H3) as [_ B3].
  destruct (parse_octet_canonical o4 v4 H4) as [_ B4].
  destruct (split_cons2 _ _ _ _ _ Hsplit) as (s1 & -> & Hsplit1).
  destruct (split_cons2 _ _ _ _ _ Hsplit1) as (s2 & -> & _).
  destruct ipam_networks_parsed as (N1 & N2 & N3 & N4).
  cbn [in_networks]. rewrite N1. clear N1.
  destruct (ipaddress.contains _ _) eqn:C1.
  { apply contains_slash8 in C1; auto. subst v1. left. exact (startswith_append "10." _). }
  clear C1. rewrite N2. clear N2.
  destruct (ipaddress.contains _ _) eqn:C2.
  { apply contains_slash16 in C2; auto.
    assert (v1 = 172) as -> by lia. right; left. exact (startswith_append "172." _). }
  clear C2. rewrite N3. clear N3.
  destruct (ipaddress.contains _ _) eqn:C3.
  { apply contains_slash16 in C3; auto.
    assert (v1 = 172) as -> by lia. right; left. exact (startswith_append "172." _). }
  clear C3. rewrite N4. clear N4.
  destruct (ipaddress.contains _ _) eqn:C4; [|discriminate].
  apply contains_slash16 in C4; auto.
  assert (v1 = 192) as -> by lia. assert (v2 = 168) as -> by lia.
  right; right. exact (startswith_append "192.168." _).
Qed.

(** The networks of the default configuration of the enhanced service are
    among those of the IPAM service. *)
Lemma enhanced_default_managed s :
  is_cyber_range_ip default_config s = true -> IPAMService._is_cyber_range_ip s = true.
Proof.
  unfold is_cyber_range_ip, IPAMService._is_cyber_range_ip.
  destruct (ipaddress.ip_address s) as [ip|]; [|discriminate].
  destruct ipam_networks_parsed as (N1 & N2 & N3 & N4).
  cbn [cyber_range_networks default_config in_networks]. rewrite N1, N2, N3, N4.
  destruct
    (ipaddress.contains {| ipaddress.network_address := 10 * 2 ^ 24;
                           ipaddress.prefixlen := 8 |} ip),
    (ipaddress.contains {| ipaddress.network_address := (172 * 256 + 20) * 2 ^ 16;
                           ipaddress.prefixlen := 16 |} ip),
    (ipaddress.contains {| ipaddress.network_address := (172 * 256 + 21) * 2 ^ 16;
                           ipaddress.prefixlen := 16 |} ip),
    (ipaddress.contains {| ipaddress.network_address := (192 * 256 + 168) * 2 ^ 16;
                           ipaddress.prefixlen := 16 |} ip);
    cbn; auto.
Qed.

(** C10, the claim as stated fails: 172.16.0.1 starts with "172." and
    lies in none of the four networks of the IPAM service. *)
Lemma managed_range_tests_disagree :
  IPAMService._is_cyber_range_ip "172.16.0.1" = false
  /\ DNSWebhookHandler._is_cyber_range_ip "172.16.0.1" = true.
Proof. split; reflexivity. Qed.

(** C10, amended.  The tests agree in one direction only: every string
    the CIDR test of the IPAM service accepts is accepted by the prefix
    test of the webhook handler, so an address whose allocation triggers
    the route injection is also one the handler takes for a cyber range
    address. *)
Theorem ipam_managed_implies_webhook_managed (s : string) :
  IPAMService._is_cyber_range_ip s = true ->
  DNSWebhookHandler._is_cyber_range_ip s = true.
Proof.
  intros H. unfold DNSWebhookHandler._is_cyber_range_ip.
  destruct (ipam_managed_prefix s H) as [-> | [-> | ->]];
    rewrite ?orb_true_r; reflexivity.
Qed.

(** An address of the test subnet. *)
Lemma ipam_managed_implies_webhook_managed_witness :
  DNSWebhookHandler._is_cyber_range_ip "10.100.1.2" = true.
Proof. apply (ipam_managed_implies_webhook_managed "10.100.1.2"). reflexivity. Defined.

End ManagedRange.

(** ** The scan for the first available address *)

Section FirstFit.

Import RouteInjectionService IPAMService.

Lemma find_first {A} (p : A -> bool) : forall (l : list A) (x : A),
  find p l = Some x ->
  exists i, l !! i = Some x /\ p x = true
            /\ forall j y, (j < i)%nat -> l !! j = Some y -> p y = false.
Proof.
  induction l as [|a l IH]; intros x; cbn; [discriminate|].
  destruct (p a) eqn:Hpa.
  - intros [= <-]. exists 0%nat. repeat split; auto. intros j y Hj. lia.
  - intros Hfind. destruct (IH x Hfind) as (i & Hi & Hpx & Hbefore).
    exists (S i). repeat split; auto.
    intros [|j] y Hj; cbn; [intros [= <-]; exact Hpa|].
    apply Hbefore. lia.
Qed.

(** [range(a, b)] counts up from [a]. *)
Lemma range_lookup a b i x :
  ipaddress.range a b !! i = Some x -> x = a + Z.of_nat i /\ a <= x < b.
Proof.
  unfold ipaddress.range. rewrite list_lookup_fmap.
  destruct (seq 0 (Z.to_nat (b - a)) !! i) as [k|] eqn:Hk; [|discriminate].
  apply lookup_seq in Hk as [-> Hlt]. cbn. intros [= <-]. lia.
Qed.

(** The hosts of a network come in ascending order. *)
Lemma hosts_ascending net i j x y :
  ipaddress.hosts net !! i = Some x -> ipaddress.hosts net !! j = Some y ->
  (i < j)%nat -> x < y.
Proof.
  unfold ipaddress.hosts.
  destruct (ipaddress.prefixlen net =? 31);
    [|destruct (ipaddress.prefixlen net =? 32)].
  - intros Hx Hy Hij. apply range_lookup in Hx, Hy. lia.
  - destruct i, j; cbn; try discriminate; lia.
  - intros Hx Hy Hij. apply range_lookup in Hx, Hy. lia.
Qed.

(** The scan returns the lowest host whose string is not in the set. *)
Lemma first_available_lowest net allocated s :
  first_available net allocated = Return s ->
  exists i ip,
    ipaddress.hosts net !! i = Some ip /\ s = ipaddress.to_str ip
    /\ mem s allocated = false
    /\ forall j ip', ipaddress.hosts net !! j = Some ip' ->
         mem (ipaddress.to_str ip') allocated = false -> ip <= ip'.
Proof.
  unfold first_available.
  destruct (find _ (ipaddress.hosts net)) as [ip|] eqn:Hfind; [|discriminate].
  intros [= <-].
  destruct (find_first _ _ _ Hfind) as (i & Hi & Hfree & Hbefore).
  exists i, ip. repeat split; auto.
  - now apply negb_true_iff in Hfree.
  - intros j ip' Hj Hfree'.
    destruct (Nat.lt_trichotomy j i) as [Hlt|[->|Hgt]].
    + specialize (Hbefore j ip' Hlt Hj). rewrite Hfree' in Hbefore. discriminate.
    + rewrite Hi in Hj. injection Hj as <-. lia.
    + pose proof (hosts_ascending net i j ip ip' Hi Hj Hgt). lia.
Qed.

(** The scan gives up only when the string of every host is in the set. *)
Lemma first_available_exhausted net allocated e :
  first_available net allocated = Raise e ->
  e = HTTPException 507 (Msg "No available IPs in subnet")
  /\ forall ip, In ip (ipaddress.hosts net) -> mem (ipaddress.to_str ip) allocated = true.
Proof.
  unfold first_available.
  destruct (find _ (ipaddress.hosts net)) as [ip|] eqn:Hfind; [discriminate|].
  intros [= <-]. split; [reflexivity|].
  intros ip Hip. pose proof (find_none _ _ Hfind ip Hip) as H.
  now apply negb_false_iff in H.
Qed.

(** With no preference, a subnet that parses and a scan that finds an
    address of which the table has no row at all, the allocation
    succeeds with that address. *)
Lemma allocate_ip_scan cfg ans now w subnet_id device_id notes expires_at
    subnet network s :
  find (fun sn => Subnet.id sn =? subnet_id) (subnets w) = Some subnet ->
  ipaddress.ip_network true (Subnet.network_cidr subnet) = Some network ->
  first_available network (allocated_set (ip_addresses w) subnet_id) = Return s ->
  existsb (fun r => String.eqb (IPAddress.ip_address r) s) (ip_addresses w) = false ->
  device_exists (devices w) device_id = true ->
  exists r,
    fst (allocate_ip cfg ans now w subnet_id device_id None notes expires_at) = Return r
    /\ IPAddress.ip_address r = s /\ IPAddress.status r = "allocated".
Proof.
  intros Hsubnet Hnet Hscan Hfresh Hdevice.
  unfold allocate_ip, allocate_ip_body, reserve, handler, find_available, insert.
  rewrite Hsubnet, Hnet. cbn [preference]. rewrite Hscan.
  cbn [IPAddress.ip_address IPAddress.device_id]. rewrite Hfresh, Hdevice. cbn [fst negb].
  eexists. repeat split.
Qed.

(** Three allocations in a row from the test subnet: the first three
    hosts, in order. *)
Example three_allocations_in_order :
  let '(r1, w1) := allocate_ip default_config all_ok 1000 fresh_world 1 None None None None in
  let '(r2, w2) := allocate_ip default_config all_ok 1001 w1 1 None None None None in
  let '(r3, w3) := allocate_ip default_config all_ok 1002 w2 1 None None None None in
  IPAddress.ip_address <$> ip_addresses w3 = ["10.100.1.1"; "10.100.1.2"; "10.100.1.3"].
Proof. vm_compute. reflexivity. Qed.

(** C1, on the code: an address that was allocated and released is the
    first one [get_available_ips] lists, and the next allocation without
    a preference picks it and fails on the unique constraint of
    [ip_addresses.ip_address], because the row of the release is still
    in the table.  What the caller sees is a 500 whose detail is the text
    of the [IntegrityError], with the values of the refused INSERT; the
    same status holds for the 507 of an exhausted subnet. *)
Theorem released_address_is_not_allocated_again :
  let '(first, w1) :=
    allocate_ip default_config all_ok 1000 fresh_world 1 None None None None in
  let '(released, w2) := release_ip default_config all_ok 2000 w1 "10.100.1.1" in
  let '(second, w3) := allocate_ip default_config all_ok 3000 w2 1 None None None None in
  first = Return {| IPAddress.id := 1; IPAddress.ip_address := "10.100.1.1";
                    IPAddress.subnet_id := 1; IPAddress.device_id := None;
                    IPAddress.status := "allocated"; IPAddress.allocated_at := Some 1000;
                    IPAddress.expires_at := None; IPAddress.notes := None |}
  /\ released = Return "IP address 10.100.1.1 released successfully"
  /\ IPAddress.status <$> ip_addresses w2 = ["available"]
  /\ (hd_error <$> get_available_ips w2 1) = Some (Some "10.100.1.1")
  /\ second
     = Raise (HTTPException 500
                (StrOf (IntegrityError UniqueViolation
                          {| ins_ip_address := "10.100.1.1"; ins_subnet_id := 1;
                             ins_device_id := None; ins_status := "allocated";
                             ins_allocated_at := Some 3000; ins_expires_at := None;
                             ins_notes := None;
                             ins_created_at := 3000; ins_updated_at := 3000 |})))
  /\ w3 = w2
  /\ fst (allocate_ip default_config all_ok 3000 exhausted_world 2 None None None None)
     = Raise (HTTPException 500
                (StrOf (HTTPException 507 (Msg "No available IPs in subnet")))).
Proof. vm_compute. repeat split. Qed.

End FirstFit.

(** ** The preferred address *)

Section PreferredAddress.

Import RouteInjectionService IPAMService.

(** The scan keeps off the network and the broadcast address of a
    network of more than two addresses. *)
Lemma hosts_exclude_network_and_broadcast net i ip :
  ipaddress.prefixlen net <> 31 -> ipaddress.prefixlen net <> 32 ->
  ipaddress.hosts net !! i = Some ip ->
  ipaddress.network_address net < ip < ipaddress.broadcast_address net.
Proof.
  intros H31 H32. unfold ipaddress.hosts.
  destruct (Z.eqb_spec (ipaddress.prefixlen net) 31); [contradiction|].
  destruct (Z.eqb_spec (ipaddress.prefixlen net) 32); [contradiction|].
  intros Hip. apply range_lookup in Hip. lia.
Qed.

Lemma scan_keeps_off_network_and_broadcast net allocated s :
  ipaddress.prefixlen net <> 31 -> ipaddress.prefixlen net <> 32 ->
  first_available net allocated = Return s ->
  exists ip, s = ipaddress.to_str ip
             /\ ipaddress.network_address net < ip < ipaddress.broadcast_address net.
Proof.
  intros H31 H32 Hscan.
  destruct (first_available_lowest net allocated s Hscan) as (i & ip & Hi & -> & _).
  exists ip. split; [reflexivity|].
  exact (hosts_exclude_network_and_broadcast net i ip H31 H32 Hi).
Qed.

(** C2, on the code: the check of a preferred address is [ip not in
    network], so the network address and the broadcast address of the
    test subnet are allocated on request, although the scan never yields
    them; and what the caller sees for an address outside the subnet is a
    500 that carries the 400. *)
Theorem network_and_broadcast_address_are_allocated :
  fst (allocate_ip default_config all_ok 1000 fresh_world 1 None (Some "10.100.1.0")
         None None)
  = Return {| IPAddress.id := 1; IPAddress.ip_address := "10.100.1.0";
              IPAddress.subnet_id := 1; IPAddress.device_id := None;
              IPAddress.status := "allocated"; IPAddress.allocated_at := Some 1000;
              IPAddress.expires_at := None; IPAddress.notes := None |}
  /\ fst (allocate_ip default_config all_ok 1000 fresh_world 1 None (Some "10.100.1.255")
            None None)
     = Return {| IPAddress.id := 1; IPAddress.ip_address := "10.100.1.255";
                 IPAddress.subnet_id := 1; IPAddress.device_id := None;
                 IPAddress.status := "allocated"; IPAddress.allocated_at := Some 1000;
                 IPAddress.expires_at := None; IPAddress.notes := None |}
  /\ ipaddress.ip_network true (Subnet.network_cidr test_subnet) = Some test_network
  /\ ipaddress.to_str (ipaddress.network_address test_network) = "10.100.1.0"
  /\ ipaddress.to_str (ipaddress.broadcast_address test_network) = "10.100.1.255"
  /\ mem "10.100.1.0" (ipaddress.to_str <$> ipaddress.hosts test_network) = false
  /\ mem "10.100.1.255" (ipaddress.to_str <$> ipaddress.hosts test_network) = false
  /\ fst (allocate_ip default_config all_ok 1000 fresh_world 1 None (Some "10.100.2.5")
            None None)
     = Raise (HTTPException 500
                (StrOf (HTTPException 400 (Msg "Preferred IP not in subnet")))).
Proof. vm_compute. repeat split. Qed.

Lemma publish_subnets cfg ans now subnet ip_record w :
  subnets (publish cfg ans now subnet ip_record w) = subnets w.
Proof.
  unfold publish, _cache_ip_allocation, _trigger_route_injection, _create_dns_record,
    inject_route_for_dns_record, add_dns_record, create_static_route, commit_configuration.
  cbn [subnets set_ipam_cache].
  destruct (_is_cyber_range_ip _); [|destruct (device_given _); [|reflexivity];
    destruct (find _ _); [|reflexivity]; destruct (ipam_dns_ok ans); reflexivity].
  destruct (is_cyber_range_ip cfg _), (dns_add_ok ans), (route_set_ok ans),
    (auto_commit cfg), (commit_ok ans); cbn [snd subnets set_dns_records
      set_candidate_routes set_commit_jobs set_route_cache];
    (destruct (device_given _); [|reflexivity]);
    (destruct (find _ _); [|reflexivity]); destruct (ipam_dns_ok ans); reflexivity.
Qed.

(** What a successful first half built for a preferred address. *)
Lemma reserve_preferred now w subnet_id device_id preferred notes expires_at
    subnet ip_record rows :
  Py.truthy preferred = true ->
  reserve now w subnet_id device_id (Some preferred) notes expires_at
  = Return (subnet, ip_record, rows) ->
  exists network,
    ipaddress.ip_network true (Subnet.network_cidr subnet) = Some network
    /\ check_preferred network preferred = Return tt
    /\ IPAddress.ip_address ip_record = preferred.
Proof.
  intros Htruthy. unfold reserve, find_available, insert, preference. rewrite Htruthy.
  destruct (find _ (subnets w)) as [s|]; [|discriminate].
  destruct (ipaddress.ip_network true _) as [network|] eqn:Hnet; [|discriminate].
  destruct (check_preferred network preferred) as [[]|] eqn:Hcheck; [|discriminate].
  destruct (find _ (ip_addresses w)); [discriminate|].
  destruct (existsb _ _); [discriminate|].
  destruct (negb _); [discriminate|].
  intros [= <- <- <-]. exists network. repeat split; assumption.
Qed.

Lemma find_last_matches {A} (p : A -> bool) l x :
  p x = true -> exists y, find p (l ++ [x]) = Some y.
Proof.
  intros Hx. destruct (find p (l ++ [x])) as [y|] eqn:Hfind; [eauto|].
  pose proof (find_none _ _ Hfind x) as H.
  rewrite H in Hx; [discriminate|]. apply in_or_app. right. now left.
Qed.

Lemma allocate_ip_Return cfg ans now w subnet_id device_id preferred_ip notes
    expires_at r :
  fst (allocate_ip cfg ans now w subnet_id device_id preferred_ip notes expires_at)
  = Return r ->
  exists subnet rows,
    reserve now w subnet_id device_id preferred_ip notes expires_at
    = Return (subnet, r, rows)
    /\ snd (allocate_ip cfg ans now w subnet_id device_id preferred_ip notes expires_at)
       = publish cfg ans now subnet r (set_ip_addresses rows w).
Proof.
  unfold allocate_ip, allocate_ip_body, handler.
  destruct (reserve _ _ _ _ _ _ _) as [[[subnet ip_record] rows]|e]; [|discriminate].
  cbn [fst snd]. intros [= ->]. eauto.
Qed.

(** C4, on the code: after an allocation of a preferred address, a second
    request for the same address in the same subnet raises the 409 inside
    the [try] of [allocate_ip], the [except Exception] of the function
    catches it, and what the caller gets is a 500 whose detail is the
    text of the 409.  The table is the one the first request left. *)
Theorem second_allocation_is_internal_error
    (cfg : Config) (ans ans' : Answers) (now now' : Z) (w : World) (subnet_id : Z)
    (device_id device_id' : option Z) (preferred : string)
    (notes notes' : option string) (expires_at expires_at' : option Z) (r : IPAddress.t)
    (Hgiven : Py.truthy preferred = true)
    (Hfirst : fst (allocate_ip cfg ans now w subnet_id device_id (Some preferred)
                     notes expires_at) = Return r) :
  let w' := snd (allocate_ip cfg ans now w subnet_id device_id (Some preferred)
                   notes expires_at) in
  allocate_ip cfg ans' now' w' subnet_id device_id' (Some preferred) notes' expires_at'
  = (Raise (HTTPException 500
              (StrOf (HTTPException 409 (Msg "Preferred IP already allocated")))), w').
Proof.
  cbv zeta.
  destruct (allocate_ip_Return _ _ _ _ _ _ _ _ _ _ Hfirst) as (subnet & rows & Hres & ->).
  destruct (reserve_Return _ _ _ _ _ _ _ _ _ _ Hres)
    as (Hstatus & _ & _ & _ & _ & _ & Hrows & Hsubnet).
  destruct (reserve_preferred _ _ _ _ _ _ _ _ _ _ Hgiven Hres)
    as (network & Hnet & Hcheck & Hip).
  unfold allocate_ip, allocate_ip_body, reserve, handler, find_available, preference.
  rewrite Hgiven, publish_subnets, publish_ip_addresses.
  cbn [subnets ip_addresses set_ip_addresses].
  rewrite Hsubnet, Hnet, Hcheck, Hrows.
  destruct (find_last_matches
              (fun r0 => String.eqb (IPAddress.ip_address r0) preferred
                         && in_allocated_reserved (IPAddress.status r0))
              (ip_addresses w) r) as [y Hy].
  { rewrite Hip, Hstatus, String.eqb_refl. reflexivity. }
  rewrite Hy. reflexivity.
Qed.

(** The second scenario of the specification: 10.100.1.2 is allocated on
    request, then requested again. *)
Lemma second_allocation_witness :
  let w' := snd (allocate_ip default_config all_ok 1000 fresh_world 1 None
                   (Some "10.100.1.2") None None) in
  allocate_ip default_config all_ok 1001 w' 1 None (Some "10.100.1.2") None None
  = (Raise (HTTPException 500
              (StrOf (HTTPException 409 (Msg "Preferred IP already allocated")))), w').
Proof.
  apply (second_allocation_is_internal_error default_config all_ok all_ok 1000 1001
           fresh_world 1 None None "10.100.1.2" None None None None
           {| IPAddress.id := 1; IPAddress.ip_address := "10.100.1.2";
              IPAddress.subnet_id := 1; IPAddress.device_id := None;
              IPAddress.status := "allocated"; IPAddress.allocated_at := Some 1000;
              IPAddress.expires_at := None; IPAddress.notes := None |});
    reflexivity.
Defined.

End PreferredAddress.

(** * Further properties of the IPAM service *)

Section AllocationTable.

Import RouteInjectionService IPAMService IPAMApi.

(** A successful first half chose an address of which the table had no
    row. *)
Lemma reserve_fresh now w subnet_id device_id preferred_ip notes expires_at
    subnet ip_record rows :
  reserve now w subnet_id device_id preferred_ip notes expires_at
  = Return (subnet, ip_record, rows) ->
  ~ In (IPAddress.ip_address ip_record) (addresses w).
Proof.
  unfold reserve, insert.
  destruct (find _ (subnets w)) as [s|]; [|discriminate].
  destruct (ipaddress.ip_network true _) as [network|]; [|discriminate].
  destruct (match preference preferred_ip with
            | Some preferred => check_preferred network preferred
            | None => Return ()
            end); [|discriminate].
  destruct (find_available _ _ _ _) as [ip|]; [|discriminate].
  cbn [IPAddress.ip_address].
  destruct (existsb _ _) eqn:Hexists; [discriminate|].
  destruct (negb _); [discriminate|].
  intros [= <- <- <-]. cbn [IPAddress.ip_address].
  unfold addresses. rewrite in_map_iff. intros (row & Hrow & Hin).
  assert (existsb (fun r => String.eqb (IPAddress.ip_address r) ip) (ip_addresses w) = true)
    as Habs; [|congruence].
  apply existsb_exists. exists row. split; [exact Hin|].
  rewrite Hrow. apply String.eqb_refl.
Qed.

(** An allocation that succeeds appends its record to the table; its
    address was in no row before. *)
Lemma allocate_ip_appends cfg ans now w subnet_id device_id preferred_ip notes
    expires_at r :
  fst (allocate_ip cfg ans now w subnet_id device_id preferred_ip notes expires_at)
  = Return r ->
  ip_addresses (snd (allocate_ip cfg ans now w subnet_id device_id preferred_ip notes
                       expires_at))
  = (ip_addresses w ++ [r])%list
  /\ ~ In (IPAddress.ip_address r) (addresses w).
Proof.
  intros Hfirst.
  destruct (allocate_ip_Return _ _ _ _ _ _ _ _ _ _ Hfirst) as (subnet & rows & Hres & ->).
  rewrite publish_ip_addresses. cbn [ip_addresses set_ip_addresses].
  destruct (reserve_Return _ _ _ _ _ _ _ _ _ _ Hres) as (_ & _ & _ & _ & _ & _ & -> & _).
  split; [reflexivity|]. exact (reserve_fresh _ _ _ _ _ _ _ _ _ _ Hres).
Qed.

(** A call that raises leaves the world as it was. *)
Lemma allocate_ip_raise_rolls_back cfg ans now w subnet_id device_id preferred_ip
    notes expires_at e :
  fst (allocate_ip cfg ans now w subnet_id device_id preferred_ip notes expires_at)
  = Raise e ->
  snd (allocate_ip cfg ans now w subnet_id device_id preferred_ip notes expires_at) = w.
Proof.
  unfold allocate_ip, allocate_ip_body, handler.
  destruct (reserve _ _ _ _ _ _ _) as [[[subnet ip_record] rows]|e']; [discriminate|].
  reflexivity.
Qed.

(** Release rewrites a row in place: the column of addresses is the same. *)
Lemma release_row_addresses ip : forall rows r rows',
  release_row ip rows = Some (r, rows') ->
  map IPAddress.ip_address rows' = map IPAddress.ip_address rows.
Proof.
  induction rows as [|x rows IH]; intros r rows'; cbn; [discriminate|].
  destruct (is_allocated_row ip x).
  - intros [= <- <-]. reflexivity.
  - destruct (release_row ip rows) as [[r0 rest]|] eqn:Hrest; [|discriminate].
    intros [= <- <-]. cbn. f_equal. exact (IH _ _ eq_refl).
Qed.

Lemma release_ip_addresses cfg ans now w ip :
  addresses (snd (release_ip cfg ans now w ip)) = addresses w.
Proof.
  unfold addresses.
  destruct (release_row ip (ip_addresses w)) as [[r rows]|] eqn:Hrow.
  - destruct (release_ip_released cfg ans now w ip r rows Hrow) as [_ ->].
    exact (release_row_addresses ip _ _ _ Hrow).
  - unfold release_ip, release_ip_body, handler. rewrite Hrow. reflexivity.
Qed.

(** What one call does to the column of addresses. *)
Lemma serve_addresses cfg call w :
  match fst (serve cfg call w) with
  | Allocated r =>
      addresses (snd (serve cfg call w)) = (addresses w ++ [IPAddress.ip_address r])%list
      /\ ~ In (IPAddress.ip_address r) (addresses w)
  | _ => addresses (snd (serve cfg call w)) = addresses w
  end.
Proof.
  destruct call as [[ans now] [subnet_id device_id preferred_ip notes expires_at|ip]];
    cbn [serve].
  - destruct (allocate_ip cfg ans now w subnet_id device_id preferred_ip notes expires_at)
      as [[r|e] w'] eqn:Hcall; cbn [fst snd].
    + pose proof (allocate_ip_appends cfg ans now w subnet_id device_id preferred_ip
                    notes expires_at r) as H.
      rewrite Hcall in H. cbn [fst snd] in H. destruct (H eq_refl) as [Hrows Hfresh].
      split; [|exact Hfresh]. unfold addresses. rewrite Hrows, map_app. reflexivity.
    + pose proof (allocate_ip_raise_rolls_back cfg ans now w subnet_id device_id
                    preferred_ip notes expires_at e) as H.
      rewrite Hcall in H. cbn [fst snd] in H. now rewrite (H eq_refl).
  - pose proof (release_ip_addresses cfg ans now w ip) as H.
    destruct (release_ip cfg ans now w ip) as [[m|e] w']; cbn [fst snd] in *; exact H.
Qed.

(** The column of addresses only grows along a run. *)
Lemma serve_all_addresses_kept cfg : forall calls w a,
  In a (addresses w) -> In a (addresses (snd (serve_all cfg calls w))).
Proof.
  induction calls as [|call rest IH]; intros w a Ha; [exact Ha|].
  cbn [serve_all].
  pose proof (serve_addresses cfg call w) as Hstep.
  destruct (serve cfg call w) as [response w1]. cbn [fst snd] in Hstep.
  specialize (IH w1 a).
  destruct (serve_all cfg rest w1) as [responses w2]. cbn [snd] in *.
  apply IH. destruct response as [r|m|e]; try (rewrite Hstep; exact Ha).
  destruct Hstep as [-> _]. apply in_or_app. now left.
Qed.

(** The addresses a run allocated are rows of the table it leaves. *)
Lemma allocated_addresses_in_table cfg : forall calls w a,
  In a (allocated_addresses (fst (serve_all cfg calls w))) ->
  In a (addresses (snd (serve_all cfg calls w))).
Proof.
  induction calls as [|call rest IH]; intros w a; [intros []|].
  cbn [serve_all].
  pose proof (serve_addresses cfg call w) as Hstep.
  destruct (serve cfg call w) as [response w1]. cbn [fst snd] in Hstep.
  pose proof (IH w1 a) as IHa.
  pose proof (serve_all_addresses_kept cfg rest w1 a) as Hkept.
  destruct (serve_all cfg rest w1) as [responses w2]. cbn [fst snd] in *.
  destruct response as [r|m|e]; cbn [allocated_addresses]; auto.
  intros [<-|Ha]; auto.
  destruct Hstep as [Hrows _]. apply Hkept. rewrite Hrows.
  apply in_or_app. right. now left.
Qed.

(** X2.  Whatever calls of the two endpoints are served in a row: no two
    allocations that succeed return the same address, and none returns an
    address that a row of the table held at the start, released or not. *)
Theorem allocations_never_repeat
    (cfg : Config) (calls : list (Answers * Z * Request)) (w : World) :
  let returned := allocated_addresses (fst (serve_all cfg calls w)) in
  NoDup returned /\ forall a, In a returned -> ~ In a (addresses w).
Proof.
  cbv zeta. revert w. induction calls as [|call rest IH]; intros w.
  { cbn. split; [constructor|intros a []]. }
  cbn [serve_all].
  pose proof (serve_addresses cfg call w) as Hstep.
  destruct (serve cfg call w) as [response w1]. cbn [fst snd] in Hstep.
  destruct (IH w1) as [Hnodup Hnew].
  destruct (serve_all cfg rest w1) as [responses w2]. cbn [fst snd] in *.
  destruct response as [r|m|e]; cbn [allocated_addresses].
  - destruct Hstep as [Hrows Hfresh]. split.
    + constructor; [|exact Hnodup]. intros Hin. apply list_elem_of_In in Hin.
      apply (Hnew _ Hin).
      rewrite Hrows. apply in_or_app. right. now left.
    + intros a [<-|Ha]; [exact Hfresh|].
      intros Hw. apply (Hnew _ Ha). rewrite Hrows. apply in_or_app. now left.
  - split; [exact Hnodup|]. intros a Ha. rewrite <- Hstep. now apply Hnew.
  - split; [exact Hnodup|]. intros a Ha. rewrite <- Hstep. now apply Hnew.
Qed.

(** X3.  An allocation without a preferred address (or with the empty
    string for one) that succeeds returns the lowest host of the network
    of the subnet whose string is the address of no allocated or reserved
    row of that subnet. *)
Theorem allocation_without_preference_is_first_fit
    (cfg : Config) (ans : Answers) (now : Z) (w : World) (subnet_id : Z)
    (device_id : option Z) (preferred_ip notes : option string) (expires_at : option Z)
    (r : IPAddress.t)
    (Hnone : preference preferred_ip = None)
    (Hreturn : fst (allocate_ip cfg ans now w subnet_id device_id preferred_ip notes
                      expires_at) = Return r) :
  exists subnet network ip,
    find (fun s => Subnet.id s =? subnet_id) (subnets w) = Some subnet
    /\ ipaddress.ip_network true (Subnet.network_cidr subnet) = Some network
    /\ In ip (ipaddress.hosts network)
    /\ IPAddress.ip_address r = ipaddress.to_str ip
    /\ mem (ipaddress.to_str ip) (allocated_set (ip_addresses w) subnet_id) = false
    /\ forall ip', In ip' (ipaddress.hosts network) ->
         mem (ipaddress.to_str ip') (allocated_set (ip_addresses w) subnet_id) = false ->
         ip <= ip'.
Proof.
  destruct (allocate_ip_Return _ _ _ _ _ _ _ _ _ _ Hreturn) as (subnet & rows & Hres & _).
  revert Hres. unfold reserve, find_available, insert. rewrite Hnone.
  destruct (find _ (subnets w)) as [s|] eqn:Hsubnet; [|discriminate].
  destruct (ipaddress.ip_network true _) as [network|] eqn:Hnet; [|discriminate].
  destruct (first_available network _) as [chosen|] eqn:Hscan; [|discriminate].
  destruct (existsb _ _); [discriminate|].
  destruct (negb _); [discriminate|].
  intros [= <- <- <-]. cbn [IPAddress.ip_address].
  destruct (first_available_lowest _ _ _ Hscan) as (i & ip & Hi & -> & Hfree & Hlow).
  exists s, network, ip. repeat split; auto.
  - apply list_elem_of_In, list_elem_of_lookup. eauto.
  - intros ip' Hip' Hfree'.
    apply list_elem_of_In, list_elem_of_lookup in Hip' as [j Hj]. eauto.
Qed.

Lemma allocation_without_preference_witness :
  exists subnet network ip,
    find (fun s => Subnet.id s =? 1) (subnets allocated_world) = Some subnet
    /\ ipaddress.ip_network true (Subnet.network_cidr subnet) = Some network
    /\ In ip (ipaddress.hosts network)
    /\ "10.100.1.2" = ipaddress.to_str ip
    /\ mem (ipaddress.to_str ip) (allocated_set (ip_addresses allocated_world) 1) = false
    /\ forall ip', In ip' (ipaddress.hosts network) ->
         mem (ipaddress.to_str ip') (allocated_set (ip_addresses allocated_world) 1) = false ->
         ip <= ip'.
Proof.
  apply (allocation_without_preference_is_first_fit default_config all_ok 2000
           allocated_world 1 None (Some "") None None
           {| IPAddress.id := 2; IPAddress.ip_address := "10.100.1.2";
              IPAddress.subnet_id := 1; IPAddress.device_id := None;
              IPAddress.status := "allocated"; IPAddress.allocated_at := Some 2000;
              IPAddress.expires_at := None; IPAddress.notes := None |});
    reflexivity.
Defined.

(** X4.  For a subnet that is found and whose CIDR parses, an allocation
    without a preferred address fails on "No available IPs in subnet"
    exactly when the string of every host of the network is the address
    of an allocated or reserved row of the subnet; the 507 reaches the
    caller inside a 500. *)
Theorem allocation_exhausted_iff
    (cfg : Config) (ans : Answers) (now : Z) (w : World) (subnet_id : Z)
    (device_id : option Z) (notes : option string) (expires_at : option Z)
    (subnet : Subnet.t) (network : ipaddress.IPv4Network)
    (Hsubnet : find (fun s => Subnet.id s =? subnet_id) (subnets w) = Some subnet)
    (Hnet : ipaddress.ip_network true (Subnet.network_cidr subnet) = Some network) :
  fst (allocate_ip cfg ans now w subnet_id device_id None notes expires_at)
  = Raise (HTTPException 500 (StrOf (HTTPException 507 (Msg "No available IPs in subnet"))))
  <-> forall ip, In ip (ipaddress.hosts network) ->
        mem (ipaddress.to_str ip) (allocated_set (ip_addresses w) subnet_id) = true.
Proof.
  unfold allocate_ip, allocate_ip_body, handler, reserve, find_available, insert.
  rewrite Hsubnet, Hnet. cbn [preference].
  destruct (first_available network _) as [chosen|e] eqn:Hscan.
  - split.
    + destruct (existsb _ _); [discriminate|]. destruct (negb _); discriminate.
    + intros Hall. exfalso.
      destruct (first_available_lowest _ _ _ Hscan) as (i & ip & Hi & -> & Hfree & _).
      rewrite Hall in Hfree; [discriminate|].
      apply list_elem_of_In, list_elem_of_lookup. eauto.
  - destruct (first_available_exhausted _ _ _ Hscan) as [-> Hall].
    cbn [fst]. split; auto.
Qed.

Lemma allocation_exhausted_witness :
  fst (allocate_ip default_config all_ok 3000 exhausted_world 2 None None None None)
  = Raise (HTTPException 500 (StrOf (HTTPException 507 (Msg "No available IPs in subnet")))).
Proof.
  apply (proj2 (allocation_exhausted_iff default_config all_ok 3000 exhausted_world 2
                  None None None small_subnet
                  {| ipaddress.network_address := 174326272; ipaddress.prefixlen := 30 |}
                  eq_refl eq_refl)).
  intros ip [<-|[<-|[]]]; reflexivity.
Defined.



Lemma find_none_iff {A} (p : A -> bool) (l : list A) :
  find p l = None <-> forall x, In x l -> p x = false.
Proof.
  split; [apply find_none|].
  intros Hall. destruct (find p l) as [x|] eqn:Hfind; [|reflexivity].
  apply find_some in Hfind as [Hin Hp]. rewrite (Hall x Hin) in Hp. discriminate.
Qed.

Lemma existsb_address_false rows s :
  existsb (fun r => String.eqb (IPAddress.ip_address r) s) rows = false
  <-> ~ In s (map IPAddress.ip_address rows).
Proof.
  split.
  - intros Hex Hin. apply in_map_iff in Hin as (r & <- & Hr).
    assert (existsb (fun r0 => String.eqb (IPAddress.ip_address r0) (IPAddress.ip_address r))
                    rows = true) as Habs; [|congruence].
    apply existsb_exists. exists r. split; [exact Hr|apply String.eqb_refl].
  - intros Hnot. destruct (existsb _ rows) eqn:Hex; [|reflexivity].
    apply existsb_exists in Hex as (r & Hr & Heq). apply String.eqb_eq in Heq.
    exfalso. apply Hnot. apply in_map_iff. eauto.
Qed.



Lemma hd_filter_map {A B} (q : B -> bool) (f : A -> B) : forall l,
  hd_error (List.filter q (map f l)) = f <$> find (fun x => q (f x)) l.
Proof.
  induction l as [|x l IH]; cbn; [reflexivity|].
  destruct (q (f x)); [reflexivity|exact IH].
Qed.



Lemma released_row_not_allocated ip r : is_allocated_row ip (released r) = false.
Proof. unfold is_allocated_row, released. cbn. apply andb_false_r. Qed.

Lemma release_row_clears ip : forall rows r rows',
  NoDup (map IPAddress.ip_address rows) ->
  release_row ip rows = Some (r, rows') ->
  forall x, In x rows' -> is_allocated_row ip x = false.
Proof.
  induction rows as [|y rows IH]; intros r rows' Hdistinct; cbn; [discriminate|].
  apply NoDup_cons in Hdistinct as [Hy Hdistinct].
  destruct (is_allocated_row ip y) eqn:Hrow.
  - intros [= <- <-] x [<-|Hx]; [apply released_row_not_allocated|].
    unfold is_allocated_row in *. apply andb_prop in Hrow as [Heq _].
    apply String.eqb_eq in Heq.
    destruct (String.eqb_spec (IPAddress.ip_address x) ip) as [Hsame|]; [|reflexivity].
    exfalso. apply Hy. rewrite Heq, <- Hsame. apply list_elem_of_In, in_map. exact Hx.
  - destruct (release_row ip rows) as [[r0 rest]|] eqn:Hrest; [|discriminate].
    intros [= <- <-] x [<-|Hx]; [exact Hrow|]. exact (IH _ _ Hdistinct eq_refl x Hx).
Qed.

(** X8.  [release_ip] is not idempotent: in a table of pairwise distinct
    addresses, once an address is released a second release of it fails
    on "IP address not found or not allocated" (a 404 that reaches the
    caller inside a 500) and changes nothing. *)
Theorem second_release_fails
    (cfg : Config) (ans ans' : Answers) (now now' : Z) (w : World) (ip : string)
    (message : string)
    (Hdistinct : NoDup (addresses w))
    (Hreleased : fst (release_ip cfg ans now w ip) = Return message) :
  let w' := snd (release_ip cfg ans now w ip) in
  release_ip cfg ans' now' w' ip
  = (Raise (HTTPException 500
              (StrOf (HTTPException 404 (Msg "IP address not found or not allocated")))),
     w').
Proof.
  cbv zeta.
  destruct (release_row ip (ip_addresses w)) as [[r rows]|] eqn:Hrow.
  2:{ revert Hreleased. unfold release_ip, release_ip_body, handler. rewrite Hrow.
      discriminate. }
  destruct (release_ip_released cfg ans now w ip r rows Hrow) as [_ Htable].
  pose proof (release_row_clears ip _ _ _ Hdistinct Hrow) as Hclear.
  unfold release_ip at 1, release_ip_body, handler.
  rewrite Htable, (release_row_none ip rows Hclear). reflexivity.
Qed.

Lemma second_release_witness :
  let w' := snd (release_ip default_config all_ok 2000 allocated_world "10.100.1.1") in
  release_ip default_config all_ok 2001 w' "10.100.1.1"
  = (Raise (HTTPException 500
              (StrOf (HTTPException 404 (Msg "IP address not found or not allocated")))),
     w').
Proof.
  apply (second_release_fails default_config all_ok all_ok 2000 2001 allocated_world
           "10.100.1.1" "IP address 10.100.1.1 released successfully").
  - unfold addresses. vm_compute. apply NoDup_singleton.
  - reflexivity.
Defined.
End AllocationTable.

(** * Addresses as text and as numbers *)

Section AddressText.
Import RouteInjectionService IPAMService.

Lemma octet_text v :
  0 <= v <= 255 ->
  ipaddress.parse_octet (Py.str v) = Some v
  /\ Py.contains "." (Py.str v) = false
  /\ Py.contains "/" (Py.str v) = false.
Proof.
  intros Hv.
  assert (Hall : forallb (fun u =>
                   match ipaddress.parse_octet (Py.str u) with
                   | Some u' => u' =? u
                   | None => false
                   end
                   && negb (Py.contains "." (Py.str u))
                   && negb (Py.contains "/" (Py.str u)))
                   (map Z.of_nat (seq 0 256)) = true) by (vm_compute; reflexivity).
  rewrite forallb_forall in Hall.
  assert (Hin : In v (map Z.of_nat (seq 0 256))).
  { rewrite <- (Z2Nat.id v) by lia. apply in_map, in_seq. lia. }
  specialize (Hall v Hin).
  apply andb_prop in Hall as [Hall Hslash]. apply andb_prop in Hall as [Hparse Hdot].
  apply negb_true_iff in Hslash, Hdot.
  destruct (ipaddress.parse_octet (Py.str v)) as [u|]; [|discriminate].
  apply Z.eqb_eq in Hparse as ->. auto.
Qed.

Lemma split_no_sep sep : forall o, Py.contains sep o = false -> Py.split sep o = [o].
Proof.
  induction o as [|c o IH]; cbn; [reflexivity|].
  intros H. apply orb_false_elim in H as [Hc Ho].
  rewrite Ascii.eqb_sym, Hc, (IH Ho). reflexivity.
Qed.

Lemma split_append sep rest : forall o,
  Py.contains sep o = false ->
  Py.split sep (o +:+ String sep rest) = o :: Py.split sep rest.
Proof.
  induction o as [|c o IH].
  - intros _. change ("" +:+ String sep rest) with (String sep rest). cbn.
    rewrite Ascii.eqb_refl. reflexivity.
  - intros H. cbn in H. apply orb_false_elim in H as [Hc Ho].
    change (String c o +:+ String sep rest) with (String c (o +:+ String sep rest)).
    cbn. rewrite Ascii.eqb_sym, Hc, (IH Ho). reflexivity.
Qed.

Lemma contains_append c b : forall a,
  Py.contains c (a +:+ b) = Py.contains c a || Py.contains c b.
Proof.
  induction a as [|d a IH]; [reflexivity|].
  change (String d a +:+ b) with (String d (a +:+ b)). cbn. rewrite IH.
  apply orb_assoc.
Qed.

Lemma octets_of n :
  0 <= n < 2 ^ 32 ->
  let a := Z.shiftr n 24 mod 256 in
  let b := Z.shiftr n 16 mod 256 in
  let c := Z.shiftr n 8 mod 256 in
  let d := n mod 256 in
  0 <= a <= 255 /\ 0 <= b <= 255 /\ 0 <= c <= 255 /\ 0 <= d <= 255
  /\ ((a * 256 + b) * 256 + c) * 256 + d = n.
Proof.
  intros Hn. cbv zeta. rewrite !Z.shiftr_div_pow2 by lia.
  change (2 ^ 32) with 4294967296 in Hn.
  change (2 ^ 24) with 16777216. change (2 ^ 16) with 65536. change (2 ^ 8) with 256.
  repeat split; try (apply Z.mod_pos_bound; lia);
    try (pose proof (Z.mod_pos_bound (n / 16777216) 256); lia);
    try (pose proof (Z.mod_pos_bound (n / 65536) 256); lia);
    try (pose proof (Z.mod_pos_bound (n / 256) 256); lia);
    try (pose proof (Z.mod_pos_bound n 256); lia).
  Z.to_euclidean_division_equations. lia.
Qed.

(** [ipaddress.ip_address(str(ip))] is [ip] again. *)
Lemma ip_address_to_str n :
  0 <= n < 2 ^ 32 -> ipaddress.ip_address (ipaddress.to_str n) = Some n.
Proof.
  intros Hn. destruct (octets_of n Hn) as (Ha & Hb & Hc & Hd & Hsum).
  cbv zeta in Ha, Hb, Hc, Hd, Hsum.
  unfold ipaddress.to_str. cbn [map Py.join].
  set (a := Z.shiftr n 24 mod 256) in *. set (b := Z.shiftr n 16 mod 256) in *.
  set (c := Z.shiftr n 8 mod 256) in *. set (d := n mod 256) in *.
  destruct (octet_text a Ha) as (Pa & Da & Sa). destruct (octet_text b Hb) as (Pb & Db & Sb).
  destruct (octet_text c Hc) as (Pc & Dc & Sc). destruct (octet_text d Hd) as (Pd & Dd & Sd).
  repeat match goal with
         | |- context ["." +:+ ?x] => change ("." +:+ x) with (String "." x)
         end.
  unfold ipaddress.ip_address, ipaddress.ip_int_from_string.
  assert (Hslash : Py.contains "/"
            (Py.str a +:+ String "." (Py.str b +:+ String "." (Py.str c +:+ String "." (Py.str d))))
            = false).
  { rewrite contains_append, Sa. cbn [Py.contains orb]. rewrite contains_append, Sb.
    cbn [Py.contains orb]. rewrite contains_append, Sc. cbn [Py.contains orb].
    rewrite Sd. reflexivity. }
  rewrite Hslash.
  rewrite !split_append by assumption. rewrite (split_no_sep "." _ Dd).
  assert (Htruthy : Py.truthy
            (Py.str a +:+ String "." (Py.str b +:+ String "." (Py.str c +:+ String "." (Py.str d))))
            = true).
  { destruct (Py.str a); reflexivity. }
  rewrite Htruthy. cbn [negb length Nat.eqb]. cbn [mapM]. rewrite Pa, Pb, Pc, Pd. cbn.
  f_equal. unfold ipaddress.from_bytes. cbn. lia.
Qed.


Lemma prefix_masks p :
  0 <= p <= 32 ->
  ipaddress.ip_int_from_prefix p = Z.shiftl (Z.ones p) (32 - p)
  /\ Z.lxor (ipaddress.ip_int_from_prefix p) ipaddress.ALL_ONES = Z.ones (32 - p).
Proof.
  intros Hp.
  assert (Hin : In p (map Z.of_nat (seq 0 33))).
  { rewrite <- (Z2Nat.id p) by lia. apply in_map, in_seq. lia. }
  cbn in Hin.
  repeat (destruct Hin as [<-|Hin]; [split; vm_compute; reflexivity|]). destruct Hin.
Qed.

Lemma int_acc_nonneg : forall s acc,
  Py.all_digits s = true -> 0 <= acc -> 0 <= Py.int_acc acc s.
Proof.
  induction s as [|c s IH]; intros acc; cbn; [auto|].
  intros H Hacc. apply andb_prop in H as [Hc Hs]. apply IH; [exact Hs|].
  unfold Py.is_digit in Hc. apply andb_prop in Hc as [Hlo _]. apply N.leb_le in Hlo. lia.
Qed.

Lemma make_netmask_range m p : ipaddress.make_netmask m = Some p -> 0 <= p <= 32.
Proof.
  assert (Hfind : forall x, ipaddress.prefix_from_ip_int x = Some p -> 0 <= p <= 32).
  { intros x H. unfold ipaddress.prefix_from_ip_int in H. apply find_some in H as [Hin _].
    apply in_map_iff in Hin as (k & <- & Hk). apply in_seq in Hk. lia. }
  unfold ipaddress.make_netmask, ipaddress.prefix_from_prefix_string,
    ipaddress.prefix_from_ip_string, Py.isdigit.
  destruct (Py.truthy m && Py.all_digits m) eqn:Hdigits; cbn [negb].
  - apply andb_prop in Hdigits as [_ Hdigits].
    pose proof (int_acc_nonneg m 0 Hdigits ltac:(lia)) as Hpos. fold (Py.int m) in Hpos.
    destruct (Py.int m <=? 32) eqn:Hle.
    + intros [= <-]. apply Z.leb_le in Hle. lia.
    + destruct (ipaddress.ip_int_from_string m) as [x|]; [|discriminate].
      destruct (ipaddress.prefix_from_ip_int x) eqn:Hx; [intros [= <-]; eauto|eauto].
  - destruct (ipaddress.ip_int_from_string m) as [x|]; [|discriminate].
    destruct (ipaddress.prefix_from_ip_int x) eqn:Hx; [intros [= <-]; eauto|eauto].
Qed.

Lemma ip_int_from_string_range s ip :
  ipaddress.ip_int_from_string s = Some ip -> 0 <= ip < 2 ^ 32.
Proof.
  unfold ipaddress.ip_int_from_string.
  destruct (Py.truthy s); [|discriminate]. cbn [negb].
  destruct (Py.split "." s) as [|o1 [|o2 [|o3 [|o4 [|o5 l]]]]]; try discriminate.
  cbn.
  destruct (ipaddress.parse_octet o1) as [v1|] eqn:H1; [|discriminate].
  destruct (ipaddress.parse_octet o2) as [v2|] eqn:H2; [|discriminate].
  destruct (ipaddress.parse_octet o3) as [v3|] eqn:H3; [|discriminate].
  destruct (ipaddress.parse_octet o4) as [v4|] eqn:H4; [|discriminate].
  cbn. intros [= <-].
  apply parse_octet_canonical in H1 as [_ H1], H2 as [_ H2], H3 as [_ H3], H4 as [_ H4].
  unfold ipaddress.from_bytes. cbn. change (2 ^ 32) with 4294967296. lia.
Qed.

Lemma land_mask_idem x p :
  0 <= p <= 32 ->
  Z.land (Z.land x (ipaddress.ip_int_from_prefix p)) (ipaddress.ip_int_from_prefix p)
  = Z.land x (ipaddress.ip_int_from_prefix p).
Proof. intros _. rewrite <- Z.land_assoc, Z.land_diag. reflexivity. Qed.

(** What [ip_network] returns is a network: a prefix length of at most
    32 and an address of 32 bits whose host bits are zero. *)
Lemma ip_network_wf strict cidr net :
  ipaddress.ip_network strict cidr = Some net ->
  0 <= ipaddress.prefixlen net <= 32
  /\ 0 <= ipaddress.network_address net < 2 ^ 32
  /\ Z.land (ipaddress.network_address net) (ipaddress.netmask net)
     = ipaddress.network_address net.
Proof.
  unfold ipaddress.ip_network, ipaddress.netmask.
  destruct (Py.split "/" cidr) as [|a [|m [|x l]]]; try discriminate.
  - destruct (ipaddress.ip_int_from_string a) as [ip|] eqn:Hip; [|discriminate].
    cbn. intros [= <-]. cbn. apply ip_int_from_string_range in Hip.
    split; [lia|]. split; [exact Hip|].
    change (ipaddress.ip_int_from_prefix 32) with (Z.ones 32).
    rewrite Z.land_ones by lia. apply Z.mod_small. exact Hip.
  - destruct (ipaddress.ip_int_from_string a) as [ip|] eqn:Hip; [|discriminate].
    destruct (ipaddress.make_netmask m) as [p|] eqn:Hp; [|discriminate].
    apply ip_int_from_string_range in Hip. apply make_netmask_range in Hp.
    destruct (Z.land ip (ipaddress.ip_int_from_prefix p) =? ip) eqn:Hhost.
    + intros [= <-]. cbn. apply Z.eqb_eq in Hhost. auto.
    + destruct strict; [discriminate|]. intros [= <-]. cbn.
      split; [exact Hp|]. split; [|apply land_mask_idem; exact Hp].
      destruct (prefix_masks p Hp) as [Hmask _].
      rewrite Hmask, land_shifted_ones by lia.
      assert (Hpow : 0 < 2 ^ (32 - p)) by (apply Z.pow_pos_nonneg; lia).
      assert (Hsplit : 2 ^ p * 2 ^ (32 - p) = 2 ^ 32).
      { rewrite <- Z.pow_add_r by lia. f_equal. lia. }
      pose proof (Z.mod_pos_bound (ip / 2 ^ (32 - p)) (2 ^ p)
                    ltac:(apply Z.pow_pos_nonneg; lia)).
      nia.
Qed.

Lemma network_shape net :
  0 <= ipaddress.prefixlen net <= 32 ->
  0 <= ipaddress.network_address net < 2 ^ 32 ->
  Z.land (ipaddress.network_address net) (ipaddress.netmask net)
  = ipaddress.network_address net ->
  let h := 32 - ipaddress.prefixlen net in
  exists m, 0 <= m < 2 ^ ipaddress.prefixlen net
            /\ ipaddress.network_address net = m * 2 ^ h
            /\ ipaddress.broadcast_address net = m * 2 ^ h + (2 ^ h - 1)
            /\ forall ip, m * 2 ^ h <= ip <= m * 2 ^ h + (2 ^ h - 1) ->
                 ipaddress.contains net ip = true.
Proof.
  intros Hp Hna Hland. cbv zeta.
  set (p := ipaddress.prefixlen net) in *. set (na := ipaddress.network_address net) in *.
  destruct (prefix_masks p Hp) as [Hmask Hhost].
  unfold ipaddress.netmask in Hland. fold p in Hland.
  rewrite Hmask, land_shifted_ones in Hland by lia.
  assert (Hpow : 0 < 2 ^ (32 - p)) by (apply Z.pow_pos_nonneg; lia).
  assert (Hpowp : 0 < 2 ^ p) by (apply Z.pow_pos_nonneg; lia).
  set (m := (na / 2 ^ (32 - p)) mod 2 ^ p) in *.
  assert (Hm : 0 <= m < 2 ^ p) by (apply Z.mod_pos_bound; lia).
  exists m. split; [exact Hm|]. split; [symmetry; exact Hland|].
  assert (Hbc : ipaddress.broadcast_address net = m * 2 ^ (32 - p) + (2 ^ (32 - p) - 1)).
  { unfold ipaddress.broadcast_address, ipaddress.hostmask, ipaddress.netmask.
    fold p na. rewrite Hhost, <- Hland.
    assert (Hzero : Z.land (m * 2 ^ (32 - p)) (Z.ones (32 - p)) = 0).
    { rewrite Z.land_ones by lia. apply Z.mod_mul. lia. }
    rewrite <- (Z.lxor_lor _ _ Hzero), <- (Z.add_nocarry_lxor _ _ Hzero), Z.ones_equiv.
    lia. }
  split; [exact Hbc|].
  intros ip Hip. unfold ipaddress.contains, ipaddress.netmask. fold p na.
  apply Z.eqb_eq. rewrite Hmask, land_shifted_ones by lia. rewrite <- Hland.
  assert (Hdiv : ip / 2 ^ (32 - p) = m).
  { symmetry. apply (Z.div_unique_pos ip (2 ^ (32 - p)) m (ip - m * 2 ^ (32 - p))); lia. }
  rewrite Hdiv, (Z.mod_small m) by exact Hm. reflexivity.
Qed.

Lemma hosts_between net ip :
  In ip (ipaddress.hosts net) ->
  ipaddress.network_address net <= ip <= ipaddress.broadcast_address net
  \/ (ipaddress.prefixlen net = 32 /\ ip = ipaddress.network_address net).
Proof.
  unfold ipaddress.hosts.
  destruct (ipaddress.prefixlen net =? 31).
  - intros Hin. apply list_elem_of_In, list_elem_of_lookup in Hin as [i Hi].
    apply range_lookup in Hi. left. lia.
  - destruct (ipaddress.prefixlen net =? 32) eqn:H32.
    + intros [<-|[]]. right. apply Z.eqb_eq in H32. auto.
    + intros Hin. apply list_elem_of_In, list_elem_of_lookup in Hin as [i Hi].
      apply range_lookup in Hi. left. lia.
Qed.

(** Every host of a network [ip_network] returned is an address of 32
    bits that the network contains. *)
Lemma hosts_in_network strict cidr net ip :
  ipaddress.ip_network strict cidr = Some net ->
  In ip (ipaddress.hosts net) ->
  0 <= ip < 2 ^ 32 /\ ipaddress.contains net ip = true.
Proof.
  intros Hnet Hin. destruct (ip_network_wf _ _ _ Hnet) as (Hp & Hna & Hland).
  destruct (network_shape net Hp Hna Hland) as (m & Hm & Hna' & Hbc & Hcontains).
  assert (Hpow : 0 < 2 ^ (32 - ipaddress.prefixlen net)) by (apply Z.pow_pos_nonneg; lia).
  assert (Hsplit : 2 ^ ipaddress.prefixlen net * 2 ^ (32 - ipaddress.prefixlen net)
                   = 2 ^ 32).
  { rewrite <- Z.pow_add_r by lia. f_equal. lia. }
  assert (Hrange : m * 2 ^ (32 - ipaddress.prefixlen net) <= ip
                   <= m * 2 ^ (32 - ipaddress.prefixlen net)
                      + (2 ^ (32 - ipaddress.prefixlen net) - 1)).
  { destruct (hosts_between net ip Hin) as [Hbetween|[_ ->]]; lia. }
  split; [|apply Hcontains; exact Hrange]. nia.
Qed.




End AddressText.

(** * Further properties of the route-injection services *)

Section RouteNames.
Import RouteInjectionService.

Lemma append_inj_l (p a b : string) : p +:+ a = p +:+ b -> a = b.
Proof. induction p as [|c p IH]; cbn; [auto|]. intros [= H]. auto. Qed.

Lemma cache_key_inj a b : cache_key a = cache_key b -> a = b.
Proof. apply append_inj_l. Qed.

(** What the route cache holds once Redis has dropped [keys]: none of
    them, and every other entry as it was. *)
Lemma expire_lookup_expired keys w k :
  In k keys -> route_cache (expire keys w) !! k = None.
Proof.
  unfold expire. cbn [route_cache set_route_cache].
  induction keys as [|a keys IH]; intros Hin; [destruct Hin|].
  cbn [foldr]. destruct (decide (a = k)) as [->|Hne]; [apply lookup_delete_eq|].
  rewrite lookup_delete_ne by exact Hne. apply IH.
  destruct Hin; [contradiction|assumption].
Qed.

Lemma expire_lookup_kept keys w k :
  ~ In k keys -> route_cache (expire keys w) !! k = route_cache w !! k.
Proof.
  unfold expire. cbn [route_cache set_route_cache].
  induction keys as [|a keys IH]; intros Hnot; [reflexivity|].
  cbn [foldr]. rewrite lookup_delete_ne by (intros ->; apply Hnot; now left).
  apply IH. intros Hin. apply Hnot. now right.
Qed.

Lemma expire_lookup_None keys w k :
  route_cache w !! k = None -> route_cache (expire keys w) !! k = None.
Proof.
  intros Hnone. unfold expire. cbn [route_cache set_route_cache].
  induction keys as [|a keys IH]; [exact Hnone|].
  cbn [foldr]. destruct (decide (a = k)) as [->|Hne]; [apply lookup_delete_eq|].
  now rewrite lookup_delete_ne by exact Hne.
Qed.

Lemma foldr_delete_delete {A} (m : gmap string A) (keys : list string) (k : string) :
  delete k (foldr delete m keys) = foldr delete (delete k m) keys.
Proof.
  induction keys as [|a keys IH]; [reflexivity|].
  cbn [foldr]. now rewrite delete_delete, IH.
Qed.

Lemma norm_not_nil d :
  Decimal.norm d <> Decimal.Pos Decimal.Nil /\ Decimal.norm d <> Decimal.Neg Decimal.Nil.
Proof.
  destruct d as [u|u]; cbn.
  - split; [|discriminate]. intros [= H]. exact (DecimalFacts.unorm_nonnil u H).
  - destruct (Decimal.nzhead u); split; discriminate.
Qed.

Lemma str_inj n n' : Py.str n = Py.str n' -> n = n'.
Proof.
  unfold Py.str. intros H. apply DecimalZ.to_int_inj.
  assert (Hread : forall z, NilZero.int_of_string (NilZero.string_of_int (Z.to_int z))
                            = Some (Z.to_int z)).
  { intros z. pose proof (norm_not_nil (Z.to_int z)) as [Hp Hn].
    rewrite <- DecimalZ.to_of, DecimalZ.of_to in Hp, Hn. apply NilZero.isi; assumption. }
  pose proof (Hread n) as Hn. rewrite H, Hread in Hn. congruence.
Qed.

(** With [include_timestamp] the name carries the second it was built in. *)
Lemma generate_route_name_timestamp cfg now now' fqdn ip zone :
  include_timestamp cfg = true ->
  generate_route_name cfg now fqdn ip zone = generate_route_name cfg now' fqdn ip zone ->
  now = now'.
Proof.
  unfold generate_route_name. intros ->.
  destruct (include_zone cfg && Py.truthy zone); cbn; intros H;
    repeat (apply append_inj_l in H); apply str_inj; exact H.
Qed.

(** The names of two records differ when the cleaned names of the
    records start with different characters. *)
Lemma generate_route_name_first_char cfg now now' ip zone c1 c2 f1 f2 :
  c1 <> c2 -> c1 <> "."%char -> c1 <> "-"%char -> c2 <> "."%char -> c2 <> "-"%char ->
  generate_route_name cfg now (String c1 f1) ip zone
  <> generate_route_name cfg now' (String c2 f2) ip zone.
Proof.
  intros Hc H1 H2 H3 H4. unfold generate_route_name.
  assert (Hclean : forall c f, c <> "."%char -> c <> "-"%char ->
            Py.replace "-" "_" (Py.replace "." "_" (String c f))
            = String c (Py.replace "-" "_" (Py.replace "." "_" f))).
  { intros c f Hd Hm. cbn [Py.replace].
    destruct (Ascii.eqb_spec c "."); [contradiction|].
    destruct (Ascii.eqb_spec c "-"); [contradiction|]. reflexivity. }
  rewrite !Hclean by assumption.
  destruct (include_zone cfg && Py.truthy zone), (include_timestamp cfg); cbn; intros H;
    repeat (apply append_inj_l in H);
    match type of H with
    | String _ ?a +:+ ?x = String _ ?b +:+ ?y =>
        change (String c1 (a +:+ x) = String c2 (b +:+ y)) in H
    end; congruence.
Qed.


Lemma inject_route_injected cfg ans now zone fqdn ip ttl w :
  route_injected (fst (inject_route_for_dns_record cfg ans now zone fqdn ip ttl w)) = true ->
  let name := generate_route_name cfg now fqdn ip zone in
  let '(r, w') := inject_route_for_dns_record cfg ans now zone fqdn ip ttl w in
  route_name r = Some name
  /\ route_cache w'
     = <[cache_key name := {| ri_route_name := name; ri_fqdn := fqdn; ri_ip_address := ip;
                              ri_zone := zone; ri_created_at := now;
                              ri_status := "active"; ri_router := Some "primary" |}]>
         (route_cache w)
  /\ candidate_routes w' = <[name := ip]> (candidate_routes w)
  /\ dns_records w'
     = {| dns_zone := zone; dns_fqdn := fqdn; dns_ip_address := ip; dns_ttl := ttl |}
         :: dns_records w.
Proof.
  unfold inject_route_for_dns_record, add_dns_record, create_static_route,
    commit_configuration.
  destruct (is_cyber_range_ip cfg ip); cbn; [|discriminate].
  destruct (dns_add_ok ans); cbn; [|discriminate].
  destruct (route_set_ok ans); cbn; [|discriminate].
  destruct (auto_commit cfg); [destruct (commit_ok ans)|]; cbn; auto.
Qed.

Lemma inject_route_other_names cfg ans now zone fqdn ip ttl w :
  let name := generate_route_name cfg now fqdn ip zone in
  let w' := snd (inject_route_for_dns_record cfg ans now zone fqdn ip ttl w) in
  (forall k, k <> cache_key name -> route_cache w' !! k = route_cache w !! k)
  /\ (forall n, n <> name -> candidate_routes w' !! n = candidate_routes w !! n).
Proof.
  unfold inject_route_for_dns_record, add_dns_record, create_static_route,
    commit_configuration.
  destruct (is_cyber_range_ip cfg ip); cbn; [|auto].
  destruct (dns_add_ok ans); cbn; [|auto].
  destruct (route_set_ok ans); cbn; [|auto].
  destruct (auto_commit cfg); [destruct (commit_ok ans)|]; cbn;
    (split; intros k Hk; rewrite lookup_insert_ne; congruence).
Qed.

Lemma remove_route_cached cfg ans now zone fqdn ip w :
  is_Some (route_cache w !! cache_key (generate_route_name cfg now fqdn ip zone)) ->
  route_delete_ok ans = true ->
  let name := generate_route_name cfg now fqdn ip zone in
  let '(r, w') := remove_route_for_dns_record cfg ans now zone fqdn ip w in
  r = {| rm_success := true; rm_message := "Route removed for " +:+ fqdn;
         route_removed := true; rm_route_name := Some name |}
  /\ route_cache w' = delete (cache_key name) (route_cache w)
  /\ candidate_routes w' = delete name (candidate_routes w)
  /\ dns_records w' = dns_records w.
Proof.
  intros [info Hinfo] Hdelete.
  unfold remove_route_for_dns_record, delete_static_route, commit_configuration.
  rewrite Hinfo, Hdelete.
  destruct (auto_commit cfg); [destruct (commit_ok ans)|]; cbn; auto.
Qed.

Lemma remove_route_other_names cfg ans now zone fqdn ip w :
  let name := generate_route_name cfg now fqdn ip zone in
  let w' := snd (remove_route_for_dns_record cfg ans now zone fqdn ip w) in
  (forall k, k <> cache_key name -> route_cache w' !! k = route_cache w !! k)
  /\ (forall n, n <> name -> candidate_routes w' !! n = candidate_routes w !! n).
Proof.
  unfold remove_route_for_dns_record, delete_static_route, commit_configuration.
  destruct (route_cache w !! _); cbn; [|auto].
  destruct (route_delete_ok ans); cbn; [|auto].
  destruct (auto_commit cfg); [destruct (commit_ok ans)|]; cbn;
    (split; intros k Hk; rewrite lookup_delete_ne; congruence).
Qed.

(** X9.  With [include_timestamp] enabled a route cannot be removed in a
    later second than the one it was injected in: the removal builds the
    name with its own [time.time()], looks for a cache entry under that
    name, and, none being there, answers "Route not found in cache" and
    leaves the route and its cache entry in place. *)
Theorem timestamped_route_is_not_found_later
    (cfg : Config) (ans ans' : Answers) (now now' : Z) (zone fqdn ip : string) (ttl : Z)
    (w : World)
    (Hstamp : include_timestamp cfg = true)
    (Hlater : now <> now')
    (Habsent : route_cache w !! cache_key (generate_route_name cfg now' fqdn ip zone)
               = None) :
  let injected := inject_route_for_dns_record cfg ans now zone fqdn ip ttl w in
  remove_route_for_dns_record cfg ans' now' zone fqdn ip (snd injected)
  = ({| rm_success := true; rm_message := "Route not found in cache";
        route_removed := false; rm_route_name := None |}, snd injected).
Proof.
  cbv zeta. apply remove_route_not_cached.
  rewrite (proj1 (inject_route_other_names cfg ans now zone fqdn ip ttl w)); [exact Habsent|].
  intros Hkey. apply cache_key_inj, generate_route_name_timestamp in Hkey; congruence.
Qed.

Lemma timestamped_route_witness :
  let injected := inject_route_for_dns_record stamped_config all_ok 1000
                    "bakerstreetlabs.local" "malware.bakerstreetlabs.local"
                    "192.168.1.100" 60 fresh_world in
  route_injected (fst injected) = true
  /\ remove_route_for_dns_record stamped_config all_ok 1001 "bakerstreetlabs.local"
       "malware.bakerstreetlabs.local" "192.168.1.100" (snd injected)
     = ({| rm_success := true; rm_message := "Route not found in cache";
           route_removed := false; rm_route_name := None |}, snd injected).
Proof.
  split; [reflexivity|].
  apply (timestamped_route_is_not_found_later stamped_config all_ok all_ok 1000 1001);
    [reflexivity|lia|reflexivity].
Defined.

(** X10.  Injecting a route and then removing it, for the same record
    and with a router that takes the delete.  While Redis still holds the
    cache entry of the route, the removal answers "Route removed for
    <fqdn>" with the name the injection reported, the cache entry and the
    candidate route of that name are gone, and the DNS record the
    injection added is still held by the DNS API, since the removal never
    calls it.  Once the entry has expired, the removal answers "Route not
    found in cache" and changes nothing: the route stays in the candidate
    configuration. *)
Theorem inject_then_remove
    (cfg : Config) (ans ans' : Answers) (now now' : Z) (zone fqdn ip : string) (ttl : Z)
    (w : World) (expired : list string)
    (Hname : generate_route_name cfg now' fqdn ip zone
             = generate_route_name cfg now fqdn ip zone)
    (Hinjected : route_injected (fst (inject_route_for_dns_record cfg ans now zone fqdn ip
                                        ttl w)) = true)
    (Hdelete : route_delete_ok ans' = true) :
  let name := generate_route_name cfg now fqdn ip zone in
  let '(injected, w1) := inject_route_for_dns_record cfg ans now zone fqdn ip ttl w in
  let '(removed, w2) :=
    remove_route_for_dns_record cfg ans' now' zone fqdn ip (expire expired w1) in
  (~ In (cache_key name) expired ->
   removed = {| rm_success := true; rm_message := "Route removed for " +:+ fqdn;
                route_removed := true; rm_route_name := route_name injected |}
   /\ route_cache w2 = delete (cache_key name) (route_cache (expire expired w))
   /\ candidate_routes w2 = delete name (candidate_routes w)
   /\ dns_records w2
      = {| dns_zone := zone; dns_fqdn := fqdn; dns_ip_address := ip; dns_ttl := ttl |}
          :: dns_records w)
  /\ (In (cache_key name) expired ->
      removed = {| rm_success := true; rm_message := "Route not found in cache";
                   route_removed := false; rm_route_name := None |}
      /\ w2 = expire expired w1
      /\ candidate_routes w2 !! name = Some ip).
Proof.
  cbv zeta.
  pose proof (inject_route_injected cfg ans now zone fqdn ip ttl w Hinjected) as Hin.
  cbv zeta in Hin.
  destruct (inject_route_for_dns_record cfg ans now zone fqdn ip ttl w) as [injected w1].
  destruct Hin as (Hreported & Hcache & Hroutes & Hdns).
  destruct (remove_route_for_dns_record cfg ans' now' zone fqdn ip (expire expired w1))
    as [removed w2] eqn:Hremoved.
  split.
  - intros Hkept.
    assert (Hcached : is_Some (route_cache (expire expired w1)
                                 !! cache_key (generate_route_name cfg now' fqdn ip zone))).
    { rewrite Hname, (expire_lookup_kept _ _ _ Hkept), Hcache, lookup_insert_eq. eauto. }
    pose proof (remove_route_cached cfg ans' now' zone fqdn ip (expire expired w1)
                  Hcached Hdelete) as Hout.
    cbv zeta in Hout. rewrite Hremoved in Hout.
    destruct Hout as (-> & Hcache2 & Hroutes2 & Hdns2).
    rewrite Hcache2, Hroutes2, Hdns2, Hname, Hreported.
    unfold expire. cbn [route_cache candidate_routes dns_records set_route_cache].
    rewrite Hcache, Hroutes, Hdns, !foldr_delete_delete, !delete_insert_eq.
    auto.
  - intros Hgone.
    rewrite remove_route_not_cached in Hremoved
      by (rewrite Hname; apply expire_lookup_expired; exact Hgone).
    injection Hremoved as <- <-.
    split; [reflexivity|]. split; [reflexivity|].
    unfold expire. cbn [candidate_routes set_route_cache].
    rewrite Hroutes. apply lookup_insert_eq.
Qed.

(** The record of the enhanced service's test, removed a thousand seconds
    after the injection, the entry still in the cache. *)
Lemma inject_then_remove_witness :
  let '(injected, w1) := inject_route_for_dns_record default_config all_ok 1000
                           "bakerstreetlabs.local" "malware.bakerstreetlabs.local"
                           "192.168.1.100" 60 fresh_world in
  let '(removed, w2) := remove_route_for_dns_record default_config all_ok 2000
                          "bakerstreetlabs.local" "malware.bakerstreetlabs.local"
                          "192.168.1.100" (expire [] w1) in
  route_removed removed = true
  /\ route_cache w2 = ∅
  /\ dns_records w2
     = [{| dns_zone := "bakerstreetlabs.local";
           dns_fqdn := "malware.bakerstreetlabs.local";
           dns_ip_address := "192.168.1.100"; dns_ttl := 60 |}].
Proof.
  pose proof (inject_then_remove default_config all_ok all_ok 1000 2000
                "bakerstreetlabs.local" "malware.bakerstreetlabs.local" "192.168.1.100"
                60 fresh_world [] eq_refl eq_refl eq_refl) as H.
  cbv zeta in H.
  destruct (inject_route_for_dns_record _ _ _ _ _ _ _ _) as [injected w1].
  destruct (remove_route_for_dns_record _ _ _ _ _ _ _) as [removed w2].
  destruct H as [H _]. destruct (H (fun Hin => Hin)) as (-> & -> & _ & ->).
  repeat split.
Defined.


Lemma length_append (a s : string) :
  String.length (a +:+ s) = (String.length a + String.length s)%nat.
Proof.
  induction a as [|c a IH]; [reflexivity|].
  change (String c a +:+ s) with (String c (a +:+ s)). cbn. now rewrite IH.
Qed.

Lemma append_inj_r (s a b : string) : a +:+ s = b +:+ s -> a = b.
Proof.
  revert b. induction a as [|c a IH]; intros [|d b] H.
  - reflexivity.
  - apply (f_equal String.length) in H. rewrite !length_append in H. cbn in H. lia.
  - apply (f_equal String.length) in H. rewrite !length_append in H. cbn in H. lia.
  - change (String c (a +:+ s) = String d (b +:+ s)) in H.
    injection H as -> H. f_equal. exact (IH _ H).
Qed.

(** X12.  Two records of one zone and address, named in the same
    second, get the same route name exactly when their names are equal
    once every "." and "-" is read as "_": the records of "web-1.lab",
    "web.1.lab" and "web_1_lab" share one route and one cache entry. *)
Theorem route_names_collide_iff
    (cfg : Config) (now : Z) (fqdn fqdn' ip zone : string) :
  generate_route_name cfg now fqdn ip zone = generate_route_name cfg now fqdn' ip zone
  <-> Py.replace "-" "_" (Py.replace "." "_" fqdn)
      = Py.replace "-" "_" (Py.replace "." "_" fqdn').
Proof.
  unfold generate_route_name. split.
  - destruct (include_zone cfg && Py.truthy zone), (include_timestamp cfg); cbn; intros H;
      repeat (apply append_inj_l in H); exact (append_inj_r _ _ _ H).
  - intros ->. reflexivity.
Qed.

End RouteNames.

Section WebhookRoutes.
Import RouteInjectionService DNSWebhookHandler.

Lemma handle_created_injected ans now zone fqdn ip w :
  route_injected (fst (handle_dns_record_created ans now zone fqdn ip w)) = true ->
  let name := route_name_of fqdn ip in
  let '(r, w') := handle_dns_record_created ans now zone fqdn ip w in
  route_name r = Some name
  /\ w' = set_route_cache
            (<[cache_key name := {| ri_route_name := name; ri_fqdn := fqdn;
                                    ri_ip_address := ip; ri_zone := zone;
                                    ri_created_at := now; ri_status := "active";
                                    ri_router := None |}]> (route_cache w))
            (set_commit_jobs
               (commit_jobs w ++ [<[name := ip]> (candidate_routes w)])%list
               (set_candidate_routes (<[name := ip]> (candidate_routes w)) w)).
Proof.
  unfold handle_dns_record_created, create_static_route, commit_configuration.
  destruct (_is_cyber_range_ip ip); cbn; [|discriminate].
  destruct (route_set_ok ans); cbn; [|discriminate].
  destruct (commit_ok ans); cbn; [auto|discriminate].
Qed.

Lemma handle_deleted_cached ans zone fqdn ip w :
  is_Some (route_cache w !! cache_key (route_name_of fqdn ip)) ->
  route_delete_ok ans = true -> commit_ok ans = true ->
  let name := route_name_of fqdn ip in
  handle_dns_record_deleted ans zone fqdn ip w
  = ({| rm_success := true;
        rm_message := "DNS record deleted and route removed for " +:+ fqdn;
        route_removed := true; rm_route_name := Some name |},
     set_route_cache (delete (cache_key name) (route_cache w))
       (set_commit_jobs (commit_jobs w ++ [delete name (candidate_routes w)])%list
          (set_candidate_routes (delete name (candidate_routes w)) w))).
Proof.
  intros [info Hinfo] Hdelete Hcommit.
  unfold handle_dns_record_deleted, delete_static_route, commit_configuration.
  rewrite Hinfo, Hdelete. cbn. rewrite Hcommit. reflexivity.
Qed.

(** X11.  In the webhook handler, a record created and then deleted,
    each with a router that takes the change and accepts the commit
    request, when neither the candidate configuration nor the route
    cache held the route's name before.  While Redis still holds the
    cache entry of the route, the deletion leaves the candidate
    configuration as it was before the creation and the route cache as
    it was apart from what expired, and the router has been asked for two
    commit jobs, one with the route in the candidate configuration and
    one with the candidate configuration as before.  Once the entry has
    expired, the deletion answers "Route not found in cache" and changes
    nothing: the route stays in the candidate configuration. *)
Theorem handler_create_then_delete
    (ans ans' : Answers) (now : Z) (zone fqdn ip : string) (w : World)
    (expired : list string)
    (Hinjected : route_injected (fst (handle_dns_record_created ans now zone fqdn ip w))
                 = true)
    (Hdelete : route_delete_ok ans' = true)
    (Hcommit : commit_ok ans' = true)
    (Hroute : candidate_routes w !! route_name_of fqdn ip = None)
    (Hcache : route_cache w !! cache_key (route_name_of fqdn ip) = None) :
  let name := route_name_of fqdn ip in
  let '(created, w1) := handle_dns_record_created ans now zone fqdn ip w in
  let '(deleted, w2) := handle_dns_record_deleted ans' zone fqdn ip (expire expired w1) in
  (~ In (cache_key name) expired ->
   deleted = {| rm_success := true;
                rm_message := "DNS record deleted and route removed for " +:+ fqdn;
                route_removed := true; rm_route_name := route_name created |}
   /\ candidate_routes w2 = candidate_routes w
   /\ route_cache w2 = route_cache (expire expired w)
   /\ commit_jobs w2
      = (commit_jobs w ++ [<[name := ip]> (candidate_routes w); candidate_routes w])%list)
  /\ (In (cache_key name) expired ->
      deleted = {| rm_success := true; rm_message := "Route not found in cache";
                   route_removed := false; rm_route_name := None |}
      /\ w2 = expire expired w1
      /\ candidate_routes w2 !! name = Some ip).
Proof.
  cbv zeta.
  pose proof (handle_created_injected ans now zone fqdn ip w Hinjected) as Hin.
  cbv zeta in Hin.
  destruct (handle_dns_record_created ans now zone fqdn ip w) as [created w1].
  destruct Hin as [Hname ->].
  match goal with |- context [expire expired ?x] => set (w1 := x) end.
  destruct (handle_dns_record_deleted ans' zone fqdn ip (expire expired w1))
    as [deleted w2] eqn:Hdeleted.
  split.
  - intros Hkept.
    rewrite handle_deleted_cached in Hdeleted; [| |exact Hdelete|exact Hcommit].
    2:{ rewrite (expire_lookup_kept _ _ _ Hkept). subst w1.
        cbn [route_cache set_route_cache]. rewrite lookup_insert_eq. eauto. }
    injection Hdeleted as <- <-. rewrite Hname.
    split; [reflexivity|].
    unfold expire. subst w1.
    cbn [candidate_routes route_cache commit_jobs set_route_cache set_commit_jobs
         set_candidate_routes].
    split; [apply delete_insert_id; exact Hroute|].
    split.
    + rewrite foldr_delete_delete, (delete_insert_id _ _ _ Hcache). reflexivity.
    + rewrite <- app_assoc, (delete_insert_id _ _ _ Hroute). reflexivity.
  - intros Hgone.
    rewrite handle_deleted_not_cached in Hdeleted
      by (apply expire_lookup_expired; exact Hgone).
    injection Hdeleted as <- <-.
    split; [reflexivity|]. split; [reflexivity|].
    unfold expire. subst w1. cbn [candidate_routes set_route_cache set_commit_jobs
                                  set_candidate_routes].
    apply lookup_insert_eq.
Qed.

(** The record of the enhanced service's test, created and deleted with
    the entry still in the cache. *)
Lemma handler_create_then_delete_witness :
  let '(created, w1) := handle_dns_record_created all_ok 1000 "bakerstreetlabs.local"
                          "malware.bakerstreetlabs.local" "192.168.1.100" fresh_world in
  let '(deleted, w2) := handle_dns_record_deleted all_ok "bakerstreetlabs.local"
                          "malware.bakerstreetlabs.local" "192.168.1.100"
                          (expire [] w1) in
  route_removed deleted = true
  /\ candidate_routes w2 = candidate_routes fresh_world
  /\ length (commit_jobs w2) = 2%nat.
Proof.
  pose proof (handler_create_then_delete all_ok all_ok 1000 "bakerstreetlabs.local"
                "malware.bakerstreetlabs.local" "192.168.1.100" fresh_world []
                eq_refl eq_refl eq_refl eq_refl eq_refl) as H.
  cbv zeta in H.
  destruct (handle_dns_record_created _ _ _ _ _ _) as [created w1].
  destruct (handle_dns_record_deleted _ _ _ _ _) as [deleted w2].
  destruct H as [H _]. destruct (H (fun Hin => Hin)) as (-> & -> & _ & ->).
  repeat split.
Defined.

(** X15.  A route the handler created and whose commit request the
    router refused stays in the candidate configuration with no cache
    entry and no commit job: a deletion of the same record answers "Route
    not found in cache" and removes nothing, and the next injection of
    another route whose commit request the router accepts asks for the
    commit of a candidate configuration that holds the failed route as
    well. *)
Theorem uncommitted_route_is_published_by_next_commit
    (ans ans' ans2 : Answers) (now now2 : Z) (zone fqdn ip zone2 fqdn2 ip2 : string)
    (w : World) (expired : list string)
    (Hmanaged : _is_cyber_range_ip ip = true)
    (Hset : route_set_ok ans = true)
    (Hcommit : commit_ok ans = false)
    (Hcache : route_cache w !! cache_key (route_name_of fqdn ip) = None)
    (Hother : route_name_of fqdn2 ip2 <> route_name_of fqdn ip) :
  let '(created, w1) := handle_dns_record_created ans now zone fqdn ip w in
  let later := expire expired w1 in
  success created = false
  /\ candidate_routes w1 !! route_name_of fqdn ip = Some ip
  /\ commit_jobs w1 = commit_jobs w
  /\ handle_dns_record_deleted ans' zone fqdn ip later
     = ({| rm_success := true; rm_message := "Route not found in cache";
           route_removed := false; rm_route_name := None |}, later)
  /\ (route_injected (fst (handle_dns_record_created ans2 now2 zone2 fqdn2 ip2 later))
      = true ->
      exists job,
        last (commit_jobs (snd (handle_dns_record_created ans2 now2 zone2 fqdn2 ip2 later)))
        = Some job
        /\ job !! route_name_of fqdn ip = Some ip).
Proof.
  assert (Hw1 : handle_dns_record_created ans now zone fqdn ip w
                = ({| success := false; message := "Route created but commit failed";
                      route_injected := false; route_name := None |},
                   set_candidate_routes
                     (<[route_name_of fqdn ip := ip]> (candidate_routes w)) w)).
  { unfold handle_dns_record_created, create_static_route, commit_configuration.
    rewrite Hmanaged, Hset. cbn. rewrite Hcommit. reflexivity. }
  rewrite Hw1. cbv zeta. split; [reflexivity|].
  split; [apply lookup_insert_eq|]. split; [reflexivity|]. split.
  - apply handle_deleted_not_cached, expire_lookup_None. exact Hcache.
  - intros Hinjected.
    pose proof (handle_created_injected _ _ _ _ _ _ Hinjected) as Hin. cbv zeta in Hin.
    destruct (handle_dns_record_created ans2 now2 zone2 fqdn2 ip2 _) as [r w2].
    destruct Hin as [_ ->]. cbn [snd commit_jobs set_route_cache set_commit_jobs].
    eexists. split; [apply last_snoc|].
    unfold expire. cbn [candidate_routes set_route_cache set_candidate_routes].
    rewrite lookup_insert_ne by exact Hother. apply lookup_insert_eq.
Qed.

(** The record of the enhanced service's test with a router that refuses
    the commit request, then another record with a router that accepts
    it. *)
Lemma uncommitted_route_witness :
  let '(created, w1) := handle_dns_record_created commit_fails 1000 "bakerstreetlabs.local"
                          "malware.bakerstreetlabs.local" "192.168.1.100" fresh_world in
  let w2 := snd (handle_dns_record_created all_ok 1001 "bakerstreetlabs.local"
                   "c2.bakerstreetlabs.local" "192.168.1.101" (expire [] w1)) in
  success created = false
  /\ exists job,
       last (commit_jobs w2) = Some job
       /\ job !! "dns_malware_bakerstreetlabs_local_192_168_1_100" = Some "192.168.1.100".
Proof.
  pose proof (uncommitted_route_is_published_by_next_commit commit_fails all_ok all_ok
                1000 1001 "bakerstreetlabs.local" "malware.bakerstreetlabs.local"
                "192.168.1.100" "bakerstreetlabs.local" "c2.bakerstreetlabs.local"
                "192.168.1.101" fresh_world [] eq_refl eq_refl eq_refl eq_refl
                ltac:(discriminate)) as H.
  destruct (handle_dns_record_created commit_fails _ _ _ _ _) as [created w1].
  cbv zeta in H.
  destruct H as (Hfailed & _ & _ & _ & Hpublished). split; [exact Hfailed|].
  apply Hpublished. reflexivity.
Defined.

End WebhookRoutes.

Section IPAMRoutes.
Import RouteInjectionService IPAMService.

Lemma inject_route_injected_iff cfg ans now zone fqdn ip ttl w :
  route_injected (fst (inject_route_for_dns_record cfg ans now zone fqdn ip ttl w)) = true
  <-> is_cyber_range_ip cfg ip = true /\ dns_add_ok ans = true /\ route_set_ok ans = true.
Proof.
  unfold inject_route_for_dns_record, add_dns_record, create_static_route.
  destruct (is_cyber_range_ip cfg ip), (dns_add_ok ans), (route_set_ok ans); cbn;
    intuition discriminate.
Qed.

Lemma inject_route_router_kept cfg ans now zone fqdn ip ttl w :
  route_injected (fst (inject_route_for_dns_record cfg ans now zone fqdn ip ttl w)) = false ->
  let w' := snd (inject_route_for_dns_record cfg ans now zone fqdn ip ttl w) in
  candidate_routes w' = candidate_routes w /\ running_routes w' = running_routes w
  /\ route_cache w' = route_cache w /\ commit_jobs w' = commit_jobs w.
Proof.
  unfold inject_route_for_dns_record, add_dns_record, create_static_route.
  destruct (is_cyber_range_ip cfg ip), (dns_add_ok ans), (route_set_ok ans); cbn;
    auto; discriminate.
Qed.

Lemma create_dns_record_router ans hostname ip zone w :
  candidate_routes (_create_dns_record ans hostname ip zone w) = candidate_routes w
  /\ running_routes (_create_dns_record ans hostname ip zone w) = running_routes w
  /\ route_cache (_create_dns_record ans hostname ip zone w) = route_cache w
  /\ commit_jobs (_create_dns_record ans hostname ip zone w) = commit_jobs w.
Proof. unfold _create_dns_record. destruct (ipam_dns_ok ans); auto. Qed.

Lemma publish_router cfg ans now subnet ip_record w :
  exists w0,
    candidate_routes w0 = candidate_routes w /\ running_routes w0 = running_routes w
    /\ route_cache w0 = route_cache w /\ commit_jobs w0 = commit_jobs w
    /\ let ip := IPAddress.ip_address ip_record in
       let w' := publish cfg ans now subnet ip_record w in
       let injected := inject_route_for_dns_record cfg ans now "bakerstreetlabs.local"
                         (injection_fqdn ip (IPAddress.device_id ip_record)) ip 60 w0 in
       if _is_cyber_range_ip ip
       then candidate_routes w' = candidate_routes (snd injected)
            /\ running_routes w' = running_routes (snd injected)
            /\ route_cache w' = route_cache (snd injected)
            /\ commit_jobs w' = commit_jobs (snd injected)
       else candidate_routes w' = candidate_routes w0
            /\ running_routes w' = running_routes w0
            /\ route_cache w' = route_cache w0
            /\ commit_jobs w' = commit_jobs w0.
Proof.
  unfold publish, _trigger_route_injection.
  match goal with
  | |- context [_cache_ip_allocation _ (if _ then snd (_ _ _ _ _ _ _ _ ?w0) else _)] =>
      exists w0
  end.
  split; [|split; [|split; [|split]]].
  1-4: destruct (device_given _); [|reflexivity];
       destruct (find _ _); [apply create_dns_record_router|reflexivity].
  cbv zeta. destruct (_is_cyber_range_ip _); cbn; auto.
Qed.

(** X14.  An allocation changes the candidate or the running
    configuration of the router, the commit jobs the router was asked
    for, or the route cache, only if it returned an address that the IPAM
    service's networks and the networks configured in the route-injection
    service both contain, the DNS API took the record of the
    route-injection service and the router took the route. *)
Theorem allocation_reaches_router_only_if
    (cfg : Config) (ans : Answers) (now : Z) (w : World) (subnet_id : Z)
    (device_id : option Z) (preferred_ip notes : option string) (expires_at : option Z)
    (Hchanged :
       let w' := snd (allocate_ip cfg ans now w subnet_id device_id preferred_ip notes
                        expires_at) in
       candidate_routes w' <> candidate_routes w \/ running_routes w' <> running_routes w
       \/ route_cache w' <> route_cache w \/ commit_jobs w' <> commit_jobs w) :
  exists r,
    fst (allocate_ip cfg ans now w subnet_id device_id preferred_ip notes expires_at)
    = Return r
    /\ _is_cyber_range_ip (IPAddress.ip_address r) = true
    /\ is_cyber_range_ip cfg (IPAddress.ip_address r) = true
    /\ dns_add_ok ans = true /\ route_set_ok ans = true.
Proof.
  cbv zeta in Hchanged. revert Hchanged.
  unfold allocate_ip, allocate_ip_body, handler.
  destruct (reserve now w subnet_id device_id preferred_ip notes expires_at)
    as [[[subnet r] rows]|e]; cbn [fst snd].
  2:{ intros [H|[H|[H|H]]]; contradiction. }
  destruct (publish_router cfg ans now subnet r (set_ip_addresses rows w))
    as (w0 & Hc0 & Hr0 & Hk0 & Hj0 & Hpub).
  cbv zeta in Hpub. cbn in Hc0, Hr0, Hk0, Hj0.
  destruct (_is_cyber_range_ip (IPAddress.ip_address r)) eqn:Hmanaged.
  2:{ destruct Hpub as (-> & -> & -> & ->). rewrite Hc0, Hr0, Hk0, Hj0.
      intros [H|[H|[H|H]]]; contradiction. }
  destruct Hpub as (-> & -> & -> & ->).
  match goal with
  | |- context [inject_route_for_dns_record cfg ans now ?z ?f ?i ?t w0] =>
      destruct (route_injected (fst (inject_route_for_dns_record cfg ans now z f i t w0)))
        eqn:Hinjected;
      [apply inject_route_injected_iff in Hinjected as (? & ? & ?)
      |apply inject_route_router_kept in Hinjected as (Hc & Hr & Hk & Hj);
       cbv zeta in Hc, Hr, Hk, Hj; rewrite Hc, Hr, Hk, Hj, Hc0, Hr0, Hk0, Hj0]
  end.
  - intros _. exists r. auto.
  - intros [H|[H|[H|H]]]; contradiction.
Qed.

Lemma allocation_reaches_router_witness :
  exists r,
    fst (allocate_ip default_config all_ok 1000 fresh_world 1 None None None None)
    = Return r
    /\ _is_cyber_range_ip (IPAddress.ip_address r) = true
    /\ is_cyber_range_ip default_config (IPAddress.ip_address r) = true
    /\ dns_add_ok all_ok = true /\ route_set_ok all_ok = true.
Proof.
  apply (allocation_reaches_router_only_if default_config all_ok 1000 fresh_world 1 None
           None None None).
  right. right. left. intros H.
  apply (f_equal (lookup "route:dns_bakerstreetlabs_local_ip_10_100_1_1_bakerstreetlabs_local_10_100_1_1")) in H.
  vm_compute in H. discriminate.
Defined.


Lemma release_row_some ip : forall rows x,
  In x rows -> is_allocated_row ip x = true ->
  exists r rows', release_row ip rows = Some (r, rows').
Proof.
  induction rows as [|y rows IH]; intros x []; intros Hx; cbn.
  - subst y. rewrite Hx. eauto.
  - destruct (is_allocated_row ip y); [eauto|].
    destruct (IH x H Hx) as (r & rows' & ->). eauto.
Qed.

Lemma release_ip_other_names cfg ans now w ip :
  let name := generate_route_name cfg now (ip_fqdn ip) ip "bakerstreetlabs.local" in
  let w' := snd (release_ip cfg ans now w ip) in
  (forall k, k <> cache_key name -> route_cache w' !! k = route_cache w !! k)
  /\ (forall n, n <> name -> candidate_routes w' !! n = candidate_routes w !! n).
Proof.
  cbv zeta. unfold release_ip, release_ip_body, handler, _remove_route_injection.
  destruct (release_row ip (ip_addresses w)) as [[r rows]|]; cbn [snd]; [|auto].
  destruct (_is_cyber_range_ip ip); cbn; [|auto].
  exact (remove_route_other_names cfg ans now "bakerstreetlabs.local" (ip_fqdn ip) ip
           (set_ip_addresses rows w)).
Qed.

(** X13.  The route injected for an allocation made with a device is
    never removed by the release of the address: the allocation names the
    record "device-<id>.bakerstreetlabs.local", the release asks for the
    removal of "ip-<a>-<b>-<c>-<d>.bakerstreetlabs.local".  The allocation
    leaves a cache entry for its route; whatever of the cache has expired
    by the time of the release, the release succeeds, the candidate route
    of the allocation is still there, and the cache entry of the
    allocation is as Redis had it before the release. *)
Theorem device_route_survives_release
    (cfg : Config) (ans ans' : Answers) (now now' : Z) (w : World) (subnet_id : Z)
    (device_id : option Z) (d : Z) (preferred_ip notes : option string)
    (expires_at : option Z) (r : IPAddress.t) (expired : list string)
    (Hdevice : device_given device_id = Some d)
    (Hreturn : fst (allocate_ip cfg ans now w subnet_id device_id preferred_ip notes
                      expires_at) = Return r)
    (Hipam : _is_cyber_range_ip (IPAddress.ip_address r) = true)
    (Hmanaged : is_cyber_range_ip cfg (IPAddress.ip_address r) = true)
    (Hdns : dns_add_ok ans = true)
    (Hroute : route_set_ok ans = true) :
  let ip := IPAddress.ip_address r in
  let name := generate_route_name cfg now
                ("device-" +:+ Py.str d +:+ ".bakerstreetlabs.local") ip
                "bakerstreetlabs.local" in
  let w1 := snd (allocate_ip cfg ans now w subnet_id device_id preferred_ip notes
                   expires_at) in
  let released := release_ip cfg ans' now' (expire expired w1) ip in
  is_Some (route_cache w1 !! cache_key name)
  /\ fst released = Return ("IP address " +:+ ip +:+ " released successfully")
  /\ candidate_routes (snd released) !! name = Some ip
  /\ route_cache (snd released) !! cache_key name
     = route_cache (expire expired w1) !! cache_key name.
Proof.
  cbv zeta.
  destruct (allocate_ip_Return _ _ _ _ _ _ _ _ _ _ Hreturn) as (subnet & rows & Hres & ->).
  destruct (reserve_Return _ _ _ _ _ _ _ _ _ _ Hres)
    as (Hstatus & _ & Hdev & _ & _ & _ & -> & _).
  set (w0 := set_ip_addresses (ip_addresses w ++ [r])%list w).
  set (ip := IPAddress.ip_address r) in *.
  set (name := generate_route_name cfg now _ ip _).
  assert (Hkept : candidate_routes (publish cfg ans now subnet r w0) !! name = Some ip
                  /\ is_Some (route_cache (publish cfg ans now subnet r w0)
                                !! cache_key name)).
  { destruct (publish_router cfg ans now subnet r w0) as (w00 & _ & _ & _ & _ & Hpub).
    cbv zeta in Hpub. fold ip in Hpub. rewrite Hipam in Hpub.
    destruct Hpub as (-> & _ & -> & _).
    unfold injection_fqdn. rewrite Hdev, Hdevice.
    assert (Hinjected : route_injected
              (fst (inject_route_for_dns_record cfg ans now "bakerstreetlabs.local"
                      ("device-" +:+ Py.str d +:+ ".bakerstreetlabs.local") ip 60 w00))
              = true) by (apply inject_route_injected_iff; auto).
    pose proof (inject_route_injected _ _ _ _ _ _ _ _ Hinjected) as Hin. cbv zeta in Hin.
    destruct (inject_route_for_dns_record _ _ _ _ _ _ _ _) as [res w']. cbn [snd].
    destruct Hin as (_ & -> & -> & _). fold name.
    rewrite !lookup_insert_eq. eauto. }
  split; [exact (proj2 Hkept)|].
  set (w1 := expire expired (publish cfg ans now subnet r w0)).
  assert (Hrow : exists r' rows', release_row ip (ip_addresses w1) = Some (r', rows')).
  { subst w1. unfold expire. cbn [ip_addresses set_route_cache].
    rewrite publish_ip_addresses. apply (release_row_some ip _ r).
    - cbn. apply in_or_app. right. left. reflexivity.
    - unfold is_allocated_row. fold ip. rewrite String.eqb_refl, Hstatus. reflexivity. }
  destruct Hrow as (r' & rows' & Hrow).
  split; [exact (proj1 (release_ip_released cfg ans' now' _ ip r' rows' Hrow))|].
  destruct (release_ip_other_names cfg ans' now' w1 ip) as [Hcache Hroutes].
  assert (Hname : name <> generate_route_name cfg now' (ip_fqdn ip) ip
                            "bakerstreetlabs.local").
  { apply (generate_route_name_first_char cfg now now' ip "bakerstreetlabs.local"
             "d" "i" ("evice-" +:+ Py.str d +:+ ".bakerstreetlabs.local")
             ("p-" +:+ Py.replace "." "-" ip +:+ ".bakerstreetlabs.local"));
      discriminate. }
  rewrite Hroutes by exact Hname.
  rewrite Hcache by (intros Hkey; apply cache_key_inj in Hkey; contradiction).
  split; [|reflexivity].
  subst w1. unfold expire. cbn [candidate_routes set_route_cache]. exact (proj1 Hkept).
Qed.

(** The test device takes an address and releases it a thousand seconds
    later. *)
Lemma device_route_survives_release_witness :
  let w1 := snd (allocate_ip default_config all_ok 1000 fresh_world 1 (Some 1) None
                   (Some "Test IP allocation") None) in
  let released := release_ip default_config all_ok 2000 (expire [] w1) "10.100.1.1" in
  is_Some (route_cache w1
             !! "route:dns_bakerstreetlabs_local_device_1_bakerstreetlabs_local_10_100_1_1")
  /\ fst released = Return "IP address 10.100.1.1 released successfully"
  /\ candidate_routes (snd released)
       !! "dns_bakerstreetlabs_local_device_1_bakerstreetlabs_local_10_100_1_1"
     = Some "10.100.1.1"
  /\ route_cache (snd released)
       !! "route:dns_bakerstreetlabs_local_device_1_bakerstreetlabs_local_10_100_1_1"
     = route_cache (expire [] w1)
         !! "route:dns_bakerstreetlabs_local_device_1_bakerstreetlabs_local_10_100_1_1".
Proof.
  exact (device_route_survives_release default_config all_ok all_ok 1000 2000 fresh_world
           1 (Some 1) 1 None (Some "Test IP allocation") None
           {| IPAddress.id := 1; IPAddress.ip_address := "10.100.1.1";
              IPAddress.subnet_id := 1; IPAddress.device_id := Some 1;
              IPAddress.status := "allocated"; IPAddress.allocated_at := Some 1000;
              IPAddress.expires_at := None; IPAddress.notes := Some "Test IP allocation" |}
           [] eq_refl eq_refl eq_refl eq_refl eq_refl eq_refl).
Defined.


(** X16.  Without a device the two names agree: when the route name
    carries no timestamp, the allocation that injected a route leaves a
    cache entry for it, and the release of the address, given a router
    that takes the delete, succeeds and leaves no cache entry under that
    name; the DNS record the injection added is still held by the DNS
    API.  While Redis still holds the entry at the time of the release,
    the candidate route is removed; once the entry has expired, the
    release finds no entry and the route stays in the candidate
    configuration. *)
Theorem address_route_is_removed_on_release
    (cfg : Config) (ans ans' : Answers) (now now' : Z) (w : World) (subnet_id : Z)
    (device_id : option Z) (preferred_ip notes : option string)
    (expires_at : option Z) (r : IPAddress.t) (expired : list string)
    (Hdevice : device_given device_id = None)
    (Hreturn : fst (allocate_ip cfg ans now w subnet_id device_id preferred_ip notes
                      expires_at) = Return r)
    (Hipam : _is_cyber_range_ip (IPAddress.ip_address r) = true)
    (Hmanaged : is_cyber_range_ip cfg (IPAddress.ip_address r) = true)
    (Hdns : dns_add_ok ans = true)
    (Hroute : route_set_ok ans = true)
    (Hstamp : include_timestamp cfg = false)
    (Hdelete : route_delete_ok ans' = true) :
  let ip := IPAddress.ip_address r in
  let name := generate_route_name cfg now (ip_fqdn ip) ip "bakerstreetlabs.local" in
  let w1 := snd (allocate_ip cfg ans now w subnet_id device_id preferred_ip notes
                   expires_at) in
  let released := release_ip cfg ans' now' (expire expired w1) ip in
  is_Some (route_cache w1 !! cache_key name)
  /\ fst released = Return ("IP address " +:+ ip +:+ " released successfully")
  /\ route_cache (snd released) !! cache_key name = None
  /\ In {| dns_zone := "bakerstreetlabs.local"; dns_fqdn := ip_fqdn ip;
           dns_ip_address := ip; dns_ttl := 60 |} (dns_records (snd released))
  /\ (~ In (cache_key name) expired -> candidate_routes (snd released) !! name = None)
  /\ (In (cache_key name) expired -> candidate_routes (snd released) !! name = Some ip).
Proof.
  cbv zeta.
  destruct (allocate_ip_Return _ _ _ _ _ _ _ _ _ _ Hreturn) as (subnet & rows & Hres & ->).
  destruct (reserve_Return _ _ _ _ _ _ _ _ _ _ Hres)
    as (Hstatus & _ & Hdev & _ & _ & _ & -> & _).
  set (w0 := set_ip_addresses (ip_addresses w ++ [r])%list w).
  set (ip := IPAddress.ip_address r) in *.
  set (name := generate_route_name cfg now _ ip _).
  set (w1 := publish cfg ans now subnet r w0).
  assert (Hw1 : candidate_routes w1 !! name = Some ip
                /\ is_Some (route_cache w1 !! cache_key name)
                /\ In {| dns_zone := "bakerstreetlabs.local"; dns_fqdn := ip_fqdn ip;
                         dns_ip_address := ip; dns_ttl := 60 |} (dns_records w1)).
  { subst w1. unfold publish, _trigger_route_injection, _cache_ip_allocation.
    fold ip. rewrite Hipam, Hdev. unfold injection_fqdn. rewrite Hdevice. cbn.
    assert (Hinjected : route_injected
              (fst (inject_route_for_dns_record cfg ans now "bakerstreetlabs.local"
                      (ip_fqdn ip) ip 60 w0)) = true)
      by (apply inject_route_injected_iff; auto).
    pose proof (inject_route_injected _ _ _ _ _ _ _ _ Hinjected) as Hin. cbv zeta in Hin.
    destruct (inject_route_for_dns_record _ _ _ _ _ _ _ _) as [res w']. cbn [snd].
    destruct Hin as (_ & -> & -> & ->). fold name.
    rewrite !lookup_insert_eq. split; [reflexivity|]. split; [eauto|]. left. reflexivity. }
  destruct Hw1 as (Hroute1 & Hcache1 & Hdns1).
  split; [exact Hcache1|].
  set (later := expire expired w1).
  assert (Hrow : exists r' rows', release_row ip (ip_addresses later) = Some (r', rows')).
  { subst later w1. unfold expire. cbn [ip_addresses set_route_cache].
    rewrite publish_ip_addresses. apply (release_row_some ip _ r).
    - cbn. apply in_or_app. right. left. reflexivity.
    - unfold is_allocated_row. fold ip. rewrite String.eqb_refl, Hstatus. reflexivity. }
  destruct Hrow as (r' & rows' & Hrow).
  split; [exact (proj1 (release_ip_released cfg ans' now' _ ip r' rows' Hrow))|].
  unfold release_ip, release_ip_body, handler, _remove_route_injection,
    _cache_ip_allocation.
  rewrite Hrow, Hipam. cbn [snd].
  assert (Hsame : generate_route_name cfg now' (ip_fqdn ip) ip "bakerstreetlabs.local"
                  = name)
    by (apply generate_route_name_timeless; exact Hstamp).
  assert (Hlater : route_cache (set_ip_addresses rows' later) = route_cache later
                   /\ candidate_routes (set_ip_addresses rows' later) = candidate_routes w1
                   /\ dns_records (set_ip_addresses rows' later) = dns_records w1)
    by (repeat split).
  destruct Hlater as (Hlater_cache & Hlater_routes & Hlater_dns).
  destruct (remove_route_for_dns_record cfg ans' now' "bakerstreetlabs.local" (ip_fqdn ip)
              ip (set_ip_addresses rows' later)) as [res w2] eqn:Hremoved.
  cbn [snd route_cache candidate_routes dns_records set_ipam_cache].
  assert (Hcases : (~ In (cache_key name) expired ->
                    route_cache w2 !! cache_key name = None
                    /\ dns_records w2 = dns_records w1
                    /\ candidate_routes w2 !! name = None)
                   /\ (In (cache_key name) expired ->
                       route_cache w2 !! cache_key name = None
                       /\ dns_records w2 = dns_records w1
                       /\ candidate_routes w2 !! name = Some ip)).
  { split.
    - intros Hkept.
      assert (Hcached : is_Some (route_cache (set_ip_addresses rows' later)
                !! cache_key (generate_route_name cfg now' (ip_fqdn ip) ip
                                "bakerstreetlabs.local"))).
      { rewrite Hsame, Hlater_cache. subst later.
        rewrite (expire_lookup_kept _ _ _ Hkept). exact Hcache1. }
      pose proof (remove_route_cached cfg ans' now' "bakerstreetlabs.local" (ip_fqdn ip) ip
                    (set_ip_addresses rows' later) Hcached Hdelete) as Hout.
      cbv zeta in Hout. rewrite Hremoved in Hout.
      destruct Hout as (_ & -> & -> & ->).
      rewrite Hsame, !lookup_delete_eq. auto.
    - intros Hgone.
      rewrite remove_route_not_cached in Hremoved
        by (rewrite Hsame, Hlater_cache; apply expire_lookup_expired; exact Hgone).
      injection Hremoved as _ <-.
      rewrite Hlater_cache, Hlater_routes.
      split; [apply expire_lookup_expired; exact Hgone|]. split; [reflexivity|exact Hroute1]. }
  destruct Hcases as [Hkept Hgone].
  assert (Hdec : In (cache_key name) expired \/ ~ In (cache_key name) expired).
  { destruct (in_dec string_dec (cache_key name) expired); auto. }
  split; [destruct Hdec as [H|H]; [apply (Hgone H)|apply (Hkept H)]|].
  split.
  { destruct Hdec as [H|H];
      [destruct (Hgone H) as (_ & -> & _)|destruct (Hkept H) as (_ & -> & _)];
      exact Hdns1. }
  split; [intros H; apply (Hkept H)|intros H; apply (Hgone H)].
Qed.

(** An address taken without a device and released a thousand seconds
    later, the entry still in the cache. *)
Lemma address_route_is_removed_witness :
  let w1 := snd (allocate_ip default_config all_ok 1000 fresh_world 1 None None None
                   None) in
  let released := release_ip default_config all_ok 2000 (expire [] w1) "10.100.1.1" in
  is_Some (route_cache w1
             !! "route:dns_bakerstreetlabs_local_ip_10_100_1_1_bakerstreetlabs_local_10_100_1_1")
  /\ route_cache (snd released)
       !! "route:dns_bakerstreetlabs_local_ip_10_100_1_1_bakerstreetlabs_local_10_100_1_1"
     = None
  /\ candidate_routes (snd released)
       !! "dns_bakerstreetlabs_local_ip_10_100_1_1_bakerstreetlabs_local_10_100_1_1"
     = None.
Proof.
  pose proof (address_route_is_removed_on_release default_config all_ok all_ok 1000 2000
                fresh_world 1 None None None None
                {| IPAddress.id := 1; IPAddress.ip_address := "10.100.1.1";
                   IPAddress.subnet_id := 1; IPAddress.device_id := None;
                   IPAddress.status := "allocated"; IPAddress.allocated_at := Some 1000;
                   IPAddress.expires_at := None; IPAddress.notes := None |}
                [] eq_refl eq_refl eq_refl eq_refl eq_refl eq_refl eq_refl eq_refl)
    as (Hcached & _ & Hgone & _ & Hremoved & _).
  split; [exact Hcached|]. split; [exact Hgone|]. exact (Hremoved (fun Hin => Hin)).
Defined.

End IPAMRoutes.

Section CacheCoherence.
Import RouteInjectionService IPAMService IPAMApi.

Lemma inject_route_ipam_cache cfg ans now zone fqdn ip ttl w :
  ipam_cache (snd (inject_route_for_dns_record cfg ans now zone fqdn ip ttl w))
  = ipam_cache w.
Proof.
  unfold inject_route_for_dns_record, add_dns_record, create_static_route,
    commit_configuration.
  destruct (is_cyber_range_ip cfg ip); cbn; [|reflexivity].
  destruct (dns_add_ok ans); cbn; [|reflexivity].
  destruct (route_set_ok ans); cbn; [|reflexivity].
  destruct (auto_commit cfg); [destruct (commit_ok ans)|]; reflexivity.
Qed.

Lemma remove_route_ipam_cache cfg ans now zone fqdn ip w :
  ipam_cache (snd (remove_route_for_dns_record cfg ans now zone fqdn ip w))
  = ipam_cache w.
Proof.
  unfold remove_route_for_dns_record, delete_static_route, commit_configuration.
  destruct (route_cache w !! _); cbn; [|reflexivity].
  destruct (route_delete_ok ans); cbn; [|reflexivity].
  destruct (auto_commit cfg); [destruct (commit_ok ans)|]; reflexivity.
Qed.

Lemma publish_ipam_cache cfg ans now subnet ip_record w :
  ipam_cache (publish cfg ans now subnet ip_record w)
  = <["ipam:ip:" +:+ IPAddress.ip_address ip_record := ip_record]> (ipam_cache w).
Proof.
  unfold publish, _cache_ip_allocation, _trigger_route_injection. cbn. f_equal.
  destruct (_is_cyber_range_ip _); [rewrite inject_route_ipam_cache|];
    (destruct (device_given _); [|reflexivity]; destruct (find _ _); [|reflexivity];
     unfold _create_dns_record; destruct (ipam_dns_ok ans); reflexivity).
Qed.

Lemma release_row_keeps ip : forall rows r rows',
  release_row ip rows = Some (r, rows') ->
  In r rows' /\ IPAddress.ip_address r = ip
  /\ forall x, In x rows -> IPAddress.ip_address x <> ip -> In x rows'.
Proof.
  induction rows as [|y rows IH]; intros r rows'; cbn; [discriminate|].
  destruct (is_allocated_row ip y) eqn:Hrow.
  - intros [= <- <-]. split; [left; reflexivity|]. split.
    + unfold is_allocated_row in Hrow. apply andb_prop in Hrow as [Heq _].
      apply String.eqb_eq in Heq. exact Heq.
    + intros x [<-|Hx] Hne; [|right; exact Hx].
      unfold is_allocated_row in Hrow. apply andb_prop in Hrow as [Heq _].
      apply String.eqb_eq in Heq. contradiction.
  - destruct (release_row ip rows) as [[r0 rest]|] eqn:Hrest; [|discriminate].
    intros [= <- <-]. destruct (IH _ _ eq_refl) as (Hin & Haddr & Hkeep).
    split; [right; exact Hin|]. split; [exact Haddr|].
    intros x [<-|Hx] Hne; [left; reflexivity|right; auto].
Qed.

Lemma release_ip_ipam_cache cfg ans now w ip r rows :
  release_row ip (ip_addresses w) = Some (r, rows) ->
  ipam_cache (snd (release_ip cfg ans now w ip))
  = <["ipam:ip:" +:+ IPAddress.ip_address r := r]> (ipam_cache w).
Proof.
  intros Hrow. unfold release_ip, release_ip_body, handler, _cache_ip_allocation,
    _remove_route_injection.
  rewrite Hrow. cbn. f_equal.
  destruct (_is_cyber_range_ip ip); [rewrite remove_route_ipam_cache|]; reflexivity.
Qed.

Lemma serve_cache_coherent cfg call w :
  cache_coherent w -> cache_coherent (snd (serve cfg call w)).
Proof.
  intros Hw. destruct call as [[ans now] [subnet_id device_id preferred_ip notes expires_at|ip]];
    cbn [serve].
  - destruct (allocate_ip cfg ans now w subnet_id device_id preferred_ip notes expires_at)
      as [[r|e] w'] eqn:Hcall; cbn [snd].
    + assert (Hr : fst (allocate_ip cfg ans now w subnet_id device_id preferred_ip notes
                          expires_at) = Return r) by (rewrite Hcall; reflexivity).
      destruct (allocate_ip_Return _ _ _ _ _ _ _ _ _ _ Hr) as (subnet & rows & Hres & Hw').
      rewrite Hcall in Hw'. cbn in Hw'. subst w'.
      destruct (reserve_Return _ _ _ _ _ _ _ _ _ _ Hres)
        as (_ & _ & _ & _ & _ & _ & -> & _).
      intros key rec. rewrite publish_ipam_cache, publish_ip_addresses. cbn.
      destruct (decide (key = "ipam:ip:" +:+ IPAddress.ip_address r)) as [->|Hne].
      * rewrite lookup_insert_eq. intros [= <-]. split; [reflexivity|].
        apply in_or_app. right. left. reflexivity.
      * rewrite lookup_insert_ne by congruence. intros Hrec.
        destruct (Hw _ _ Hrec) as [-> Hin]. split; [reflexivity|].
        apply in_or_app. left. exact Hin.
    + assert (Hr : fst (allocate_ip cfg ans now w subnet_id device_id preferred_ip notes
                          expires_at) = Raise e) by (rewrite Hcall; reflexivity).
      pose proof (allocate_ip_raise_rolls_back _ _ _ _ _ _ _ _ _ _ Hr) as Hsame.
      rewrite Hcall in Hsame. cbn in Hsame. subst w'. exact Hw.
  - destruct (release_row ip (ip_addresses w)) as [[r rows]|] eqn:Hrow.
    + pose proof (release_ip_ipam_cache cfg ans now w ip r rows Hrow) as Hcache.
      destruct (release_ip_released cfg ans now w ip r rows Hrow) as [_ Hrows].
      destruct (release_row_keeps ip _ _ _ Hrow) as (Hin & Haddr & Hkeep).
      destruct (release_ip cfg ans now w ip) as [[m|e] w']; cbn [snd] in *;
        intros key rec; rewrite Hcache, Hrows;
        (destruct (decide (key = "ipam:ip:" +:+ IPAddress.ip_address r)) as [->|Hne];
         [rewrite lookup_insert_eq; intros [= <-]; split; [reflexivity|exact Hin]
         |rewrite lookup_insert_ne by congruence; intros Hrec;
          destruct (Hw _ _ Hrec) as [-> Hin']; split; [reflexivity|];
          apply Hkeep; [exact Hin'|congruence]]).
    + unfold release_ip, release_ip_body, handler. rewrite Hrow. exact Hw.
Qed.

(** X17.  The Redis cache of the IPAM service only ever holds rows of
    the table: if every cache entry is a row of [ip_addresses] stored
    under "ipam:ip:<its address>", then after any run of allocate and
    release calls, failed ones included, every cache entry still is. *)
Theorem cache_entries_are_rows
    (cfg : Config) (calls : list (Answers * Z * Request)) (w : World)
    (Hcoherent : cache_coherent w) :
  cache_coherent (snd (serve_all cfg calls w)).
Proof.
  revert w Hcoherent. induction calls as [|call calls IH]; intros w Hw; [exact Hw|].
  cbn [serve_all]. pose proof (serve_cache_coherent cfg call w Hw) as Hstep.
  destruct (serve cfg call w) as [response w']. cbn [snd] in Hstep.
  specialize (IH w' Hstep). destruct (serve_all cfg calls w') as [responses w''].
  exact IH.
Qed.

Lemma cache_entries_are_rows_witness :
  cache_coherent
    (snd (serve_all default_config
            [(all_ok, 1000, Allocate 1 None None None None);
             (all_ok, 2000, Release "10.100.1.1")] fresh_world)).
Proof.
  apply cache_entries_are_rows. intros key rec H. vm_compute in H. discriminate.
Defined.

End CacheCoherence.

Section ManualDelete.
Import RouteInjectionService DNSWebhookHandler RouteInjectionApi.

(** X19.  Deleting a route by its name and deleting the record it was
    injected for act alike on the router and on the cache: the two leave
    the same world behind, and the manual delete answers 200 exactly when
    the webhook reports the route removed.  They differ on a route that
    is not cached: the manual delete answers 404, the webhook success. *)
Theorem delete_route_matches_deletion_webhook
    (ans : Answers) (zone fqdn ip : string) (w : World) :
  let name := route_name_of fqdn ip in
  let '(response, w1) := delete_route ans name w in
  let '(result, w2) := handle_dns_record_deleted ans zone fqdn ip w in
  w1 = w2
  /\ (fst response = 200 <-> route_removed result = true)
  /\ (fst response = 404 <-> route_cache w !! cache_key name = None)
  /\ (fst response = 404 -> rm_success result = true /\ w1 = w).
Proof.
  cbv zeta. unfold delete_route, handle_dns_record_deleted, delete_static_route,
    commit_configuration.
  destruct (route_cache w !! cache_key (route_name_of fqdn ip)) as [info|]; cbn.
  - destruct (route_delete_ok ans); cbn; [destruct (commit_ok ans); cbn|];
      repeat split; try discriminate; try reflexivity; auto; intros [=].
  - repeat split; try discriminate; try reflexivity; auto.
Qed.

End ManualDelete.

Section CommitVerdict.
Import CommitJob.

Lemma poll_job_true replies : forall fuel i slept slept',
  poll_job fuel replies i slept = Some (Return true, slept') ->
  exists k status_root job_status_elem result_elem,
    (k < fuel)%nat
    /\ replies (i + k)%nat = PollResponse (Some status_root)
    /\ find_descendant "status" status_root = Some job_status_elem
    /\ text_of job_status_elem = Some "FIN"
    /\ find_descendant "result" status_root = Some result_elem
    /\ text_of result_elem = Some "OK"
    /\ (forall j, (j < k)%nat -> in_progress (replies (i + j)%nat) = true)
    /\ slept' = slept + 2 * Z.of_nat k.
Proof.
  induction fuel as [|fuel IH]; intros i slept slept'; cbn [poll_job]; [discriminate|].
  destruct (replies i) as [|[status_root|]] eqn:Hreply; try discriminate.
  destruct (find_descendant "status" status_root) as [job_status_elem|] eqn:Hstatus;
    try discriminate.
  destruct (bool_decide_reflect (text_of job_status_elem = Some "FIN")) as [Hfin|Hrunning].
  - destruct (find_descendant "result" status_root) as [result_elem|] eqn:Hresult;
      [|discriminate].
    destruct (bool_decide_reflect (text_of result_elem = Some "OK")) as [Hok|];
      [|discriminate].
    intros [= <-]. exists 0%nat, status_root, job_status_elem, result_elem.
    rewrite Nat.add_0_r.
    repeat split; auto; try lia.
  - intros Hrest.
    destruct (IH _ _ _ Hrest)
      as (k & sr & js & re & Hk & Hr & Hs & Hf & Hres & Hok & Hbefore & ->).
    exists (S k), sr, js, re. rewrite Nat.add_succ_r.
    repeat split; auto; try lia.
    intros [|j] Hj.
    + rewrite Nat.add_0_r, Hreply. unfold in_progress.
      rewrite Hstatus, bool_decide_eq_false_2 by exact Hrunning. reflexivity.
    + rewrite Nat.add_succ_r. apply Hbefore. lia.
Qed.

(** X20.  [commit_config] returns [True] only on the word of the device:
    the answer to the commit request parsed and had status "success",
    and either it held no [job] element, or the first poll that did not
    show a job in progress parsed, its first [status] element read FIN
    and its first [result] element read OK, after two seconds of sleep
    for each poll before it. *)
Theorem commit_config_true_only_if
    (fuel : nat) (commit : CommitReply) (replies : nat -> PollReply) (slept : Z)
    (Htrue : commit_config fuel commit replies = Some (Return true, slept)) :
  exists root,
    commit = CommitResponse (Some root)
    /\ get root "status" = Some "success"
    /\ match find_descendant "job" root with
       | None => slept = 0
       | Some _ =>
           exists k status_root job_status_elem result_elem,
             (k < fuel)%nat
             /\ replies k = PollResponse (Some status_root)
             /\ find_descendant "status" status_root = Some job_status_elem
             /\ text_of job_status_elem = Some "FIN"
             /\ find_descendant "result" status_root = Some result_elem
             /\ text_of result_elem = Some "OK"
             /\ (forall j, (j < k)%nat -> in_progress (replies j) = true)
             /\ slept = 2 * Z.of_nat k
       end.
Proof.
  revert Htrue. unfold commit_config.
  destruct commit as [|[root|]]; try discriminate.
  destruct (bool_decide_reflect (get root "status" = Some "success")) as [Hstatus|];
    cbn [negb]; [|discriminate].
  intros Hpoll. exists root. split; [reflexivity|]. split; [exact Hstatus|].
  destruct (find_descendant "job" root) as [job_id_elem|].
  - destruct (poll_job_true _ _ _ _ _ Hpoll)
      as (k & sr & js & re & Hk & Hr & Hs & Hf & Hres & Hok & Hbefore & ->).
    exists k, sr, js, re. cbn in Hr. auto 10.
  - injection Hpoll as <-. reflexivity.
Qed.

(** The job that finishes at the third poll, in answers that hold the
    [status] and [result] elements with no wrapper around them. *)
Lemma commit_config_true_witness :
  exists root,
    CommitResponse (Some commit_answer) = CommitResponse (Some root)
    /\ get root "status" = Some "success"
    /\ match find_descendant "job" root with
       | None => 4 = 0
       | Some _ =>
           exists k status_root job_status_elem result_elem,
             (k < 3)%nat
             /\ flat_job_finishes_third k = PollResponse (Some status_root)
             /\ find_descendant "status" status_root = Some job_status_elem
             /\ text_of job_status_elem = Some "FIN"
             /\ find_descendant "result" status_root = Some result_elem
             /\ text_of result_elem = Some "OK"
             /\ (forall j, (j < k)%nat -> in_progress (flat_job_finishes_third j) = true)
             /\ 4 = 2 * Z.of_nat k
       end.
Proof.
  exact (commit_config_true_only_if 3%nat (CommitResponse (Some commit_answer))
           flat_job_finishes_third 4 eq_refl).
Defined.

End CommitVerdict.

Section ManagedNetworks.
Import RouteInjectionService.

Lemma slash16_disjoint a b ip :
  a <> b ->
  ipaddress.contains {| ipaddress.network_address := a; ipaddress.prefixlen := 16 |} ip
  = true ->
  ipaddress.contains {| ipaddress.network_address := b; ipaddress.prefixlen := 16 |} ip
  = false.
Proof.
  unfold ipaddress.contains, ipaddress.netmask. cbn. intros Hab Ha.
  apply Z.eqb_eq in Ha. apply Z.eqb_neq. congruence.
Qed.

Lemma slash16_in_slash8 a ip :
  ipaddress.contains {| ipaddress.network_address := a; ipaddress.prefixlen := 16 |} ip
  = true ->
  ipaddress.contains {| ipaddress.network_address := Z.land a (Z.shiftl (Z.ones 8) 24);
                        ipaddress.prefixlen := 8 |} ip
  = true.
Proof.
  unfold ipaddress.contains, ipaddress.netmask. cbn [ipaddress.prefixlen
    ipaddress.network_address].
  change (ipaddress.ip_int_from_prefix 16) with (Z.shiftl (Z.ones 16) 16).
  change (ipaddress.ip_int_from_prefix 8) with (Z.shiftl (Z.ones 8) 24).
  intros Ha. apply Z.eqb_eq in Ha. apply Z.eqb_eq. rewrite <- Ha, <- Z.land_assoc.
  reflexivity.
Qed.

(** X21.  The IPAM service and the route-injection service with its
    default configuration disagree on exactly the addresses of
    172.21.0.0/16: these, and no others, are addresses for which the IPAM
    service asks for a route that the route-injection service declines
    to inject. *)
Theorem managed_networks_differ_on_172_21 (s : string) :
  IPAMService._is_cyber_range_ip s = true /\ is_cyber_range_ip default_config s = false
  <-> exists ip, ipaddress.ip_address s = Some ip
                 /\ in_networks ip ["172.21.0.0/16"] = Some true.
Proof.
  unfold is_cyber_range_ip, IPAMService._is_cyber_range_ip.
  destruct ipam_networks_parsed as (N1 & N2 & N3 & N4).
  destruct (ipaddress.ip_address s) as [ip|].
  2:{ split; [intros [? _]; discriminate|intros (ip & ? & _); discriminate]. }
  cbn [cyber_range_networks default_config in_networks]. rewrite N1, N2, N3, N4.
  destruct (ipaddress.contains {| ipaddress.network_address := (172 * 256 + 21) * 2 ^ 16;
                                  ipaddress.prefixlen := 16 |} ip) eqn:C3.
  - pose proof (slash16_disjoint ((172 * 256 + 21) * 2 ^ 16) ((172 * 256 + 20) * 2 ^ 16) ip
                  ltac:(intro E; vm_compute in E; discriminate) C3)
      as C2.
    pose proof (slash16_disjoint ((172 * 256 + 21) * 2 ^ 16) ((192 * 256 + 168) * 2 ^ 16) ip
                  ltac:(intro E; vm_compute in E; discriminate) C3)
      as C4.
    pose proof (slash16_in_slash8 _ ip C3) as C1.
    assert (C1' : ipaddress.contains {| ipaddress.network_address := 10 * 2 ^ 24;
                                        ipaddress.prefixlen := 8 |} ip = false).
    { revert C1. unfold ipaddress.contains, ipaddress.netmask.
      cbn [ipaddress.network_address ipaddress.prefixlen].
      intros C1. apply Z.eqb_eq in C1. apply Z.eqb_neq. rewrite C1.
      intros E. vm_compute in E. discriminate. }
    rewrite C1', C2, C4. cbn. split; [|auto].
    intros _. exists ip. rewrite C3. auto.
  - split.
    + intros [Hipam Hdefault]. exfalso. revert Hipam Hdefault.
      destruct
        (ipaddress.contains {| ipaddress.network_address := 10 * 2 ^ 24;
                               ipaddress.prefixlen := 8 |} ip),
        (ipaddress.contains {| ipaddress.network_address := (172 * 256 + 20) * 2 ^ 16;
                               ipaddress.prefixlen := 16 |} ip),
        (ipaddress.contains {| ipaddress.network_address := (192 * 256 + 168) * 2 ^ 16;
                               ipaddress.prefixlen := 16 |} ip);
        cbn; congruence.
    + cbn. intros (ip' & [= <-] & H). rewrite C3 in H. discriminate.
Qed.

End ManagedNetworks.

(** * The requests of the router client *)

Section RouterRequests.
Import MasterRouterManager.

Lemma run_with_api_key device router op m :
  run device router op m = with_api_key device router (request_of router op) m.
Proof. destruct op; reflexivity. Qed.

Lemma run_cached device router op m api_key :
  api_keys m !! ip_address router = Some api_key ->
  Py.truthy api_key = true ->
  run device router op m
  = (succeeded (device (sent m) (request_of router op api_key)),
     {| api_keys := api_keys m;
        sent := (sent m ++ [request_of router op api_key])%list |}).
Proof.
  intros Hcached Hkey. rewrite run_with_api_key.
  unfold with_api_key, get_api_key, send. rewrite Hcached, Hkey. reflexivity.
Qed.

(** X22.  A cached API key is never renewed.  Once [api_keys] holds a
    key for the router, every operation sends exactly its one request
    with that key and never a [keygen] request, whatever the router
    answers; the result of each operation is the reading of the answer to
    its request.  A router that stops taking the key is asked again with
    the same key on every later call. *)
Theorem cached_key_is_never_renewed
    (device : Device) (router : RouterConfig) (api_key : string) :
  forall (ops : list Operation) (m : Manager)
    (Hcached : api_keys m !! ip_address router = Some api_key)
    (Hkey : Py.truthy api_key = true),
  let '(results, m') := run_all device router ops m in
  api_keys m' = api_keys m
  /\ sent m' = (sent m ++ map (fun op => request_of router op api_key) ops)%list
  /\ forall i,
       results !! i
       = (fun op =>
            succeeded
              (device (sent m ++ map (fun op => request_of router op api_key)
                                     (take i ops))%list
                      (request_of router op api_key))) <$> ops !! i.
Proof.
  induction ops as [|op ops IH]; intros m Hcached Hkey; cbn [run_all].
  - split; [reflexivity|]. split; [cbn; rewrite app_nil_r; reflexivity|].
    intros i. rewrite !lookup_nil. reflexivity.
  - rewrite (run_cached device router op m api_key Hcached Hkey).
    specialize (IH {| api_keys := api_keys m;
                      sent := (sent m ++ [request_of router op api_key])%list |}
                   Hcached Hkey).
    destruct (run_all device router ops _) as [results m'].
    destruct IH as (Hkeys & Hsent & Hresults). cbn [api_keys sent] in *.
    split; [exact Hkeys|]. split; [rewrite Hsent, <- app_assoc; reflexivity|].
    intros [|i].
    + cbn. rewrite app_nil_r. reflexivity.
    + specialize (Hresults i). rewrite <- app_assoc in Hresults. exact Hresults.
Qed.

Lemma cached_key_witness :
  let '(results, m') :=
    run_all router_rejects primary_router
      [Create "dns_a_10_0_0_1" "10.0.0.1"; CommitConfiguration; Delete "dns_a_10_0_0_1"]
      {| api_keys := {["192.168.255.254" := "expired"]}; sent := [] |} in
  api_keys m' = {["192.168.255.254" := "expired"]}
  /\ key_of <$> sent m' = [Some "expired"; Some "expired"; Some "expired"]
  /\ results !! 2%nat = Some false.
Proof.
  pose proof (cached_key_is_never_renewed router_rejects primary_router "expired"
                [Create "dns_a_10_0_0_1" "10.0.0.1"; CommitConfiguration;
                 Delete "dns_a_10_0_0_1"]
                {| api_keys := {["192.168.255.254" := "expired"]}; sent := [] |}
                eq_refl eq_refl) as H.
  destruct (run_all _ _ _ _) as [results m'].
  destruct H as (Hkeys & Hsent & Hresults).
  split; [exact Hkeys|]. split; [rewrite Hsent; reflexivity|].
  rewrite (Hresults 2%nat). reflexivity.
Defined.

Lemma key_of_request_of router op api_key :
  key_of (request_of router op api_key) = Some api_key.
Proof. destruct op; reflexivity. Qed.

Lemma issued_app device log ext api_key :
  issued device log api_key -> issued device (log ++ ext) api_key.
Proof.
  intros (j & url & user & pass & root & Hj & Hreply & Hroot).
  exists j, url, user, pass, root.
  pose proof (lookup_lt_Some _ _ _ Hj) as Hlt.
  rewrite lookup_app_l by exact Hlt. rewrite take_app_le by lia. auto.
Qed.

Lemma issued_last device log url user pass root api_key :
  device log (Keygen url user pass) = Answer 200 (Some root) ->
  xml_key root = Some api_key ->
  issued device (log ++ [Keygen url user pass]) api_key.
Proof.
  intros Hreply Hroot. exists (length log), url, user, pass, root.
  split; [apply list_lookup_middle; reflexivity|].
  rewrite take_app_length. auto.
Qed.

(** What holds of the manager between two operations. *)
Lemma run_keeps_issued_keys device router op m :
  (forall ip k, api_keys m !! ip = Some k ->
     Py.truthy k = true /\ issued device (sent m) k) ->
  (forall i request k, sent m !! i = Some request -> key_of request = Some k ->
     Py.truthy k = true /\ issued device (take i (sent m)) k) ->
  let m' := snd (run device router op m) in
  (forall ip k, api_keys m' !! ip = Some k ->
     Py.truthy k = true /\ issued device (sent m') k)
  /\ (forall i request k, sent m' !! i = Some request -> key_of request = Some k ->
        Py.truthy k = true /\ issued device (take i (sent m')) k).
Proof.
  intros Hkeys Hsent. cbv zeta. rewrite run_with_api_key.
  assert (Hextend : forall (log : list Request) new,
            (forall i request k, log !! i = Some request -> key_of request = Some k ->
               Py.truthy k = true /\ issued device (take i log) k) ->
            (forall k, key_of new = Some k ->
               Py.truthy k = true /\ issued device log k) ->
            forall i request k, (log ++ [new])%list !! i = Some request ->
              key_of request = Some k ->
              Py.truthy k = true /\ issued device (take i (log ++ [new])) k).
  { intros log new Hlog Hnew i request k Hi Hk.
    destruct (decide (i < length log)%nat) as [Hlt|Hge].
    - rewrite lookup_app_l in Hi by exact Hlt. rewrite take_app_le by lia. eauto.
    - rewrite lookup_app_r in Hi by lia.
      destruct (i - length log)%nat as [|n] eqn:Hn; [|rewrite lookup_cons in Hi;
        rewrite lookup_nil in Hi; discriminate].
      injection Hi as <-. assert (i = length log) as -> by lia.
      rewrite take_app_length. eauto. }
  unfold with_api_key, get_api_key.
  destruct (api_keys m !! ip_address router) as [cached|] eqn:Hcached.
  - destruct (Hkeys _ _ Hcached) as [Htruthy Hissued]. rewrite Htruthy. cbn.
    split.
    + intros ip k Hk. destruct (Hkeys _ _ Hk). split; [assumption|].
      apply issued_app. assumption.
    + apply Hextend; [exact Hsent|]. intros k. rewrite key_of_request_of.
      intros [= <-]. auto.
  - unfold send.
    set (keygen := Keygen (url router) (username router) (password router)).
    assert (Hlog1 : forall i request k,
              (sent m ++ [keygen])%list !! i = Some request -> key_of request = Some k ->
              Py.truthy k = true /\ issued device (take i (sent m ++ [keygen])) k).
    { apply Hextend; [exact Hsent|]. intros k [=]. }
    assert (Hkeys1 : forall ip k, api_keys m !! ip = Some k ->
              Py.truthy k = true /\ issued device (sent m ++ [keygen]) k).
    { intros ip k Hk. destruct (Hkeys _ _ Hk). split; [assumption|].
      apply issued_app. assumption. }
    destruct (device (sent m) keygen) as [|status_code [root|]] eqn:Hreply;
      cbn; [auto| |auto].
    destruct (Z.eqb_spec status_code 200) as [->|]; [|cbn; auto].
    destruct (xml_key root) as [api_key|] eqn:Hroot; [|cbn; auto].
    destruct (Py.truthy api_key) eqn:Htruthy; [|cbn; auto].
    cbn. rewrite Htruthy. cbn.
    pose proof (issued_last device (sent m) _ _ _ root api_key Hreply Hroot) as Hnew.
    fold keygen in Hnew. split.
    + intros ip k. destruct (decide (ip = ip_address router)) as [->|Hne].
      * rewrite lookup_insert_eq. intros [= <-]. split; [exact Htruthy|].
        apply issued_app. exact Hnew.
      * rewrite lookup_insert_ne by congruence. intros Hk.
        destruct (Hkeys1 _ _ Hk). split; [assumption|]. apply issued_app. assumption.
    + apply Hextend; [exact Hlog1|]. intros k. rewrite key_of_request_of.
      intros [= <-]. auto.
Qed.

(** X23.  The manager never sends a key the router did not issue.  From
    a manager that starts with no key, every [config] and [commit]
    request of any run of operations carries a non-empty key that the
    router gave, in a 200, in answer to a [keygen] request sent before
    it; so an operation whose [keygen] request gets no key sends nothing
    else. *)
Theorem requests_carry_issued_keys
    (device : Device) (router : RouterConfig) (ops : list Operation) :
  let m' := snd (run_all device router ops {| api_keys := ∅; sent := [] |}) in
  forall i request api_key,
    sent m' !! i = Some request ->
    key_of request = Some api_key ->
    Py.truthy api_key = true /\ issued device (take i (sent m')) api_key.
Proof.
  cbv zeta.
  assert (Hall : forall ops m,
            (forall ip k, api_keys m !! ip = Some k ->
               Py.truthy k = true /\ issued device (sent m) k) ->
            (forall i request k, sent m !! i = Some request -> key_of request = Some k ->
               Py.truthy k = true /\ issued device (take i (sent m)) k) ->
            forall i request k,
              sent (snd (run_all device router ops m)) !! i = Some request ->
              key_of request = Some k ->
              Py.truthy k = true
              /\ issued device (take i (sent (snd (run_all device router ops m)))) k).
  { clear ops. induction ops as [|op ops IH]; intros m Hkeys Hsent; [exact Hsent|].
    cbn [run_all].
    destruct (run_keeps_issued_keys device router op m Hkeys Hsent) as [Hkeys' Hsent'].
    destruct (run device router op m) as [result m1]. cbn [snd] in Hkeys', Hsent'.
    specialize (IH m1 Hkeys' Hsent').
    destruct (run_all device router ops m1) as [results m2]. exact IH. }
  apply Hall; cbn.
  - intros ip k Hk. rewrite lookup_empty in Hk. discriminate.
  - intros i request k Hi. rewrite lookup_nil in Hi. discriminate.
Qed.

Lemma requests_carry_issued_keys_witness :
  Py.truthy "k1" = true
  /\ issued router_accepts
       (take 1 (sent (snd (run_all router_accepts primary_router
                             [Create "dns_a_10_0_0_1" "10.0.0.1"; CommitConfiguration]
                             {| api_keys := ∅; sent := [] |}))))
       "k1".
Proof.
  exact (requests_carry_issued_keys router_accepts primary_router
           [Create "dns_a_10_0_0_1" "10.0.0.1"; CommitConfiguration] 1%nat
           (request_of primary_router (Create "dns_a_10_0_0_1" "10.0.0.1") "k1") "k1"
           eq_refl eq_refl).
Defined.

End RouterRequests.

(** * The configuration lookup *)

Section ConfigLookup.
Import ConfigManager.

Lemma split_not_nil sep : forall s, Py.split sep s <> [].
Proof.
  induction s as [|c s IH]; cbn; [discriminate|].
  destruct (Ascii.eqb c sep); [discriminate|]. destruct (Py.split sep s); discriminate.
Qed.

Lemma split_app sep b : forall a,
  Py.split sep (a +:+ String sep b) = (Py.split sep a ++ Py.split sep b)%list.
Proof.
  induction a as [|c a IH].
  - change ("" +:+ String sep b) with (String sep b). cbn.
    rewrite Ascii.eqb_refl. reflexivity.
  - change (String c a +:+ String sep b) with (String c (a +:+ String sep b)).
    cbn. rewrite IH. destruct (Ascii.eqb c sep); [reflexivity|].
    destruct (Py.split sep a) as [|piece pieces] eqn:Ha; [|reflexivity].
    destruct (split_not_nil sep a Ha).
Qed.

Lemma walk_app default q : q <> [] -> forall p value,
  walk value (p ++ q) default = walk (walk value p VNone) q default.
Proof.
  intros Hq. induction p as [|k p IH]; intros value; [reflexivity|].
  assert (Hnone : walk VNone q default = default) by (destruct q; [contradiction|reflexivity]).
  cbn. destruct value; auto. destruct (d !! k); auto.
Qed.

(** X24.  A dotted key is looked up step by step: [get] of "a.b" with
    a default is [get] of "b", with that default, in what [get] of "a"
    returns with the default [None]; so a path that leaves the
    dictionaries at any step, or names a missing key, gives the default
    of the whole lookup. *)
Theorem get_composes (config : Value) (a b : string) (default : Value) :
  get config (a +:+ "." +:+ b) default = get (get config a VNone) b default.
Proof.
  unfold get. change ("." +:+ b) with (String "." b).
  rewrite split_app. apply walk_app, split_not_nil.
Qed.

End ConfigLookup.

(** * The configured networks of the enhanced service *)

Section ConfiguredNetworks.
Import RouteInjectionService.

Lemma in_networks_cut ip bad after : forall before,
  ipaddress.ip_network false bad = None ->
  default false (in_networks ip (before ++ bad :: after))
  = default false (in_networks ip before).
Proof.
  intros before Hbad. induction before as [|n before IH]; cbn.
  - rewrite Hbad. reflexivity.
  - destruct (ipaddress.ip_network false n) as [network|]; [|reflexivity].
    destruct (ipaddress.contains network ip); [reflexivity|exact IH].
Qed.

(** X25.  An entry of [cyber_range_networks] that [ip_network] cannot
    read hides every entry after it: [is_cyber_range_ip] answers as if
    the list ended before that entry, the [ValueError] being swallowed
    into [False]. *)
Theorem unreadable_network_hides_later_ones
    (cfg cfg' : Config) (before after : list string) (bad s : string)
    (Hnetworks : cyber_range_networks cfg = (before ++ bad :: after)%list)
    (Hcut : cyber_range_networks cfg' = before)
    (Hbad : ipaddress.ip_network false bad = None) :
  is_cyber_range_ip cfg s = is_cyber_range_ip cfg' s.
Proof.
  unfold is_cyber_range_ip. rewrite Hnetworks, Hcut.
  destruct (ipaddress.ip_address s) as [ip|]; [|reflexivity].
  apply in_networks_cut. exact Hbad.
Qed.

Lemma unreadable_network_witness :
  is_cyber_range_ip networks_with_typo "192.168.1.100" = false
  /\ is_cyber_range_ip default_config "192.168.1.100" = true.
Proof.
  split; [|reflexivity].
  rewrite (unreadable_network_hides_later_ones networks_with_typo networks_before_typo
             ["10.0.0.0/8"] ["192.168.0.0/16"] "172.20.0.0/33" "192.168.1.100"
             eq_refl eq_refl eq_refl).
  reflexivity.
Defined.

End ConfiguredNetworks.

(** * The expiry of an allocation *)

Section Expiry.
Import RouteInjectionService IPAMService IPAMApi.

Lemma holdings_existsb (p : string -> Z -> string -> bool) : forall rows rows',
  map (fun r => (IPAddress.ip_address r, IPAddress.subnet_id r, IPAddress.status r)) rows
  = map (fun r => (IPAddress.ip_address r, IPAddress.subnet_id r, IPAddress.status r)) rows' ->
  existsb (fun r => p (IPAddress.ip_address r) (IPAddress.subnet_id r) (IPAddress.status r))
          rows
  = existsb (fun r => p (IPAddress.ip_address r) (IPAddress.subnet_id r)
                        (IPAddress.status r)) rows'.
Proof.
  induction rows as [|r rows IH]; intros [|r' rows']; cbn; try discriminate; [reflexivity|].
  intros [= Hip Hsubnet Hstatus Hrest]. rewrite Hip, Hsubnet, Hstatus, (IH _ Hrest).
  reflexivity.
Qed.

Lemma holdings_allocated_set subnet_id : forall rows rows',
  map (fun r => (IPAddress.ip_address r, IPAddress.subnet_id r, IPAddress.status r)) rows
  = map (fun r => (IPAddress.ip_address r, IPAddress.subnet_id r, IPAddress.status r)) rows' ->
  allocated_set rows subnet_id = allocated_set rows' subnet_id.
Proof.
  unfold allocated_set.
  induction rows as [|r rows IH]; intros [|r' rows']; cbn; try discriminate; [reflexivity|].
  intros [= Hip Hsubnet Hstatus Hrest]. rewrite Hsubnet, Hstatus.
  destruct ((IPAddress.subnet_id r' =? subnet_id)
            && in_allocated_reserved (IPAddress.status r')); cbn;
    rewrite (IH _ Hrest); congruence.
Qed.

Lemma find_existsb {A} (p : A -> bool) l :
  existsb p l = match find p l with Some _ => true | None => false end.
Proof. induction l as [|x l IH]; cbn; [reflexivity|]. destruct (p x); auto. Qed.

(** X26.  The expiry of an allocation is stored and never read.  Two
    worlds with the same subnets and the same devices, whose tables agree
    on the address, the subnet and the status of each row, give the same
    list of available addresses and the same outcome of an allocation,
    whatever the [expires_at] of their rows and of the request and
    whatever the times of the two calls: the same address, or the same
    error, a refused insert being refused for the same constraint and the
    same address, subnet, device, status and notes (its text also shows
    the times and the expiry of the request).  An address allocated with
    an expiry stays taken until it is released. *)
Theorem expiry_is_never_read
    (cfg : Config) (ans ans' : Answers) (now now' : Z) (w w' : World) (subnet_id : Z)
    (device_id : option Z) (preferred_ip notes : option string)
    (expires_at expires_at' : option Z)
    (Hsubnets : subnets w = subnets w')
    (Hdevices : devices w = devices w')
    (Hholdings : holdings w = holdings w') :
  get_available_ips w subnet_id = get_available_ips w' subnet_id
  /\ match fst (allocate_ip cfg ans now w subnet_id device_id preferred_ip notes
                  expires_at),
           fst (allocate_ip cfg ans' now' w' subnet_id device_id preferred_ip notes
                  expires_at') with
     | Return r, Return r' =>
         IPAddress.ip_address r = IPAddress.ip_address r'
         /\ IPAddress.status r = IPAddress.status r'
     | Raise e, Raise e' =>
         e = e'
         \/ exists violation parameters parameters',
              e = HTTPException 500 (StrOf (IntegrityError violation parameters))
              /\ e' = HTTPException 500 (StrOf (IntegrityError violation parameters'))
              /\ ins_ip_address parameters = ins_ip_address parameters'
              /\ ins_subnet_id parameters = ins_subnet_id parameters'
              /\ ins_device_id parameters = ins_device_id parameters'
              /\ ins_status parameters = ins_status parameters'
              /\ ins_notes parameters = ins_notes parameters'
     | _, _ => False
     end.
Proof.
  unfold holdings in Hholdings.
  pose proof (holdings_allocated_set subnet_id _ _ Hholdings) as Hset.
  split.
  - unfold get_available_ips. rewrite Hsubnets, Hset. reflexivity.
  - unfold allocate_ip, allocate_ip_body, handler, reserve, find_available, insert.
    rewrite Hsubnets, Hset, Hdevices.
    destruct (find _ (subnets w')) as [subnet|]; [|left; reflexivity].
    destruct (ipaddress.ip_network true _) as [network|]; [|left; reflexivity].
    assert (Hheld : forall s,
              match find (fun r => String.eqb (IPAddress.ip_address r) s
                                   && in_allocated_reserved (IPAddress.status r))
                         (ip_addresses w) with Some _ => true | None => false end
              = match find (fun r => String.eqb (IPAddress.ip_address r) s
                                     && in_allocated_reserved (IPAddress.status r))
                           (ip_addresses w') with Some _ => true | None => false end).
    { intros s. rewrite <- !find_existsb.
      exact (holdings_existsb (fun a _ st => String.eqb a s && in_allocated_reserved st)
               _ _ Hholdings). }
    assert (Hrow : forall s,
              existsb (fun r => String.eqb (IPAddress.ip_address r) s) (ip_addresses w)
              = existsb (fun r => String.eqb (IPAddress.ip_address r) s) (ip_addresses w')).
    { intros s. exact (holdings_existsb (fun a _ _ => String.eqb a s) _ _ Hholdings). }
    destruct (preference preferred_ip) as [preferred|].
    + destruct (check_preferred network preferred) as [[]|e]; [|left; reflexivity].
      specialize (Hheld preferred).
      destruct (find _ (ip_addresses w)), (find _ (ip_addresses w'));
        try discriminate; [left; reflexivity|].
      cbn [IPAddress.ip_address IPAddress.device_id]. rewrite (Hrow preferred).
      destruct (existsb _ (ip_addresses w'));
        [right; do 3 eexists; repeat split|].
      destruct (device_exists (devices w') device_id); cbn [negb fst];
        [auto|right; do 3 eexists; repeat split].
    + destruct (first_available network _) as [s|e]; [|left; reflexivity].
      cbn [IPAddress.ip_address IPAddress.device_id]. rewrite (Hrow s).
      destruct (existsb _ (ip_addresses w'));
        [right; do 3 eexists; repeat split|].
      destruct (device_exists (devices w') device_id); cbn [negb fst];
        [auto|right; do 3 eexists; repeat split].
Qed.

(** The address of [allocated_world] asked for again, three thousand
    seconds later. *)
Lemma expiry_is_never_read_witness :
  fst (allocate_ip default_config all_ok 5000 allocated_world 1 None (Some "10.100.1.1")
         None None)
  = Raise (HTTPException 500
             (StrOf (HTTPException 409 (Msg "Preferred IP already allocated")))).
Proof.
  pose proof (expiry_is_never_read default_config all_ok all_ok 2000 5000 allocated_world
                allocated_world 1 None (Some "10.100.1.1") None None None
                eq_refl eq_refl eq_refl) as [_ Hsame].
  destruct (fst (allocate_ip default_config all_ok 5000 allocated_world 1 None
                   (Some "10.100.1.1") None None)) as [r'|e'].
  - vm_compute in Hsame. destruct Hsame.
  - vm_compute in Hsame.
    destruct Hsame as [Hsame|(violation & parameters & parameters' & Habs & _)];
      [rewrite <- Hsame; reflexivity|discriminate Habs].
Defined.

End Expiry.

